(** * North Med Diagnostics: laboratory reagent inventory

    A shallow embedding of the domain, service and persistence layers of
    [src/script.js] ([DateUtils], [InventoryService], [InventoryRepository])
    together with the properties of the specification that concern them.

    Conventions of the embedding.
    - JavaScript values are the inductive [value]; numbers are [number]:
      [NaN], the two infinities, or a finite number given by the rational it
      denotes (both zeros are the rational 0, a decimal literal keeps its
      exact value).
    - Strings are Rocq byte strings; case conversion and white space are the
      ASCII ones.
    - What the host environment decides (the clock, [Date] parsing of a
      string, the local time zone, the digits of a non-integer number) is a
      field of the record [Host]; every definition is parametric in it.
    - Arrays are lists; where identity of an array matters they live in a
      store ([Module Heap]).
    - The asynchronous repository is sequential code over a world made of the
      backend state and the console ([Module Repository]). *)

From Stdlib Require Import ZArith QArith Qabs Qround Ascii String DecimalString.
From stdpp Require Import base option list sorting strings gmap.

Local Open Scope string_scope.
Local Open Scope list_scope.
Local Open Scope Z_scope.

(* ===================================================================== *)
(** ** JavaScript numbers *)
(* ===================================================================== *)

Inductive number : Type :=
  | NaN
  | Infinity (negative : bool)
  | Finite (q : Q).

Definition num_of_Z (z : Z) : number := Finite (inject_Z z).

(** [x < y] on numbers; [None] is the "undefined" outcome for [NaN]. *)
Definition num_lt (x y : number) : option bool :=
  match x, y with
  | NaN, _ | _, NaN => None
  | Infinity true, Infinity true => Some false
  | Infinity true, _ => Some true
  | _, Infinity true => Some false
  | Infinity false, _ => Some false
  | _, Infinity false => Some true
  | Finite p, Finite q => Some (negb (Qle_bool q p))
  end.

(** [x === y] on numbers. *)
Definition num_eq (x y : number) : bool :=
  match x, y with
  | Finite p, Finite q => Qeq_bool p q
  | Infinity a, Infinity b => Bool.eqb a b
  | _, _ => false
  end.

Definition is_NaN (x : number) : bool :=
  match x with NaN => true | _ => false end.

(* ===================================================================== *)
(** ** Strings *)
(* ===================================================================== *)

Definition ascii_code (c : ascii) : Z := Z.of_nat (nat_of_ascii c).

Definition lower_char (c : ascii) : ascii :=
  let n := ascii_code c in
  if (65 <=? n) && (n <=? 90) then ascii_of_nat (Z.to_nat (n + 32)) else c.

(** [s.toLowerCase()] *)
Fixpoint toLowerCase (s : string) : string :=
  match s with
  | EmptyString => EmptyString
  | String c t => String (lower_char c) (toLowerCase t)
  end.

(** [hay.includes(needle)] *)
Fixpoint includes (hay needle : string) : bool :=
  String.prefix needle hay
  || match hay with
     | EmptyString => false
     | String _ t => includes t needle
     end.

(** [parts.join(sep)] on an array of strings. *)
Fixpoint join (sep : string) (parts : list string) : string :=
  match parts with
  | [] => ""
  | [p] => p
  | p :: rest => (p ++ sep ++ join sep rest)%string
  end.

(** Template-literal rendering of an integer. *)
Definition string_of_Z (z : Z) : string := NilZero.string_of_int (Z.to_int z).

(** [x < y] on two strings: lexicographic on code units. *)
Definition str_lt (x y : string) : bool :=
  match String.compare x y with Lt => true | _ => false end.

(* --------------------------------------------------------------------- *)
(** *** Numeric literals: [Number(s)] on a string *)

Definition is_ws (c : ascii) : bool :=
  let n := ascii_code c in
  (n =? 32) || ((9 <=? n) && (n <=? 13)).

Definition is_digit (c : ascii) : bool :=
  let n := ascii_code c in (48 <=? n) && (n <=? 57).

Definition digit_val (c : ascii) : option Z :=
  let n := ascii_code c in
  if (48 <=? n) && (n <=? 57) then Some (n - 48)
  else if (97 <=? n) && (n <=? 102) then Some (n - 87)
  else if (65 <=? n) && (n <=? 70) then Some (n - 55)
  else None.

Fixpoint drop_ws (s : string) : string :=
  match s with
  | String c t => if is_ws c then drop_ws t else s
  | EmptyString => EmptyString
  end.

Fixpoint rev_string (acc s : string) : string :=
  match s with
  | EmptyString => acc
  | String c t => rev_string (String c acc) t
  end.

(** [s.trim()] *)
Definition trim (s : string) : string :=
  rev_string "" (drop_ws (rev_string "" (drop_ws s))).

Fixpoint span (p : ascii -> bool) (s : string) : string * string :=
  match s with
  | String c t =>
      if p c then let (a, b) := span p t in (String c a, b)
      else (EmptyString, s)
  | EmptyString => (EmptyString, EmptyString)
  end.

(** Value of a digit string in the given base; [None] on a foreign digit. *)
Fixpoint digits_to_Z (base acc : Z) (s : string) : option Z :=
  match s with
  | EmptyString => Some acc
  | String c t =>
      match digit_val c with
      | Some d => if d <? base then digits_to_Z base (acc * base + d) t else None
      | None => None
      end
  end.

Definition nonempty (s : string) : bool :=
  match s with EmptyString => false | _ => true end.

(** The exponent part of a decimal literal, up to the end of the string. *)
Definition exponent_part (s : string) : option Z :=
  match s with
  | EmptyString => Some 0
  | String c t =>
      if (ascii_code c =? 101) || (ascii_code c =? 69) then
        let '(neg, ds) :=
          match t with
          | String "-" u => (true, u)
          | String "+" u => (false, u)
          | _ => (false, t)
          end in
        if nonempty ds then
          match digits_to_Z 10 0 ds with
          | Some e => Some (if neg then - e else e)
          | None => None
          end
        else None
      else None
  end.

(** An unsigned decimal literal: digits, optional fraction, optional
    exponent, at least one digit in the mantissa. *)
Definition decimal_literal (s : string) : option Q :=
  let (ip, r1) := span is_digit s in
  let '(fp, r2) :=
    match r1 with
    | String "." t => span is_digit t
    | _ => (EmptyString, r1)
    end in
  if nonempty ip || nonempty fp then
    match digits_to_Z 10 0 (ip ++ fp)%string, exponent_part r2 with
    | Some m, Some e =>
        Some (Qmult (inject_Z m)
                    (Qpower (inject_Z 10) (e - Z.of_nat (String.length fp))))
    | _, _ => None
    end
  else None.

Definition radix_literal (base : Z) (ds : string) : number :=
  if nonempty ds then
    match digits_to_Z base 0 ds with
    | Some m => num_of_Z m
    | None => NaN
    end
  else NaN.

Definition signed_literal (neg : bool) (s : string) : number :=
  if String.eqb s "Infinity" then Infinity neg
  else match decimal_literal s with
       | Some q => Finite (if neg then Qopp q else q)
       | None => NaN
       end.

(** [Number(s)] for a string [s]. *)
Definition StringToNumber (s : string) : number :=
  match trim s with
  | EmptyString => num_of_Z 0
  | String "0" (String "x" ds) | String "0" (String "X" ds) => radix_literal 16 ds
  | String "0" (String "o" ds) | String "0" (String "O" ds) => radix_literal 8 ds
  | String "0" (String "b" ds) | String "0" (String "B" ds) => radix_literal 2 ds
  | String "-" t => signed_literal true t
  | String "+" t => signed_literal false t
  | t => signed_literal false t
  end.

(* ===================================================================== *)
(** ** JavaScript values *)
(* ===================================================================== *)

Inductive value : Type :=
  | Undefined
  | Null
  | Bool (b : bool)
  | Num (n : number)
  | Str (s : string).

(** ToBoolean: what [!v], [v || d] and [v && e] test. *)
Definition truthy (v : value) : bool :=
  match v with
  | Undefined | Null => false
  | Bool b => b
  | Num NaN => false
  | Num (Infinity _) => true
  | Num (Finite q) => negb (Qeq_bool q 0)
  | Str s => nonempty s
  end.

(** [v || d] *)
Definition or_else (v d : value) : value := if truthy v then v else d.

(** [v == null] *)
Definition is_nullish (v : value) : bool :=
  match v with Undefined | Null => true | _ => false end.

(** [v ?? d] *)
Definition coalesce (v d : value) : value := if is_nullish v then d else v.

(** ToNumber, which is also [Number(v)]. *)
Definition ToNumber (v : value) : number :=
  match v with
  | Undefined => NaN
  | Null => num_of_Z 0
  | Bool b => num_of_Z (if b then 1 else 0)
  | Num n => n
  | Str s => StringToNumber s
  end.

(** [Number.isNaN(v)]: true only for the number [NaN], without coercion. *)
Definition Number_isNaN (v : value) : bool :=
  match v with Num n => is_NaN n | _ => false end.

(** [v === w] *)
Definition strict_eq (v w : value) : bool :=
  match v, w with
  | Undefined, Undefined | Null, Null => true
  | Bool a, Bool b => Bool.eqb a b
  | Num a, Num b => num_eq a b
  | Str a, Str b => String.eqb a b
  | _, _ => false
  end.

(** The relational comparison behind [<], [>], [<=]: two strings compare
    as strings, anything else as numbers; [None] when a side is [NaN]. *)
Definition js_compare_lt (v w : value) : option bool :=
  match v, w with
  | Str a, Str b => Some (str_lt a b)
  | _, _ => num_lt (ToNumber v) (ToNumber w)
  end.

(** [v < w] *)
Definition js_lt (v w : value) : bool :=
  match js_compare_lt v w with Some b => b | None => false end.

(** [v > w] *)
Definition js_gt (v w : value) : bool := js_lt w v.

(** [v <= w]: false when [w < v] is true or undefined. *)
Definition js_le (v w : value) : bool :=
  match js_compare_lt w v with Some b => negb b | None => false end.

(* ===================================================================== *)
(** ** The host environment *)
(* ===================================================================== *)

(** Times are [Date] time values: milliseconds since the epoch. *)
Record Host : Type := {
  (** time value of [new Date()], also [Date.now()] *)
  clock : Z;
  (** time value of [new Date(s)] for a string, [None] when it is invalid *)
  Date_parse : string -> option Z;
  (** time value left in a date by [setHours(0, 0, 0, 0)]: local midnight *)
  setHours0 : Z -> Z;
  (** [String(x)] for a finite number that is not a short integer *)
  Number_toString : Q -> string;
  (** [Math.random().toString(16).slice(2)] *)
  random_hex : string;
}.

(** String(n) for a number. *)
Definition number_to_string (h : Host) (n : number) : string :=
  match n with
  | NaN => "NaN"
  | Infinity neg => if neg then "-Infinity" else "Infinity"
  | Finite q =>
      let r := Qred q in
      if (Zpos (Qden r) =? 1) && (Z.abs (Qnum r) <? 10 ^ 21)
      then string_of_Z (Qnum r)
      else Number_toString h q
  end.

(** ToString, as performed by [Array.prototype.join] on an element that is
    neither [undefined] nor [null]. *)
Definition ToString (h : Host) (v : value) : string :=
  match v with
  | Undefined => "undefined"
  | Null => "null"
  | Bool b => if b then "true" else "false"
  | Num n => number_to_string h n
  | Str s => s
  end.

(** Truncation toward zero. *)
Definition Qtrunc (q : Q) : Z :=
  if Qle_bool 0 q then Qfloor q else Qceiling q.

(** Time value of [new Date(v)] for one argument, [None] when invalid. *)
Definition new_Date (h : Host) (v : value) : option Z :=
  match v with
  | Str s => Date_parse h s
  | Undefined => None
  | _ =>
      match ToNumber v with
      | Finite q =>
          if Qle_bool (Qabs q) (inject_Z 8640000000000000)
          then Some (Qtrunc q) else None
      | _ => None
      end
  end.

(** The calendar of the host: what [Date] reports about a time value. *)
Record Calendar : Type := {
  (** [getDate()]: the day of the month in local time, from 1 *)
  getDate : Z -> Z;
  (** [getMonth()]: the month in local time, from 0 *)
  getMonth : Z -> Z;
  (** [getFullYear()]: the year in local time *)
  getFullYear : Z -> Z;
  (** [toISOString()] *)
  toISOString : Z -> string;
}.

(** [n] characters taken from [pad] over and over, [cur] being what is left
    of the current pass. *)
Fixpoint fill (n : nat) (pad cur : string) : string :=
  match n with
  | O => EmptyString
  | S n' =>
      match cur with
      | String c t => String c (fill n' pad t)
      | EmptyString =>
          match pad with
          | String c t => String c (fill n' pad t)
          | EmptyString => EmptyString
          end
      end
  end.

(** [s.padStart(target, pad)] *)
Definition padStart (target : nat) (pad s : string) : string :=
  if (target <=? String.length s)%nat then s
  else (fill (target - String.length s) pad pad ++ s)%string.

(* ===================================================================== *)
(** ** DateUtils *)
(* ===================================================================== *)

Module DateUtils.
Section WithHost.
Variable h : Host.

(** A [Date] object is its time value; [None] stands for [null]. *)
Definition parse (dateStr : value) : option Z :=
  if negb (truthy dateStr) then None
  else new_Date h dateStr.

Definition msPerDay : Z := 24 * 60 * 60 * 1000.

(** [Math.round(diff / m)]: the nearest integer, halves upward, computed
    on the exact quotient.  The floating-point quotient rounds to the same
    integer as long as the two times are less than four million days
    apart: [diff / m] is then at least [1 / m] away from every half-integer
    it is not equal to, far more than the precision of a double there. *)
Definition Math_round_div (diff m : Z) : Z := (2 * diff + m) / (2 * m).

Definition daysBetween (from to : option Z) : option Z :=
  match from, to with
  | Some f, Some t =>
      let diff := setHours0 h t - setHours0 h f in
      Some (Math_round_div diff msPerDay)
  | _, _ => None
  end.

Record ExpiryInfo : Type := {
  label : string;
  code : string;
  days : option Z;
}.

(** A day count is a number or [null]; [null] is 0 in a comparison and
    prints as "null". *)
Definition days_number (d : option Z) : Z := default 0 d.

Definition days_text (d : option Z) : string :=
  match d with Some z => string_of_Z z | None => "null" end.

(** [daysDiff === 1 ? '' : 's'] *)
Definition plural_s (d : option Z) : string :=
  match d with Some 1 => "" | _ => "s" end.

Definition classifyExpiry (expiryDateStr : value) : ExpiryInfo :=
  let today := clock h in
  match parse expiryDateStr with
  | None => {| label := "No Expiry"; code := "none"; days := None |}
  | Some expiry =>
      let daysDiff := daysBetween (Some today) (Some expiry) in
      if days_number daysDiff <? 0 then
        {| label := "Expired"; code := "expired"; days := daysDiff |}
      else if days_number daysDiff <=? 90 then
        {| label := "Expiring in " ++ days_text daysDiff ++ " day"
                      ++ plural_s daysDiff;
           code := "warning";
           days := daysDiff |}
      else
        {| label := "Valid (" ++ days_text daysDiff ++ " day"
                      ++ plural_s daysDiff ++ " left)";
           code := "good";
           days := daysDiff |}
  end.

End WithHost.

Definition format (h : Host) (cal : Calendar) (dateStr : value) : string :=
  match parse h dateStr with
  | None => ""
  | Some d =>
      let day := padStart 2 "0" (string_of_Z (getDate cal d)) in
      let month := padStart 2 "0" (string_of_Z (getMonth cal d + 1)) in
      let year := getFullYear cal d in
      day ++ "/" ++ month ++ "/" ++ string_of_Z year
  end.

End DateUtils.

(* ===================================================================== *)
(** ** A concrete host: ISO calendar dates in UTC *)
(* ===================================================================== *)

(** Used to run the definitions on examples.  It reads the date-only form
    [YYYY-MM-DD] (which [Date] takes as UTC midnight), and its local time
    zone is a fixed offset from UTC given in minutes. *)
Module IsoHost.

(** Days from 1970-01-01 to the civil date [y]-[m]-[d]. *)
Definition days_from_civil (y m d : Z) : Z :=
  let y' := if m <=? 2 then y - 1 else y in
  let era := y' / 400 in
  let yoe := y' - era * 400 in
  let mp := (m + 9) mod 12 in
  let doy := (153 * mp + 2) / 5 + d - 1 in
  let doe := yoe * 365 + yoe / 4 - yoe / 100 + doy in
  era * 146097 + doe - 719468.

Definition all_digits (s : string) : bool :=
  let (ds, rest) := span is_digit s in
  nonempty ds && negb (nonempty rest).

Definition field (s : string) (pos len : nat) : option Z :=
  let f := String.substring pos len s in
  if all_digits f && (String.length f =? len)%nat
  then digits_to_Z 10 0 f else None.

Definition parse_date (s : string) : option Z :=
  if (String.length s =? 10)%nat
     && String.eqb (String.substring 4 1 s) "-"
     && String.eqb (String.substring 7 1 s) "-"
  then
    match field s 0 4, field s 5 2, field s 8 2 with
    | Some y, Some m, Some d =>
        if (1 <=? m) && (m <=? 12) && (1 <=? d) && (d <=? 31)
        then Some (days_from_civil y m d * 86400000)
        else None
    | _, _, _ => None
    end
  else None.

(** Local midnight for a zone [offset] minutes east of UTC. *)
Definition local_midnight (offset : Z) (t : Z) : Z :=
  let shift := offset * 60000 in
  (t + shift) / 86400000 * 86400000 - shift.

Definition host (now offset : Z) : Host := {|
  clock := now;
  Date_parse := parse_date;
  setHours0 := local_midnight offset;
  Number_toString := fun _ => "";
  random_hex := "8f3a";
|}.

(** Noon UTC on 2025-06-15, in the UTC zone. *)
Definition utc_2025_06_15 : Host :=
  host (days_from_civil 2025 6 15 * 86400000 + 43200000) 0.

End IsoHost.

(* ===================================================================== *)
(** ** The data model *)
(* ===================================================================== *)

(** An item object; a property that is absent is [Undefined].  A payload
    handed to [createItem] has the same shape. *)
Record Item : Type := {
  id : value;
  category : value;
  itemName : value;
  brand : value;
  contentVolume : value;
  lotNumber : value;
  dateReceived : value;
  expiryDate : value;
  dateOpened : value;
  status : value;
  quantity : value;
  remarks : value;
}.

(** A row of the backend table [inventory_items]. *)
Module TableRow.
Record t : Type := {
  id : value;
  category : value;
  item_name : value;
  brand : value;
  content_volume : value;
  lot_number : value;
  date_received : value;
  expiry_date : value;
  date_opened : value;
  status : value;
  quantity : value;
  remarks : value;
}.
End TableRow.

(** The filter criteria held by the user interface: every one is the value
    of a form control, a string, the empty string when unset. *)
Module Filters.
Record t : Type := {
  search : string;
  category : string;
  status : string;
  expiry : string;
  lowStock : string;
}.

Definition unset : t :=
  {| search := ""; category := ""; status := ""; expiry := ""; lowStock := "" |}.
End Filters.

(** Property access [a[name]] on an item. *)
Definition get_field (name : string) (a : Item) : value :=
  if String.eqb name "id" then id a
  else if String.eqb name "category" then category a
  else if String.eqb name "itemName" then itemName a
  else if String.eqb name "brand" then brand a
  else if String.eqb name "contentVolume" then contentVolume a
  else if String.eqb name "lotNumber" then lotNumber a
  else if String.eqb name "dateReceived" then dateReceived a
  else if String.eqb name "expiryDate" then expiryDate a
  else if String.eqb name "dateOpened" then dateOpened a
  else if String.eqb name "status" then status a
  else if String.eqb name "quantity" then quantity a
  else if String.eqb name "remarks" then remarks a
  else Undefined.

(* ===================================================================== *)
(** ** Arrays as values *)
(* ===================================================================== *)

Module JsArray.
Section Sorting.
Context {A : Type}.
Variable comparefn : A -> A -> Z.

(** [x] goes in front of the first element it does not have to follow. *)
Fixpoint insert (x : A) (l : list A) : list A :=
  match l with
  | [] => [x]
  | y :: l' => if comparefn x y <=? 0 then x :: l else y :: insert x l'
  end.

(** [Array.prototype.sort(comparefn)] on the contents: a stable sort.
    For a comparison function that is a consistent ordering every stable
    sort gives this result. *)
Fixpoint sort (l : list A) : list A :=
  match l with
  | [] => []
  | x :: l' => insert x (sort l')
  end.
End Sorting.
End JsArray.

(* ===================================================================== *)
(** ** InventoryService *)
(* ===================================================================== *)

Module InventoryService.
Section WithHost.
Variable h : Host.

Definition createItem (payload : Item) : Item := {|
  id := or_else (id payload)
          (Str ("itm-" ++ string_of_Z (clock h) ++ "-" ++ random_hex h));
  category := category payload;
  itemName := itemName payload;
  brand := or_else (brand payload) (Str "");
  contentVolume := or_else (contentVolume payload) (Str "");
  lotNumber := or_else (lotNumber payload) (Str "");
  dateReceived := or_else (dateReceived payload) (Str "");
  expiryDate := or_else (expiryDate payload) (Str "");
  dateOpened := or_else (dateOpened payload) (Str "");
  status := or_else (status payload) (Str "Unopened");
  quantity := Num (ToNumber (coalesce (quantity payload) (Num (num_of_Z 0))));
  remarks := or_else (remarks payload) (Str "");
|}.

(** [if (c) errors.push(msg)] *)
Definition push_if (c : bool) (msg : string) (errors : list string) : list string :=
  if c then errors ++ [msg] else errors.

Definition validate (item : Item) : list string :=
  let errors := [] in
  let errors := push_if (negb (truthy (category item))) "Category is required" errors in
  let errors := push_if (negb (truthy (itemName item))) "Item Name is required" errors in
  let errors := push_if (negb (truthy (expiryDate item))) "Expiry Date is required" errors in
  let errors :=
    push_if (is_nullish (quantity item) || Number_isNaN (quantity item))
            "Quantity must be a number" errors in
  let errors :=
    push_if (js_lt (quantity item) (Num (num_of_Z 0)))
            "Quantity cannot be negative" errors in
  errors.

(** The text searched by the free-text criterion. *)
Definition haystack (i : Item) : string :=
  toLowerCase
    (join " "
       (map (ToString h)
          (List.filter truthy
             [category i; itemName i; brand i; contentVolume i;
              lotNumber i; remarks i]))).

(** The callback of [items.filter] in [filter]. *)
Definition filter_callback (filters : Filters.t) (i : Item) : bool :=
  if nonempty (Filters.category filters)
     && negb (strict_eq (category i) (Str (Filters.category filters)))
  then false
  else if nonempty (Filters.status filters)
          && negb (strict_eq (status i) (Str (Filters.status filters)))
  then false
  else if nonempty (Filters.search filters)
          && negb (includes (haystack i) (toLowerCase (Filters.search filters)))
  then false
  else
    let expInfo := DateUtils.classifyExpiry h (expiryDate i) in
    if String.eqb (Filters.expiry filters) "expired"
       && negb (String.eqb (DateUtils.code expInfo) "expired")
    then false
    else if String.eqb (Filters.expiry filters) "3months"
            && negb (String.eqb (DateUtils.code expInfo) "warning")
    then false
    else if String.eqb (Filters.expiry filters) "good"
            && negb (String.eqb (DateUtils.code expInfo) "good")
    then false
    else if String.eqb (Filters.lowStock filters) "low"
            && negb (js_le (quantity i) (Num (num_of_Z 2)))
    then false
    else true.

Definition filter (items : list Item) (filters : Filters.t) : list Item :=
  List.filter (filter_callback filters) items.

(** The key of a date comparison: the time value, 0 when there is none. *)
Definition date_key (v : value) : Z :=
  match DateUtils.parse h v with
  | Some d => d
  | None => 0
  end.

(** [typeof v === 'string' ? v.toLowerCase() : v] *)
Definition lower_if_string (v : value) : value :=
  match v with Str s => Str (toLowerCase s) | _ => v end.

(** The comparison function handed to [Array.prototype.sort] in [sort]. *)
Definition sort_compare (sortField : string) (dir : Z) (a b : Item) : Z :=
  let av := get_field sortField a in
  let bv := get_field sortField b in
  let '(av, bv) :=
    if String.eqb sortField "quantity"
    then (Num (ToNumber (coalesce av (Num (num_of_Z 0)))),
          Num (ToNumber (coalesce bv (Num (num_of_Z 0)))))
    else (av, bv) in
  if includes (toLowerCase sortField) "date" then
    let at_ := date_key av in
    let bt := date_key bv in
    if at_ =? bt then 0 else if at_ >? bt then dir else - dir
  else
    let av := lower_if_string av in
    let bv := lower_if_string bv in
    if strict_eq av bv then 0
    else if js_gt av bv then dir else - dir.

Definition sort (items : list Item) (sortField direction : string) : list Item :=
  if negb (nonempty sortField) then items
  else
    let dir := if String.eqb direction "desc" then -1 else 1 in
    let sorted := JsArray.sort (sort_compare sortField dir) items in
    sorted.

Record Alerts : Type := {
  expSoon : nat;
  expired : nat;
  outOfStock : nat;
  zeroQty : nat;
}.

Definition bump (c : bool) (n : nat) : nat := if c then S n else n.

(** One turn of the [forEach] loop of [computeAlerts]. *)
Definition tally (acc : Alerts) (i : Item) : Alerts :=
  let expInfo := DateUtils.classifyExpiry h (expiryDate i) in
  {| expired := bump (String.eqb (DateUtils.code expInfo) "expired") (expired acc);
     expSoon := bump (String.eqb (DateUtils.code expInfo) "warning") (expSoon acc);
     outOfStock := bump (strict_eq (status i) (Str "Out of Stock")) (outOfStock acc);
     zeroQty := bump (strict_eq (quantity i) (Num (num_of_Z 0))) (zeroQty acc) |}.

Definition computeAlerts (items : list Item) : Alerts :=
  fold_left tally items
    {| expSoon := 0; expired := 0; outOfStock := 0; zeroQty := 0 |}.

End WithHost.
End InventoryService.

(* ===================================================================== *)
(** ** Arrays as objects *)
(* ===================================================================== *)

(** [filter] and [sort] receive a reference to an array and hand back a
    reference.  Here an array is a location of a store; an operation on a
    location that holds no array fails. *)
Module Heap.

Abbreviation loc := positive.
Abbreviation store := (gmap positive (list Item)).

Definition M (A : Type) : Type := store -> option (A * store).

Definition ret {A} (x : A) : M A := fun σ => Some (x, σ).

Definition bind {A B} (m : M A) (k : A -> M B) : M B :=
  fun σ => match m σ with
           | Some (x, σ') => k x σ'
           | None => None
           end.

Declare Scope heap_scope.
Delimit Scope heap_scope with heap.
Notation "x <- m ;; k" := (bind m (fun x => k))
  (at level 100, m at next level, right associativity) : heap_scope.
Local Open Scope heap_scope.

Definition read (a : loc) : M (list Item) :=
  fun σ => match σ !! a with
           | Some l => Some (l, σ)
           | None => None
           end.

Definition write (a : loc) (l : list Item) : M unit :=
  fun σ => Some (tt, <[a := l]> σ).

(** A new array object. *)
Definition alloc (l : list Item) : M loc :=
  fun σ => let r := fresh (dom σ) in Some (r, <[r := l]> σ).

(** [a.slice()] *)
Definition Array_slice (a : loc) : M loc :=
  l <- read a ;; alloc l.

(** [a.filter(p)] *)
Definition Array_filter (p : Item -> bool) (a : loc) : M loc :=
  l <- read a ;; alloc (List.filter p l).

(** [a.sort(comparefn)]: sorts [a] in place and returns [a]. *)
Definition Array_sort (comparefn : Item -> Item -> Z) (a : loc) : M loc :=
  l <- read a ;;
  _ <- write a (JsArray.sort comparefn l) ;;
  ret a.

Section WithHost.
Variable h : Host.

Definition filter (items : loc) (filters : Filters.t) : M loc :=
  Array_filter (InventoryService.filter_callback h filters) items.

Definition sort (items : loc) (sortField direction : string) : M loc :=
  if negb (nonempty sortField) then Array_slice items
  else
    let dir := if String.eqb direction "desc" then -1 else 1 in
    sorted <- (copy <- Array_slice items ;;
               Array_sort (InventoryService.sort_compare h sortField dir) copy) ;;
    ret sorted.
End WithHost.

End Heap.

(* ===================================================================== *)
(** ** InventoryRepository *)
(* ===================================================================== *)

Module InventoryRepository.

Definition TABLE_NAME : string := "inventory_items".

(** [None] stands for a row that is [null]. *)
Definition mapRowToItem (row : option TableRow.t) : option Item :=
  match row with
  | None => None
  | Some row =>
      Some {|
        id := TableRow.id row;
        category := or_else (TableRow.category row) (Str "");
        itemName := TableRow.item_name row;
        brand := or_else (TableRow.brand row) (Str "");
        contentVolume := or_else (TableRow.content_volume row) (Str "");
        lotNumber := or_else (TableRow.lot_number row) (Str "");
        dateReceived := or_else (TableRow.date_received row) (Str "");
        expiryDate := or_else (TableRow.expiry_date row) (Str "");
        dateOpened := or_else (TableRow.date_opened row) (Str "");
        status := or_else (TableRow.status row) (Str "Unopened");
        quantity := Num (ToNumber (coalesce (TableRow.quantity row) (Num (num_of_Z 0))));
        remarks := or_else (TableRow.remarks row) (Str "");
      |}
  end.

Definition mapItemToRow (item : Item) : TableRow.t := {|
  TableRow.id := id item;
  TableRow.category := or_else (category item) Null;
  TableRow.item_name := itemName item;
  TableRow.brand := or_else (brand item) Null;
  TableRow.content_volume := or_else (contentVolume item) Null;
  TableRow.lot_number := or_else (lotNumber item) Null;
  TableRow.date_received := or_else (dateReceived item) Null;
  TableRow.expiry_date := or_else (expiryDate item) Null;
  TableRow.date_opened := or_else (dateOpened item) Null;
  TableRow.status := or_else (status item) (Str "Unopened");
  TableRow.quantity := Num (ToNumber (coalesce (quantity item) (Num (num_of_Z 0))));
  TableRow.remarks := or_else (remarks item) Null;
|}.

(** What awaiting a backend call gives: the object [{ data, error }] it
    resolves to ([error] is [None] when it is [null]), or the exception
    it rejects with. *)
Inductive outcome (A : Type) : Type :=
  | Resolved (data : A) (error : option string)
  | Thrown (err : string).
Arguments Resolved {A} data error.
Arguments Thrown {A} err.

(** The backend client, over the state [S] of the backend. *)
Class Supabase (S : Type) : Type := {
  (** [from(table).select('*').order(column, { ascending })] *)
  sb_select :
    string -> string -> bool -> S -> S * outcome (option (list (option TableRow.t)));
  (** [from(table).upsert(row)] *)
  sb_upsert : string -> TableRow.t -> S -> S * outcome unit;
  (** [from(table).delete().eq(column, v)] *)
  sb_delete : string -> string -> value -> S -> S * outcome unit;
}.

Section WithBackend.
Context {S : Type} `{Supabase S}.

Record World : Type := {
  (** whether [window.supabaseClient] is set *)
  client : bool;
  backend : S;
  (** the lines written by [console.error]: message and error object *)
  console : list (string * option string);
}.

Definition error (msg : string) (err : option string) (w : World) : World :=
  {| client := client w; backend := backend w;
     console := console w ++ [(msg, err)] |}.

Definition with_backend (s : S) (w : World) : World :=
  {| client := client w; backend := s; console := console w |}.

Definition getClient (w : World) : bool * World :=
  if client w then (true, w)
  else (false, error "Supabase client not found on window.supabaseClient" None w).

Definition load (w : World) : list (option Item) * World :=
  let (supabase, w) := getClient w in
  if negb supabase then ([], w)
  else
    match sb_select TABLE_NAME "expiry_date" true (backend w) with
    | (s, Resolved data err) =>
        let w := with_backend s w in
        match err with
        | Some e => ([], error "Failed to load inventory from Supabase" (Some e) w)
        | None => (map mapRowToItem (default [] data), w)
        end
    | (s, Thrown err) =>
        ([], error "Unexpected error loading inventory from Supabase" (Some err)
               (with_backend s w))
    end.

(** The [try { ... } catch] block of [upsert]. *)
Definition try_upsert (item : Item) (w : World) : World :=
  let row := mapItemToRow item in
  match sb_upsert TABLE_NAME row (backend w) with
  | (s, Resolved _ err) =>
      let w := with_backend s w in
      match err with
      | Some e => error "Failed to upsert inventory item in Supabase" (Some e) w
      | None => w
      end
  | (s, Thrown err) =>
      error "Unexpected error upserting inventory item in Supabase" (Some err)
        (with_backend s w)
  end.

Definition upsert (item : Item) (w : World) : list (option Item) * World :=
  let (supabase, w) := getClient w in
  if negb supabase then ([], w)
  else
    let w := try_upsert item w in
    load w.

(** The [try { ... } catch] block of [remove]. *)
Definition try_remove (id : value) (w : World) : World :=
  match sb_delete TABLE_NAME "id" id (backend w) with
  | (s, Resolved _ err) =>
      let w := with_backend s w in
      match err with
      | Some e => error "Failed to delete inventory item in Supabase" (Some e) w
      | None => w
      end
  | (s, Thrown err) =>
      error "Unexpected error deleting inventory item in Supabase" (Some err)
        (with_backend s w)
  end.

Definition remove (id : value) (w : World) : list (option Item) * World :=
  let (supabase, w) := getClient w in
  if negb supabase then ([], w)
  else
    let w := try_remove id w in
    load w.

Definition initializeWithSampleDataIfEmpty (w : World) : list (option Item) * World :=
  let (items, w) := load w in
  (items, w).

End WithBackend.
Arguments World S : clear implicits.

End InventoryRepository.

(* ===================================================================== *)
(** ** An in-memory backend *)
(* ===================================================================== *)

(** A table of rows and a script of faults: each call consumes the head of
    the script and fails accordingly, leaving the table as it was; with no
    fault it carries out the operation. *)
Module FakeBackend.
Import InventoryRepository.

Inductive fault : Type :=
  | Works
  | Rejects (error : string)
  | Throws (err : string).

Record state : Type := {
  table : list TableRow.t;
  script : list fault;
}.

Definition next (s : state) : fault * list fault :=
  match script s with
  | [] => (Works, [])
  | f :: rest => (f, rest)
  end.

Definition respond {A} (s : state) (ok : list TableRow.t * A) (failed : A)
  : state * outcome A :=
  let (f, rest) := next s in
  match f with
  | Works => ({| table := fst ok; script := rest |}, Resolved (snd ok) None)
  | Rejects e => ({| table := table s; script := rest |}, Resolved failed (Some e))
  | Throws e => ({| table := table s; script := rest |}, Thrown e)
  end.

Definition same_id (v : value) (r : TableRow.t) : bool := strict_eq (TableRow.id r) v.

Definition put (row : TableRow.t) (t : list TableRow.t) : list TableRow.t :=
  if existsb (same_id (TableRow.id row)) t
  then map (fun r => if same_id (TableRow.id row) r then row else r) t
  else t ++ [row].

#[global] Instance supabase : Supabase state := {|
  sb_select := fun _ _ _ s => respond s (table s, Some (map Some (table s))) None;
  sb_upsert := fun _ row s => respond s (put row (table s), tt) tt;
  sb_delete := fun _ _ v s =>
    respond s (List.filter (fun r => negb (same_id v r)) (table s), tt) tt;
|}.

Definition world (rows : list TableRow.t) (faults : list fault) : World state :=
  {| client := true;
     backend := {| table := rows; script := faults |};
     console := [] |}.

Definition offline : World state :=
  {| client := false;
     backend := {| table := []; script := [] |};
     console := [] |}.
End FakeBackend.

(* ===================================================================== *)
(** ** Sample data *)
(* ===================================================================== *)

Module Sample.

Definition blank : Item := {|
  id := Undefined; category := Undefined; itemName := Undefined;
  brand := Undefined; contentVolume := Undefined; lotNumber := Undefined;
  dateReceived := Undefined; expiryDate := Undefined; dateOpened := Undefined;
  status := Undefined; quantity := Undefined; remarks := Undefined;
|}.

(** [{category:'', itemName:'', expiryDate:'', quantity:'abc'}] *)
Definition empty_form : Item := {|
  id := Undefined; category := Str ""; itemName := Str "";
  brand := Undefined; contentVolume := Undefined; lotNumber := Undefined;
  dateReceived := Undefined; expiryDate := Str ""; dateOpened := Undefined;
  status := Undefined; quantity := Str "abc"; remarks := Undefined;
|}.

Definition reagent (name expiry st : string) (qty : Z) : Item := {|
  id := Str ("itm-" ++ name); category := Str "Chemistry"; itemName := Str name;
  brand := Str ""; contentVolume := Str ""; lotNumber := Str "";
  dateReceived := Str ""; expiryDate := Str expiry; dateOpened := Str "";
  status := Str st; quantity := Num (num_of_Z qty); remarks := Str "";
|}.

Definition glucose : Item := reagent "Glucose" "2025-06-05" "Opened" 0.
Definition albumin : Item := reagent "Albumin" "2026-01-01" "Unopened" 5.
Definition calcium : Item := reagent "Calcium" "" "Unopened" 3.
Definition urea : Item := reagent "Urea" "1960-01-01" "Unopened" 1.
Definition sgpt : Item := reagent "SGPT" "2025-07-01" "Out of Stock" 2.

End Sample.

(* ===================================================================== *)
(** ** A concrete calendar *)
(* ===================================================================== *)

(** The proleptic Gregorian calendar for a zone at a fixed offset from UTC,
    to run the definitions that read calendar fields. *)
Module IsoCalendar.

(** Year, month (from 1) and day of the civil date [days] after
    1970-01-01. *)
Definition civil_from_days (days : Z) : Z * Z * Z :=
  let z := days + 719468 in
  let era := z / 146097 in
  let doe := z - era * 146097 in
  let yoe := (doe - doe / 1460 + doe / 36524 - doe / 146096) / 365 in
  let doy := doe - (365 * yoe + yoe / 4 - yoe / 100) in
  let mp := (5 * doy + 2) / 153 in
  let d := doy - (153 * mp + 2) / 5 + 1 in
  let m := if mp <? 10 then mp + 3 else mp - 9 in
  let y := yoe + era * 400 + (if m <=? 2 then 1 else 0) in
  (y, m, d).

Definition local_day (offset t : Z) : Z := (t + offset * 60000) / 86400000.

Definition two (z : Z) : string := padStart 2 "0" (string_of_Z z).

Definition iso_string (t : Z) : string :=
  let '(y, m, d) := civil_from_days (t / 86400000) in
  let ms := t mod 86400000 in
  (padStart 4 "0" (string_of_Z y) ++ "-" ++ two m ++ "-" ++ two d ++ "T"
   ++ two (ms / 3600000) ++ ":" ++ two (ms / 60000 mod 60) ++ ":"
   ++ two (ms / 1000 mod 60) ++ "."
   ++ padStart 3 "0" (string_of_Z (ms mod 1000)) ++ "Z")%string.

Definition calendar (offset : Z) : Calendar := {|
  getDate := fun t => snd (civil_from_days (local_day offset t));
  getMonth := fun t => snd (fst (civil_from_days (local_day offset t))) - 1;
  getFullYear := fun t => fst (fst (civil_from_days (local_day offset t)));
  toISOString := iso_string;
|}.

Definition utc : Calendar := calendar 0.

End IsoCalendar.

(* ===================================================================== *)
(** ** UI: the controller *)
(* ===================================================================== *)

(** The state held by the user interface and the handlers that change it.
    What a handler reads from the page (form fields, the clicked header,
    the answer to a confirmation) is an argument; what it shows (an alert,
    a confirmation prompt, the text put in the page, a download) is part of
    its result.  Building and focusing page elements is left out. *)
Module UI.
Import InventoryRepository.

(** How a call ends: normally, or by the TypeError raised when a property
    of [null] or [undefined] is read or a missing method is called. *)
Inductive completion (A : Type) : Type :=
  | Normal (a : A)
  | TypeError.
Arguments Normal {A} a.
Arguments TypeError {A}.

Record state : Type := {
  items : list (option Item);
  filters : Filters.t;
  sortField : string;
  sortDirection : string;
}.

Definition initial : state := {|
  items := [];
  filters := {| Filters.search := ""; Filters.category := ""; Filters.status := "";
                Filters.expiry := ""; Filters.lowStock := "" |};
  sortField := "expiryDate";
  sortDirection := "asc";
|}.

Definition with_items (l : list (option Item)) (st : state) : state :=
  {| items := l; filters := filters st;
     sortField := sortField st; sortDirection := sortDirection st |}.

(** The elements of an array as a callback that reads their properties
    gets them: the first [null] among them ends the iteration with a
    TypeError. *)
Fixpoint objects (l : list (option Item)) : completion (list Item) :=
  match l with
  | [] => Normal []
  | None :: _ => TypeError
  | Some i :: rest =>
      match objects rest with
      | Normal is_ => Normal (i :: is_)
      | TypeError => TypeError
      end
  end.

Definition quote : string := String "034"%char EmptyString.
Definition newline : string := String "010"%char EmptyString.
Definition crlf : string := String "013"%char (String "010"%char EmptyString).

(** [s.replace(/[...]/g, by)] for a class [p] of characters. *)
Fixpoint replace_all (p : ascii -> bool) (by_ : string) (s : string) : string :=
  match s with
  | EmptyString => EmptyString
  | String c t =>
      if p c then (by_ ++ replace_all p by_ t)%string
      else String c (replace_all p by_ t)
  end.

Definition is_quote (c : ascii) : bool := Ascii.eqb c "034"%char.
Definition is_newline (c : ascii) : bool := Ascii.eqb c "010"%char.
Definition is_colon_or_T (c : ascii) : bool :=
  Ascii.eqb c ":"%char || Ascii.eqb c "T"%char.

(** The values read from the filter controls; an optional control that is
    not on the page is [None]. *)
Record Controls : Type := {
  searchInput : option string;
  topSearchInput : option string;
  filterCategory : option string;
  filterStatus : string;
  filterExpiry : string;
  filterLowStock : string;
}.

Definition handleFilters (els : Controls) (st : state) : state :=
  let baseSearch := match searchInput els with Some v => trim v | None => "" end in
  let topSearch := match topSearchInput els with Some v => trim v | None => "" end in
  {| items := items st;
     filters :=
       {| Filters.search := trim (baseSearch ++ " " ++ topSearch);
          Filters.category := match filterCategory els with Some v => v | None => "" end;
          Filters.status := filterStatus els;
          Filters.expiry := filterExpiry els;
          Filters.lowStock := filterLowStock els |};
     sortField := sortField st;
     sortDirection := sortDirection st |}.

(** [th] is the [data-sort] of the header that was clicked, if any. *)
Definition handleSortClick (th : option string) (st : state) : state :=
  match th with
  | None => st
  | Some field =>
      if String.eqb (sortField st) field then
        {| items := items st; filters := filters st;
           sortField := sortField st;
           sortDirection :=
             if String.eqb (sortDirection st) "asc" then "desc" else "asc" |}
      else
        {| items := items st; filters := filters st;
           sortField := field;
           sortDirection := "asc" |}
  end.

(** The fields of the add form, as [FormData.get] gives them. *)
Record FormData : Type := {
  fd_category : value;
  fd_itemName : value;
  fd_brand : value;
  fd_contentVolume : value;
  fd_lotNumber : value;
  fd_dateReceived : value;
  fd_expiryDate : value;
  fd_status : value;
  fd_quantity : value;
}.

(** The payload object built by [handleFormSubmit]. *)
Definition form_payload (formData : FormData) : Item := {|
  id := Undefined;
  category := fd_category formData;
  itemName := fd_itemName formData;
  brand := fd_brand formData;
  contentVolume := fd_contentVolume formData;
  lotNumber := fd_lotNumber formData;
  dateReceived := fd_dateReceived formData;
  expiryDate := fd_expiryDate formData;
  dateOpened := Undefined;
  status := fd_status formData;
  quantity := Num (ToNumber (fd_quantity formData));
  remarks := Str "";
|}.

(** The values of the fields of the edit form. *)
Record EditForm : Type := {
  editId : string;
  editCategory : string;
  editItemName : string;
  editBrand : string;
  editContentVolume : string;
  editLotNumber : string;
  editDateReceived : string;
  editExpiryDate : string;
  editStatus : string;
  editQuantity : string;
}.

(** The payload object built by [handleEditSubmit]. *)
Definition edit_payload (form : EditForm) : Item := {|
  id := Str (editId form);
  category := or_else (Str (editCategory form)) (Str "");
  itemName := Str (editItemName form);
  brand := Str (editBrand form);
  contentVolume := Str (editContentVolume form);
  lotNumber := Str (editLotNumber form);
  dateReceived := Str (editDateReceived form);
  expiryDate := Str (editExpiryDate form);
  dateOpened := Undefined;
  status := Str (editStatus form);
  quantity := Num (ToNumber (Str (editQuantity form)));
  remarks := Str "";
|}.

(** ['Please fix the following issues:\n- ' + errors.join('\n- ')] *)
Definition issues (errors : list string) : string :=
  ("Please fix the following issues:" ++ newline ++ "- "
   ++ join (newline ++ "- ") errors)%string.

(** The text of the pills and of the three counters shown by
    [renderAlerts]. *)
Record AlertView : Type := {
  alertSummary : string;
  kpiExpSoon : string;
  kpiOutOrZero : string;
  kpiTotal : string;
}.

Definition string_of_nat (n : nat) : string := string_of_Z (Z.of_nat n).

Definition span_pill (kind text : string) : string :=
  ("<span class=" ++ quote ++ "pill pill--" ++ kind ++ quote ++ ">"
   ++ text ++ "</span>")%string.

Definition pills (alerts : InventoryService.Alerts) : list string :=
  let pills := [] in
  let pills :=
    if (0 <? InventoryService.expired alerts)%nat then
      pills ++ [span_pill "danger"
                  (string_of_nat (InventoryService.expired alerts) ++ " expired item"
                   ++ (if (InventoryService.expired alerts =? 1)%nat then "" else "s"))]
    else pills in
  let pills :=
    if (0 <? InventoryService.expSoon alerts)%nat then
      pills ++ [span_pill "warning"
                  (string_of_nat (InventoryService.expSoon alerts)
                   ++ " expiring &le; 90 days")]
    else pills in
  let pills :=
    if (0 <? InventoryService.outOfStock alerts)%nat
       || (0 <? InventoryService.zeroQty alerts)%nat then
      let totalOut :=
        (InventoryService.outOfStock alerts + InventoryService.zeroQty alerts)%nat in
      pills ++ [span_pill "danger"
                  (string_of_nat totalOut ++ " out of stock / zero quantity")]
    else pills in
  let pills :=
    if (length pills =? 0)%nat then
      pills ++ [span_pill "muted" "No critical alerts"]
    else pills in
  pills.

(** The header row of the export. *)
Definition header : list string :=
  ["Category"; "Item Name"; "Brand / Supplier"; "Content Volume"; "Lot Number";
   "Date Received"; "Expiry Date"; "Date Opened"; "Status";
   "Quantity Remaining"; "Remarks"; "Expiry Status"].

(** A value between quote characters, each quote character inside it
    doubled; only a string has the method [replace]. *)
Definition quoted (v : value) : completion string :=
  match v with
  | Str s => Normal (quote ++ replace_all is_quote (quote ++ quote) s ++ quote)%string
  | _ => TypeError
  end.

(** [row.map(f)] for a callback that may raise. *)
Fixpoint map_completion {A B} (f : A -> completion B) (l : list A)
  : completion (list B) :=
  match l with
  | [] => Normal []
  | x :: rest =>
      match f x with
      | TypeError => TypeError
      | Normal y =>
          match map_completion f rest with
          | TypeError => TypeError
          | Normal ys => Normal (y :: ys)
          end
      end
  end.

(** One line of the file: the quoted values joined by commas. *)
Definition csv_line (row : list value) : completion string :=
  match map_completion quoted row with
  | Normal cells => Normal (join "," cells)
  | TypeError => TypeError
  end.

(** What [exportCsv] does: a notice, a file offered for download, or an
    exception. *)
Inductive export : Type :=
  | Notice (message : string)
  | Download (filename content : string)
  | Raised.

Section WithHost.
Variable h : Host.
Variable cal : Calendar.

(** The rows shown by [renderTable] and exported by [exportCsv]:
    [sort(filter(state.items, state.filters), sortField, sortDirection)]. *)
Definition view (st : state) : completion (list Item) :=
  match objects (items st) with
  | TypeError => TypeError
  | Normal is_ =>
      let filtered := InventoryService.filter h is_ (filters st) in
      Normal (InventoryService.sort h filtered (sortField st) (sortDirection st))
  end.

Definition renderAlerts (st : state) : completion AlertView :=
  match objects (items st) with
  | TypeError => TypeError
  | Normal is_ =>
      let alerts := InventoryService.computeAlerts h is_ in
      let totalOut :=
        (InventoryService.outOfStock alerts + InventoryService.zeroQty alerts)%nat in
      Normal {| alertSummary := join "" (pills alerts);
                kpiExpSoon := string_of_nat (InventoryService.expSoon alerts);
                kpiOutOrZero := string_of_nat totalOut;
                kpiTotal := string_of_nat (length (items st)) |}
  end.

(** The cells of the export for one item; the replacement of line breaks
    in the remarks needs a string. *)
Definition export_row (item : Item) : completion (list value) :=
  let expInfo := DateUtils.classifyExpiry h (expiryDate item) in
  match or_else (remarks item) (Str "") with
  | Str r =>
      Normal
        [ category item;
          itemName item;
          or_else (brand item) (Str "");
          or_else (contentVolume item) (Str "");
          or_else (lotNumber item) (Str "");
          Str (DateUtils.format h cal (dateReceived item));
          Str (DateUtils.format h cal (expiryDate item));
          Str (DateUtils.format h cal (dateOpened item));
          status item;
          Str (ToString h (quantity item));
          Str (replace_all is_newline " " r);
          Str (DateUtils.label expInfo) ]
  | _ => TypeError
  end.

(** [new Date().toISOString().slice(0, 19).replace(/[:T]/g, '-')] *)
Definition timestamp : string :=
  replace_all is_colon_or_T "-" (String.substring 0 19 (toISOString cal (clock h))).

Definition exportCsv (st : state) : export :=
  match view st with
  | TypeError => Raised
  | Normal sorted =>
      if (length sorted =? 0)%nat then
        Notice "No inventory data to export for the current view."
      else
        match map_completion export_row sorted with
        | TypeError => Raised
        | Normal rows =>
            match map_completion csv_line (map Str header :: rows) with
            | TypeError => Raised
            | Normal lines =>
                let csvLines := join crlf lines in
                let ts := timestamp in
                Download ("north-med-reagent-inventory-" ++ ts ++ ".csv") csvLines
            end
        end
  end.

Context {S : Type} `{Supabase S}.

(** What a submit or delete handler leaves behind: the alert or prompt it
    showed, the state and the world. *)
Record reaction : Type := {
  shown : option string;
  after : state;
  world : World S;
}.

Definition handleFormSubmit (formData : FormData) (st : state) (w : World S)
  : reaction :=
  let payload := form_payload formData in
  let item := InventoryService.createItem h payload in
  let errors := InventoryService.validate item in
  if negb (length errors =? 0)%nat then
    {| shown := Some (issues errors); after := st; world := w |}
  else
    let (loaded, w) := upsert item w in
    {| shown := None; after := with_items loaded st; world := w |}.

Definition handleEditSubmit (form : EditForm) (st : state) (w : World S)
  : reaction :=
  let payload := edit_payload form in
  let updatedItem := InventoryService.createItem h payload in
  let errors := InventoryService.validate updatedItem in
  if negb (length errors =? 0)%nat then
    {| shown := Some (issues errors); after := st; world := w |}
  else
    let (loaded, w) := upsert updatedItem w in
    {| shown := None; after := with_items loaded st; world := w |}.

(** [state.items.find((i) => i.id === id)]: [Normal None] is [undefined]. *)
Fixpoint find_by_id (id_ : string) (l : list (option Item))
  : completion (option Item) :=
  match l with
  | [] => Normal None
  | None :: _ => TypeError
  | Some i :: rest =>
      if strict_eq (id i) (Str id_) then Normal (Some i)
      else find_by_id id_ rest
  end.

(** [confirmed] is the answer to [window.confirm]. *)
Definition handleDelete (id_ : string) (confirmed : bool) (st : state) (w : World S)
  : completion reaction :=
  match find_by_id id_ (items st) with
  | TypeError => TypeError
  | Normal item =>
      let label :=
        match item with
        | Some item =>
            (ToString h (itemName item) ++ " (" ++ ToString h (category item) ++ ")")%string
        | None => id_
        end in
      let prompt := ("Delete inventory item:" ++ newline ++ label ++ "?")%string in
      if negb confirmed then
        Normal {| shown := Some prompt; after := st; world := w |}
      else
        let (loaded, w) := remove (Str id_) w in
        Normal {| shown := Some prompt; after := with_items loaded st; world := w |}
  end.

(** The part of [init] that fills the state. *)
Definition init (st : state) (w : World S) : state * World S :=
  let (loaded, w) := initializeWithSampleDataIfEmpty w in
  (with_items loaded st, w).

End WithHost.

End UI.

(* ===================================================================== *)
(** ** Vocabulary of the specification *)
(* ===================================================================== *)

Module Spec.

(** *** Expiry classification *)

(** The date string is absent, empty, or not a date for the host. *)
Definition absent_or_unparseable (h : Host) (D : value) : Prop :=
  D = Undefined \/ D = Null
  \/ exists s, D = Str s /\ (s = "" \/ Date_parse h s = None).

(** The date string denotes the time value [e]. *)
Definition parses_to (h : Host) (D : value) (e : Z) : Prop :=
  exists s, D = Str s /\ s <> "" /\ Date_parse h s = Some e.

(** [d] is the quotient [diff / m] rounded to the nearest integer, a half
    going up. *)
Definition nearest (diff m d : Z) : Prop :=
  2 * d * m - m <= 2 * diff < 2 * d * m + m.

(** [d] is the whole-day difference between today and the expiry time
    [e], both truncated to local midnight. *)
Definition whole_days (h : Host) (e d : Z) : Prop :=
  nearest (setHours0 h e - setHours0 h (clock h)) 86400000 d.

End Spec.

Module SpecValidate.

(** *** Validation rules *)

(** The quantity is missing ([null] or [undefined]) or is the number
    [NaN]. *)
Definition not_a_number (v : value) : bool :=
  match v with
  | Undefined | Null | Num NaN => true
  | _ => false
  end.

(** The rules in the order in which they are checked: when a rule is
    violated, and the message that reports it. *)
Definition rules : list ((Item -> bool) * string) :=
  [ (fun i => negb (truthy (category i)), "Category is required");
    (fun i => negb (truthy (itemName i)), "Item Name is required");
    (fun i => negb (truthy (expiryDate i)), "Expiry Date is required");
    (fun i => not_a_number (quantity i), "Quantity must be a number");
    (fun i => js_lt (quantity i) (Num (num_of_Z 0)), "Quantity cannot be negative") ].

(** The messages of all the violated rules, in rule order. *)
Definition violations (item : Item) : list string :=
  map snd (List.filter (fun r => fst r item) rules).

End SpecValidate.

Module SpecFilter.

(** *** Filter criteria *)

(** [needle] occurs in [hay]. *)
Definition is_substring (needle hay : string) : Prop :=
  exists pre post, hay = (pre ++ needle ++ post)%string.

(** The text fields of an item that are not empty, joined by spaces. *)
Definition searched_text (h : Host) (i : Item) : string :=
  join " "
    (map (ToString h)
       (List.filter truthy
          [category i; itemName i; brand i; contentVolume i;
           lotNumber i; remarks i])).

(** The classification code selected by a value of the expiry criterion;
    any other value leaves the criterion inactive. *)
Definition bucket (criterion : string) : option string :=
  if String.eqb criterion "expired" then Some "expired"
  else if String.eqb criterion "3months" then Some "warning"
  else if String.eqb criterion "good" then Some "good"
  else None.

(** The item is in the bucket selected by the expiry criterion. *)
Definition bucket_test (h : Host) (f : Filters.t) (i : Item) : bool :=
  match bucket (Filters.expiry f) with
  | Some c =>
      String.eqb (DateUtils.code (DateUtils.classifyExpiry h (expiryDate i))) c
  | None => true
  end.

(** The same criteria with the expiry criterion unset. *)
Definition without_expiry (f : Filters.t) : Filters.t :=
  {| Filters.search := Filters.search f;
     Filters.category := Filters.category f;
     Filters.status := Filters.status f;
     Filters.expiry := "";
     Filters.lowStock := Filters.lowStock f |}.

(** The item satisfies every active criterion. *)
Definition satisfies (h : Host) (f : Filters.t) (i : Item) : Prop :=
  (Filters.category f <> "" -> category i = Str (Filters.category f))
  /\ (Filters.status f <> "" -> status i = Str (Filters.status f))
  /\ (Filters.search f <> "" ->
        is_substring (toLowerCase (Filters.search f))
                     (toLowerCase (searched_text h i)))
  /\ (forall c, bucket (Filters.expiry f) = Some c ->
        DateUtils.code (DateUtils.classifyExpiry h (expiryDate i)) = c)
  /\ (Filters.lowStock f = "low" -> js_le (quantity i) (Num (num_of_Z 2)) = true).

End SpecFilter.

Module SpecSort.

(** *** Sort order *)

(** The name of the field contains "date", in any letter case. *)
Definition is_date_field (f : string) : Prop :=
  SpecFilter.is_substring "date" (toLowerCase f).

(** The result of a comparison function for keys that compare as [c]. *)
Definition three_way (c : comparison) (dir : Z) : Z :=
  match c with
  | Eq => 0
  | Gt => dir
  | Lt => - dir
  end.

(** The number a quantity is sorted by. *)
Definition numeric_key (v : value) : number :=
  ToNumber (coalesce v (Num (num_of_Z 0))).

(** Numeric comparison of two keys. *)
Definition compare_numbers (x y : number) (dir : Z) : Z :=
  if num_eq x y then 0
  else match num_lt y x with
       | Some true => dir
       | _ => - dir
       end.

(** Every array of [σ] is in [σ'] with the same contents. *)
Definition untouched (σ σ' : gmap positive (list Item)) : Prop :=
  forall a, a ∈ dom σ -> σ' !! a = σ !! a.

End SpecSort.

Module SpecAlerts.

(** *** Alert counters *)

(** The number of items of [l] that pass the test [p]. *)
Definition count (p : Item -> bool) (l : list Item) : nat :=
  length (List.filter p l).

(** The classification code of the item is [c]. *)
Definition has_code (h : Host) (c : string) (i : Item) : bool :=
  String.eqb (DateUtils.code (DateUtils.classifyExpiry h (expiryDate i))) c.

(** The status is exactly "Out of Stock". *)
Definition is_out_of_stock (i : Item) : bool :=
  strict_eq (status i) (Str "Out of Stock").

(** [quantity === 0] *)
Definition has_zero_quantity (i : Item) : bool :=
  strict_eq (quantity i) (Num (num_of_Z 0)).

End SpecAlerts.

Module SpecRow.

(** *** The item and row mapping *)

Inductive field : Type :=
  | Id | Category | ItemName | Brand | ContentVolume | LotNumber
  | DateReceived | ExpiryDate | DateOpened | Status | Quantity | Remarks.

(** The property of an item that holds the field. *)
Definition item_field (f : field) (i : Item) : value :=
  match f with
  | Id => id i
  | Category => category i
  | ItemName => itemName i
  | Brand => brand i
  | ContentVolume => contentVolume i
  | LotNumber => lotNumber i
  | DateReceived => dateReceived i
  | ExpiryDate => expiryDate i
  | DateOpened => dateOpened i
  | Status => status i
  | Quantity => quantity i
  | Remarks => remarks i
  end.

(** The column of a row that holds the field. *)
Definition row_field (f : field) (r : TableRow.t) : value :=
  match f with
  | Id => TableRow.id r
  | Category => TableRow.category r
  | ItemName => TableRow.item_name r
  | Brand => TableRow.brand r
  | ContentVolume => TableRow.content_volume r
  | LotNumber => TableRow.lot_number r
  | DateReceived => TableRow.date_received r
  | ExpiryDate => TableRow.expiry_date r
  | DateOpened => TableRow.date_opened r
  | Status => TableRow.status r
  | Quantity => TableRow.quantity r
  | Remarks => TableRow.remarks r
  end.

(** The fields that take the empty string when nothing is entered. *)
Definition optional (f : field) : bool :=
  match f with
  | Id | ItemName | Status | Quantity => false
  | _ => true
  end.


End SpecRow.

Module SpecRepository.
Import InventoryRepository.

(** *** Persistence failures *)

(** The console line for a backend call that did not succeed: [rejected]
    when it resolved with an error, [thrown] when it raised one. *)
Definition failure {A} (rejected thrown : string) (o : outcome A)
  : option (string * option string) :=
  match o with
  | Resolved _ (Some e) => Some (rejected, Some e)
  | Resolved _ None => None
  | Thrown e => Some (thrown, Some e)
  end.

(** The world once the write step [attempt] of [upsert] or [remove] is
    over: without a client there is no attempt, only the complaint of
    [getClient]. *)
Definition write_phase {S} (attempt : World S -> World S) (w : World S) : World S :=
  if client w then attempt w else snd (getClient w).

End SpecRepository.

(* ===================================================================== *)
(** ** Proof automation *)
(* ===================================================================== *)

(** Reduce the projections of an item mapped to a row and back. *)
Ltac project_fields :=
  cbn [InventoryRepository.mapItemToRow InventoryRepository.mapRowToItem
         id category itemName brand contentVolume lotNumber dateReceived
         expiryDate dateOpened status quantity remarks
         TableRow.id TableRow.category TableRow.item_name TableRow.brand TableRow.content_volume
         TableRow.lot_number TableRow.date_received TableRow.expiry_date TableRow.date_opened
         TableRow.status TableRow.quantity TableRow.remarks].

Module SpecDates.

(** *** Day counts and display dates *)

(** A host whose local midnights move by an hour on the 100th day after the
    epoch, as they do when the clocks change. *)
Definition clock_change : Host := {|
  clock := 99 * 86400000 + 3600000;
  Date_parse := IsoHost.parse_date;
  setHours0 := fun t =>
    let day := t / 86400000 in
    if day <? 100 then day * 86400000 else day * 86400000 - 3600000;
  Number_toString := fun _ => "";
  random_hex := "0";
|}.

(** The label of an expiry that is [d] whole days away. *)
Definition label_for (d : Z) : string :=
  if d <? 0 then "Expired"
  else if d <=? 90 then
    "Expiring in " ++ string_of_Z d ++ (if d =? 1 then " day" else " days")
  else "Valid (" ++ string_of_Z d ++ " days left)".

(** A number below 100 written with two digits. *)
Definition two_digits (z : Z) : string :=
  if z <? 10 then "0" ++ string_of_Z z else string_of_Z z.

End SpecDates.

Module SpecQuery.

(** *** Views *)

(** The same criteria with another search term. *)
Definition with_search (s : string) (f : Filters.t) : Filters.t :=
  {| Filters.search := s;
     Filters.category := Filters.category f;
     Filters.status := Filters.status f;
     Filters.expiry := Filters.expiry f;
     Filters.lowStock := Filters.lowStock f |}.

(** The direction factor used by [sort]. *)
Definition dir_of (direction : string) : Z :=
  if String.eqb direction "desc" then -1 else 1.

(** The time an item is ordered by when sorting by the date field [f]:
    its date key, negated for the descending direction. *)
Definition date_rank (h : Host) (f direction : string) (i : Item) : Z :=
  dir_of direction * InventoryService.date_key h (get_field f i).

(** The quantity of the item counts as the finite number [q] when sorting. *)
Definition finite_quantity (i : Item) (q : Q) : Prop :=
  SpecSort.numeric_key (quantity i) = Finite q.

(** The quantity of [i] is at most that of [j]. *)
Definition quantity_le (i j : Item) : Prop :=
  exists p q, finite_quantity i p /\ finite_quantity j q /\ Qle p q.

End SpecQuery.

Module SpecGateway.
Import InventoryRepository.

(** *** Outcomes of a write followed by a reload *)

(** What [load] hands back for an outcome of the query. *)
Definition rows_of (o : outcome (option (list (option TableRow.t)))) : list (option Item) :=
  match o with
  | Resolved data None => map mapRowToItem (default [] data)
  | _ => []
  end.

(** The console line of a query that did not succeed. *)
Definition load_failure (o : outcome (option (list (option TableRow.t))))
  : option (string * option string) :=
  SpecRepository.failure "Failed to load inventory from Supabase"
    "Unexpected error loading inventory from Supabase" o.

(** The console line of [getClient] when no client is configured. *)
Definition no_client : string * option string :=
  ("Supabase client not found on window.supabaseClient", None).

End SpecGateway.

Module SpecUI.

(** *** The controller *)

(** The text of a search box: trimmed, empty when the box is not on the
    page. *)
Definition box_text (box : option string) : string :=
  match box with
  | Some v => trim v
  | None => ""
  end.

(** The sort direction is one of the two the interface uses. *)
Definition direction_ok (st : UI.state) : Prop :=
  UI.sortDirection st = "asc" \/ UI.sortDirection st = "desc".

(** The search term of the state is trimmed. *)
Definition search_trimmed (st : UI.state) : Prop :=
  trim (Filters.search (UI.filters st)) = Filters.search (UI.filters st).

(** What the user can do. *)
Inductive event : Type :=
  | ChangeFilters (els : UI.Controls)
  | ClickHeader (th : option string)
  | SubmitNew (formData : UI.FormData)
  | SubmitEdit (form : UI.EditForm)
  | ClickDelete (id_ : string) (confirmed : bool).

Section Events.
Import InventoryRepository.
Context {S : Type} `{Supabase S}.
Variable h : Host.

(** The handler bound to the event. *)
Definition handle (e : event) (st : UI.state) (w : World S)
  : UI.completion (UI.state * World S) :=
  match e with
  | ChangeFilters els => UI.Normal (UI.handleFilters els st, w)
  | ClickHeader th => UI.Normal (UI.handleSortClick th st, w)
  | SubmitNew formData =>
      let r := UI.handleFormSubmit h formData st w in
      UI.Normal (UI.after r, UI.world r)
  | SubmitEdit form =>
      let r := UI.handleEditSubmit h form st w in
      UI.Normal (UI.after r, UI.world r)
  | ClickDelete id_ confirmed =>
      match UI.handleDelete h id_ confirmed st w with
      | UI.Normal r => UI.Normal (UI.after r, UI.world r)
      | UI.TypeError => UI.TypeError
      end
  end.

(** The handlers run one after the other; a handler that raises leaves the
    state as it found it. *)
Fixpoint run (events : list event) (st : UI.state) (w : World S)
  : UI.state * World S :=
  match events with
  | [] => (st, w)
  | e :: rest =>
      match handle e st w with
      | UI.Normal (st', w') => run rest st' w'
      | UI.TypeError => run rest st w
      end
  end.

End Events.

(** The generated identifier of a new item. *)
Definition fresh_id (h : Host) : value :=
  Str ("itm-" ++ string_of_Z (clock h) ++ "-" ++ random_hex h).

(** A payload whose quantity has been coerced to the number [n] is
    acceptable: category, name and expiry date are set and [n] is a number
    that is not below zero. *)
Definition acceptable (c n e : value) (q : number) : Prop :=
  truthy c = true /\ truthy n = true /\ truthy e = true
  /\ is_NaN q = false /\ js_lt (Num q) (Num (num_of_Z 0)) = false.

End SpecUI.

Module SpecCsv.

(** *** Reading the export back *)

(** Where a reader of quoted comma-separated text stands: before the
    opening quote of a cell, inside a cell, just after a quote met inside a
    cell (the first of a doubled quote, or the closing one), or between the
    carriage return and the line feed that end a line. *)
Inductive mode : Type := Start | Inside | AfterQuote | AfterCR.

Definition snoc (s : string) (c : ascii) : string := (s ++ String c "")%string.

(** The reader: [cell] is the cell being read, [row] the cells read on the
    current line, [rows] the lines read so far.  Text that is not made of
    quoted cells separated by commas, on lines separated by carriage
    return and line feed, is refused. *)
Fixpoint read (s : string) (m : mode) (cell : string) (row : list string)
    (rows : list (list string)) : option (list (list string)) :=
  match s with
  | EmptyString =>
      match m with
      | AfterQuote => Some (rows ++ [row ++ [cell]])
      | _ => None
      end
  | String c t =>
      match m with
      | Start => if UI.is_quote c then read t Inside "" row rows else None
      | Inside =>
          if UI.is_quote c then read t AfterQuote cell row rows
          else read t Inside (snoc cell c) row rows
      | AfterQuote =>
          if UI.is_quote c then read t Inside (snoc cell c) row rows
          else if Ascii.eqb c ","%char then read t Start "" (row ++ [cell]) rows
          else if Ascii.eqb c "013"%char then read t AfterCR "" (row ++ [cell]) rows
          else None
      | AfterCR =>
          if Ascii.eqb c "010"%char then read t Start "" [] (rows ++ [row])
          else None
      end
  end.

Definition decode (s : string) : option (list (list string)) :=
  read s Start "" [] [].

(** The text of a value that is a string. *)
Definition text (v : value) : string :=
  match v with
  | Str s => s
  | _ => ""
  end.

Definition is_text (v : value) : Prop := exists s, v = Str s.

(** The value is a string, or counts as false and is replaced by the empty
    string. *)
Definition blank_or_text (v : value) : Prop := is_text v \/ truthy v = false.

(** The item can be exported: category, name and status are strings, and
    brand, content volume, lot number and remarks are strings or blank. *)
Definition exportable (i : Item) : Prop :=
  is_text (category i) /\ is_text (itemName i) /\ is_text (status i)
  /\ blank_or_text (brand i) /\ blank_or_text (contentVolume i)
  /\ blank_or_text (lotNumber i) /\ blank_or_text (remarks i).

(** The value is set and is not a string. *)
Definition set_not_text (v : value) : Prop := truthy v = true /\ ~ is_text v.

(** One of the conditions of [exportable] fails. *)
Definition unexportable (i : Item) : Prop :=
  ~ is_text (category i) \/ ~ is_text (itemName i) \/ ~ is_text (status i)
  \/ set_not_text (brand i) \/ set_not_text (contentVolume i)
  \/ set_not_text (lotNumber i) \/ set_not_text (remarks i).

(** The twelve cells of the line exported for an item. *)
Definition cells (h : Host) (cal : Calendar) (i : Item) : list string :=
  [ text (category i); text (itemName i); text (brand i);
    text (contentVolume i); text (lotNumber i);
    DateUtils.format h cal (dateReceived i);
    DateUtils.format h cal (expiryDate i);
    DateUtils.format h cal (dateOpened i);
    text (status i);
    ToString h (quantity i);
    UI.replace_all UI.is_newline " " (text (remarks i));
    DateUtils.label (DateUtils.classifyExpiry h (expiryDate i)) ].

(** A cell between quotes, its own quotes doubled. *)
Definition quoted_text (s : string) : string :=
  (UI.quote ++ UI.replace_all UI.is_quote (UI.quote ++ UI.quote) s ++ UI.quote)%string.

Definition line (row : list string) : string := join "," (map quoted_text row).

End SpecCsv.

Module SpecPills.

(** *** The alert summary *)

(** The pill shown when nothing needs attention. *)
Definition all_clear : string := UI.span_pill "muted" "No critical alerts".

(** No counter is above zero. *)
Definition quiet (alerts : InventoryService.Alerts) : Prop :=
  InventoryService.expired alerts = 0%nat
  /\ InventoryService.expSoon alerts = 0%nat
  /\ InventoryService.outOfStock alerts = 0%nat
  /\ InventoryService.zeroQty alerts = 0%nat.

(** The item is out of stock, has the quantity 0, or both. *)
Definition out_or_zero (i : Item) : bool :=
  SpecAlerts.is_out_of_stock i || SpecAlerts.has_zero_quantity i.

Definition out_and_zero (i : Item) : bool :=
  SpecAlerts.is_out_of_stock i && SpecAlerts.has_zero_quantity i.

End SpecPills.

(* ===================================================================== *)
(** ** Running the definitions *)
(* ===================================================================== *)

Example StringToNumber_abc : StringToNumber "abc" = NaN.
Proof. reflexivity. Qed.

Example StringToNumber_12 : StringToNumber " 12 " = Finite (12 # 1).
Proof. reflexivity. Qed.

Example StringToNumber_frac :
  num_eq (StringToNumber "-1.5e1") (num_of_Z (-15)) = true.
Proof. reflexivity. Qed.

Example StringToNumber_hex : StringToNumber "0x1F" = num_of_Z 31.
Proof. reflexivity. Qed.

Example StringToNumber_dot : StringToNumber "." = NaN.
Proof. reflexivity. Qed.

Example parse_date_epoch : IsoHost.parse_date "1970-01-01" = Some 0.
Proof. reflexivity. Qed.

Example parse_date_2000 :
  IsoHost.parse_date "2000-03-01" = Some (11017 * 86400000).
Proof. reflexivity. Qed.

Example parse_date_garbage : IsoHost.parse_date "soon" = None.
Proof. reflexivity. Qed.

Example classify_today :
  DateUtils.classifyExpiry IsoHost.utc_2025_06_15 (Str "2025-06-15")
  = {| DateUtils.label := "Expiring in 0 days";
       DateUtils.code := "warning";
       DateUtils.days := Some 0 |}.
Proof. reflexivity. Qed.

Example classify_tomorrow :
  DateUtils.classifyExpiry IsoHost.utc_2025_06_15 (Str "2025-06-16")
  = {| DateUtils.label := "Expiring in 1 day";
       DateUtils.code := "warning";
       DateUtils.days := Some 1 |}.
Proof. reflexivity. Qed.

Example classify_next_year :
  DateUtils.classifyExpiry IsoHost.utc_2025_06_15 (Str "2026-06-15")
  = {| DateUtils.label := "Valid (365 days left)";
       DateUtils.code := "good";
       DateUtils.days := Some 365 |}.
Proof. reflexivity. Qed.

Example validate_negative :
  InventoryService.validate (Sample.reagent "Glucose" "2030-01-01" "Unopened" (-1))
  = ["Quantity cannot be negative"].
Proof. reflexivity. Qed.

Example haystack_glucose :
  InventoryService.haystack IsoHost.utc_2025_06_15 Sample.glucose
  = "chemistry glucose".
Proof. reflexivity. Qed.

Example filter_search :
  InventoryService.filter IsoHost.utc_2025_06_15
    [Sample.glucose; Sample.albumin; Sample.calcium]
    {| Filters.search := "ALB"; Filters.category := "Chemistry";
       Filters.status := ""; Filters.expiry := ""; Filters.lowStock := "" |}
  = [Sample.albumin].
Proof. reflexivity. Qed.

Example sort_by_name_desc :
  InventoryService.sort IsoHost.utc_2025_06_15
    [Sample.glucose; Sample.albumin; Sample.calcium] "itemName" "desc"
  = [Sample.glucose; Sample.calcium; Sample.albumin].
Proof. reflexivity. Qed.

Example upsert_then_load :
  fst (InventoryRepository.upsert Sample.glucose (FakeBackend.world [] []))
  = [InventoryRepository.mapRowToItem
       (Some (InventoryRepository.mapItemToRow Sample.glucose))].
Proof. reflexivity. Qed.

(* ===================================================================== *)
(** ** Properties of the expiry classifier *)
(* ===================================================================== *)

Section Classifier.
Variable h : Host.

Lemma Math_round_div_nearest (diff m : Z) :
  0 < m -> Spec.nearest diff m (DateUtils.Math_round_div diff m).
Proof.
  intros Hm. unfold Spec.nearest, DateUtils.Math_round_div.
  pose proof (Z.div_mod (2 * diff + m) (2 * m) ltac:(lia)) as Hdm.
  pose proof (Z.mod_pos_bound (2 * diff + m) (2 * m) ltac:(lia)) as Hb.
  nia.
Qed.

Lemma nearest_unique (diff m d d' : Z) :
  0 < m -> Spec.nearest diff m d -> Spec.nearest diff m d' -> d = d'.
Proof. unfold Spec.nearest. intros Hm Hd Hd'. nia. Qed.

Lemma parse_absent (D : value) :
  Spec.absent_or_unparseable h D -> DateUtils.parse h D = None.
Proof.
  intros [-> | [-> | (s & -> & [-> | Hs])]]; try reflexivity.
  unfold DateUtils.parse. destruct (truthy (Str s)); simpl; auto.
Qed.

Lemma parse_date_string (D : value) (e : Z) :
  Spec.parses_to h D e -> DateUtils.parse h D = Some e.
Proof.
  intros (s & -> & Hne & Hs). unfold DateUtils.parse. simpl.
  destruct s; [congruence | exact Hs].
Qed.

Lemma daysBetween_whole_days (e d : Z) :
  Spec.whole_days h e d ->
  DateUtils.daysBetween h (Some (clock h)) (Some e) = Some d.
Proof.
  intros Hd. unfold DateUtils.daysBetween. f_equal.
  eapply nearest_unique; [| apply Math_round_div_nearest | exact Hd];
    unfold DateUtils.msPerDay; lia.
Qed.

Lemma classifyExpiry_code (D : value) (e d : Z) :
  Spec.parses_to h D e -> Spec.whole_days h e d ->
  DateUtils.code (DateUtils.classifyExpiry h D)
  = if d <? 0 then "expired" else if d <=? 90 then "warning" else "good".
Proof.
  intros He Hd. unfold DateUtils.classifyExpiry.
  rewrite (parse_date_string _ _ He), (daysBetween_whole_days _ _ Hd).
  change (DateUtils.days_number (Some d)) with d.
  destruct (d <? 0); [reflexivity |]. destruct (d <=? 90); reflexivity.
Qed.

(** C1.  With "today" fixed by the host: a date string that is absent or
    unparseable is classified [none] with [days] null; a date string that
    parses has a whole-day difference [d] to today (local midnights,
    rounded to the nearest day), the [days] field is [d], and the code is
    [expired] when [d < 0], [warning] when [0 <= d <= 90], [good] when
    [d > 90]. *)
Theorem classifyExpiry_buckets (D : value) :
  (Spec.absent_or_unparseable h D ->
     DateUtils.code (DateUtils.classifyExpiry h D) = "none"
     /\ DateUtils.days (DateUtils.classifyExpiry h D) = None)
  /\ (forall e, Spec.parses_to h D e ->
        (exists d, Spec.whole_days h e d)
        /\ forall d, Spec.whole_days h e d ->
             DateUtils.days (DateUtils.classifyExpiry h D) = Some d
             /\ (d < 0 -> DateUtils.code (DateUtils.classifyExpiry h D) = "expired")
             /\ (0 <= d <= 90 ->
                   DateUtils.code (DateUtils.classifyExpiry h D) = "warning")
             /\ (90 < d -> DateUtils.code (DateUtils.classifyExpiry h D) = "good")).
Proof.
  split.
  - intros Habs. unfold DateUtils.classifyExpiry.
    rewrite (parse_absent _ Habs). split; reflexivity.
  - intros e He. split.
    + eexists. apply Math_round_div_nearest. lia.
    + intros d Hd. unfold DateUtils.classifyExpiry.
      rewrite (parse_date_string _ _ He), (daysBetween_whole_days _ _ Hd).
      change (DateUtils.days_number (Some d)) with d.
      destruct (Z.ltb_spec d 0); [| destruct (Z.leb_spec d 90)];
        cbv beta iota; cbn [DateUtils.days DateUtils.code];
        repeat split; intros; auto; lia.
Qed.

End Classifier.

(** The boundary days on a concrete calendar: today is 2025-06-15. *)
Lemma classifyExpiry_buckets_witness :
  let h := IsoHost.utc_2025_06_15 in
  let info D := DateUtils.classifyExpiry h (Str D) in
  (DateUtils.code (info "") = "none" /\ DateUtils.days (info "") = None)
  /\ (DateUtils.days (info "2025-06-14") = Some (-1)
      /\ DateUtils.code (info "2025-06-14") = "expired")
  /\ (DateUtils.days (info "2025-06-15") = Some 0
      /\ DateUtils.code (info "2025-06-15") = "warning")
  /\ (DateUtils.days (info "2025-09-13") = Some 90
      /\ DateUtils.code (info "2025-09-13") = "warning")
  /\ (DateUtils.days (info "2025-09-14") = Some 91
      /\ DateUtils.code (info "2025-09-14") = "good").
Proof.
  intros h info.
  assert (Hp : forall s e, s <> "" -> IsoHost.parse_date s = Some e ->
                 Spec.parses_to h (Str s) e).
  { intros s e Hs He. exists s. auto. }
  assert (Hw : forall e d,
             DateUtils.Math_round_div
               (setHours0 h e - setHours0 h (clock h)) 86400000 = d ->
             Spec.whole_days h e d).
  { intros e d <-. apply Math_round_div_nearest. lia. }
  split.
  { apply (proj1 (classifyExpiry_buckets h (Str ""))).
    right; right. exists "". auto. }
  split.
  { destruct (proj2 (proj2 (classifyExpiry_buckets h (Str "2025-06-14")) _
                (Hp "2025-06-14" _ ltac:(discriminate) eq_refl)) (-1)
                (Hw _ _ eq_refl)) as (Hd & Hx & _).
    split; [exact Hd | apply Hx; lia]. }
  split.
  { destruct (proj2 (proj2 (classifyExpiry_buckets h (Str "2025-06-15")) _
                (Hp "2025-06-15" _ ltac:(discriminate) eq_refl)) 0
                (Hw _ _ eq_refl)) as (Hd & _ & Hx & _).
    split; [exact Hd | apply Hx; lia]. }
  split.
  { destruct (proj2 (proj2 (classifyExpiry_buckets h (Str "2025-09-13")) _
                (Hp "2025-09-13" _ ltac:(discriminate) eq_refl)) 90
                (Hw _ _ eq_refl)) as (Hd & _ & Hx & _).
    split; [exact Hd | apply Hx; lia]. }
  { destruct (proj2 (proj2 (classifyExpiry_buckets h (Str "2025-09-14")) _
                (Hp "2025-09-14" _ ltac:(discriminate) eq_refl)) 91
                (Hw _ _ eq_refl)) as (Hd & _ & _ & Hx).
    split; [exact Hd | apply Hx; lia]. }
Defined.

(* ===================================================================== *)
(** ** Properties of the model and validator *)
(* ===================================================================== *)

Lemma not_a_number_test (v : value) :
  is_nullish v || Number_isNaN v = SpecValidate.not_a_number v.
Proof. destruct v as [| | b | [| neg | q] | s]; reflexivity. Qed.

Lemma validate_violations (item : Item) :
  InventoryService.validate item = SpecValidate.violations item.
Proof.
  unfold InventoryService.validate, SpecValidate.violations, SpecValidate.rules.
  cbn [List.filter map fst snd].
  rewrite not_a_number_test.
  destruct (truthy (category item)), (truthy (itemName item)),
    (truthy (expiryDate item)), (SpecValidate.not_a_number (quantity item)),
    (js_lt (quantity item) (Num (num_of_Z 0))); reflexivity.
Qed.

(** C2, as the code has it.  [validate] reports every violated rule, in the
    order category, itemName, expiryDate, quantity-numeric,
    quantity-non-negative, where the quantity-numeric rule is violated by
    [null], [undefined] and the number [NaN] only; on
    [{category:'', itemName:'', expiryDate:'', quantity:'abc'}] that is
    exactly the three messages for the missing fields and none about the
    quantity. *)
Theorem validate_reports_violations :
  (forall item : Item,
      InventoryService.validate item = SpecValidate.violations item)
  /\ InventoryService.validate Sample.empty_form
     = ["Category is required"; "Item Name is required"; "Expiry Date is required"].
Proof. split; [exact validate_violations | reflexivity]. Qed.

(** C2 as stated fails: the object with the quantity ['abc'] gets three
    messages, not four, and none says that the quantity must be a number. *)
Lemma validate_empty_form_three_messages :
  ~ (length (InventoryService.validate Sample.empty_form) = 4%nat
     /\ In "Quantity must be a number" (InventoryService.validate Sample.empty_form)).
Proof. intros [Hlen _]. vm_compute in Hlen. discriminate. Qed.

Section CreateItem.
Variable h : Host.

Lemma validate_numeric_rule (item : Item) :
  In "Quantity must be a number" (InventoryService.validate item)
  <-> SpecValidate.not_a_number (quantity item) = true.
Proof.
  rewrite validate_violations.
  unfold SpecValidate.violations, SpecValidate.rules.
  cbn [List.filter map fst snd].
  destruct (truthy (category item)), (truthy (itemName item)),
    (truthy (expiryDate item)), (SpecValidate.not_a_number (quantity item)),
    (js_lt (quantity item) (Num (num_of_Z 0)));
    cbn [negb List.filter map fst snd In];
    (split; [intros Hx; try reflexivity;
             repeat (destruct Hx as [Hx | Hx]; try discriminate Hx);
             try contradiction
            | intros Hx; try discriminate Hx; auto 10]).
Qed.

(** C10.  [createItem] stores [Number(payload.quantity ?? 0)]: the number
    0 when the payload has no quantity, the number [NaN] when it is a
    string that is not a numeric literal.  [validate] then reports
    "Quantity must be a number" for the item built from such a payload,
    and never reports it for an item whose quantity is itself a
    string. *)
Theorem createItem_quantity_coerced (payload : Item) :
  quantity (InventoryService.createItem h payload)
  = Num (ToNumber (coalesce (quantity payload) (Num (num_of_Z 0))))
  /\ (is_nullish (quantity payload) = true ->
        quantity (InventoryService.createItem h payload) = Num (num_of_Z 0))
  /\ (forall s, quantity payload = Str s -> StringToNumber s = NaN ->
        quantity (InventoryService.createItem h payload) = Num NaN
        /\ In "Quantity must be a number"
             (InventoryService.validate (InventoryService.createItem h payload)))
  /\ (forall (item : Item) s, quantity item = Str s ->
        ~ In "Quantity must be a number" (InventoryService.validate item)).
Proof.
  split; [reflexivity |]. split; [| split].
  - intros Hq. cbn [InventoryService.createItem quantity].
    unfold coalesce. rewrite Hq. reflexivity.
  - intros s Hs Hnan.
    assert (Hq : quantity (InventoryService.createItem h payload) = Num NaN).
    { cbn [InventoryService.createItem quantity]. rewrite Hs.
      cbn [coalesce is_nullish ToNumber]. now rewrite Hnan. }
    split; [exact Hq |].
    apply validate_numeric_rule. now rewrite Hq.
  - intros item s Hs Hin. apply validate_numeric_rule in Hin.
    rewrite Hs in Hin. discriminate Hin.
Qed.

End CreateItem.

(** The form payload with the quantity ['abc'], and the empty payload. *)
Lemma createItem_quantity_coerced_witness :
  let h := IsoHost.utc_2025_06_15 in
  (quantity (InventoryService.createItem h Sample.blank) = Num (num_of_Z 0))
  /\ (quantity (InventoryService.createItem h Sample.empty_form) = Num NaN
      /\ In "Quantity must be a number"
           (InventoryService.validate
              (InventoryService.createItem h Sample.empty_form)))
  /\ ~ In "Quantity must be a number" (InventoryService.validate Sample.empty_form).
Proof.
  intros h.
  split; [| split].
  - exact (proj1 (proj2 (createItem_quantity_coerced h Sample.blank)) eq_refl).
  - exact (proj1 (proj2 (proj2 (createItem_quantity_coerced h Sample.empty_form)))
             "abc" eq_refl eq_refl).
  - exact (proj2 (proj2 (proj2 (createItem_quantity_coerced h Sample.empty_form)))
             Sample.empty_form "abc" eq_refl).
Defined.

(* ===================================================================== *)
(** ** Properties of the query engine: filter *)
(* ===================================================================== *)

Lemma append_cons (c : ascii) (p post : string) :
  (String c p ++ post)%string = String c (p ++ post).
Proof. reflexivity. Qed.

Lemma append_nil (post : string) : ("" ++ post)%string = post.
Proof. reflexivity. Qed.

Lemma prefix_app (p s : string) :
  String.prefix p s = true <-> exists post, s = (p ++ post)%string.
Proof.
  revert s. induction p as [| c p IH]; intros s.
  - split; [intros _; now exists s | intros _; now destruct s].
  - destruct s as [| d s]; cbn [String.prefix].
    + split; [discriminate | intros [post Hp]; discriminate].
    + destruct (Ascii.ascii_dec c d) as [-> | Hne].
      * rewrite IH. split; intros [post Hp]; exists post;
          rewrite append_cons in *; congruence.
      * split; [discriminate | intros [post Hp]; rewrite append_cons in Hp; congruence].
Qed.

Lemma includes_substring (hay needle : string) :
  includes hay needle = true <-> SpecFilter.is_substring needle hay.
Proof.
  unfold SpecFilter.is_substring.
  induction hay as [| c hay IH].
  - cbn [includes]. rewrite orb_false_r, prefix_app. split.
    + intros [post ->]. now exists "", post.
    + intros ([| d pre] & post & Heq); [now exists post |].
      rewrite append_cons in Heq. discriminate.
  - cbn [includes]. rewrite orb_true_iff, prefix_app, IH. split.
    + intros [[post ->] | (pre & post & ->)].
      * now exists "", post.
      * now exists (String c pre), post.
    + intros ([| d pre] & post & Heq).
      * left. now exists post.
      * right. exists pre, post. rewrite append_cons in Heq. congruence.
Qed.

Lemma nonempty_true (s : string) : nonempty s = true <-> s <> "".
Proof. destruct s; cbn; split; congruence. Qed.

Lemma strict_eq_Str (v : value) (s : string) :
  strict_eq v (Str s) = true <-> v = Str s.
Proof.
  destruct v; cbn; try (split; congruence).
  rewrite String.eqb_eq. split; congruence.
Qed.

Lemma bucket_cases (c : string) :
  (c = "expired" /\ SpecFilter.bucket c = Some "expired")
  \/ (c = "3months" /\ SpecFilter.bucket c = Some "warning")
  \/ (c = "good" /\ SpecFilter.bucket c = Some "good")
  \/ (c <> "expired" /\ c <> "3months" /\ c <> "good" /\ SpecFilter.bucket c = None).
Proof.
  unfold SpecFilter.bucket.
  destruct (String.eqb_spec c "expired") as [-> | H1]; [now left |].
  destruct (String.eqb_spec c "3months") as [-> | H2]; [now right; left |].
  destruct (String.eqb_spec c "good") as [-> | H3]; [now right; right; left |].
  now right; right; right.
Qed.

Section Filter.
Variable h : Host.

Lemma filter_callback_split (f : Filters.t) (i : Item) :
  InventoryService.filter_callback h f i
  = SpecFilter.bucket_test h f i
    && InventoryService.filter_callback h (SpecFilter.without_expiry f) i.
Proof.
  unfold InventoryService.filter_callback, SpecFilter.bucket_test.
  cbn [SpecFilter.without_expiry Filters.search Filters.category
         Filters.status Filters.expiry Filters.lowStock].
  change (String.eqb "" "expired") with false.
  change (String.eqb "" "3months") with false.
  change (String.eqb "" "good") with false.
  cbn [andb].
  set (code := DateUtils.code (DateUtils.classifyExpiry h (expiryDate i))).
  destruct (nonempty (Filters.category f)
            && negb (strict_eq (category i) (Str (Filters.category f))));
    [now rewrite andb_false_r |].
  destruct (nonempty (Filters.status f)
            && negb (strict_eq (status i) (Str (Filters.status f))));
    [now rewrite andb_false_r |].
  destruct (nonempty (Filters.search f)
            && negb (includes (InventoryService.haystack h i)
                       (toLowerCase (Filters.search f))));
    [now rewrite andb_false_r |].
  destruct (bucket_cases (Filters.expiry f))
    as [[-> ->] | [[-> ->] | [[-> ->] | (H1 & H2 & H3 & ->)]]];
    cbn [String.eqb Ascii.eqb Bool.eqb andb negb].
  - destruct (String.eqb code "expired"); reflexivity.
  - destruct (String.eqb code "warning"); reflexivity.
  - destruct (String.eqb code "good"); reflexivity.
  - apply String.eqb_neq in H1, H2, H3. rewrite H1, H2, H3. reflexivity.
Qed.


Lemma guard_nonempty (s : string) (t : bool) :
  nonempty s && negb t = false <-> (s <> "" -> t = true).
Proof.
  destruct s, t; cbn; split; auto; try congruence.
  intros Hx. discriminate Hx. discriminate.
Qed.

Lemma guard_eqb (x c : string) (t : bool) :
  String.eqb x c && negb t = false <-> (x = c -> t = true).
Proof.
  destruct (String.eqb_spec x c), t; cbn; split; auto; try congruence.
  intros Hx. now discriminate Hx.
Qed.

Lemma bucket_test_true (f : Filters.t) (i : Item) :
  SpecFilter.bucket_test h f i = true
  <-> forall c, SpecFilter.bucket (Filters.expiry f) = Some c ->
        DateUtils.code (DateUtils.classifyExpiry h (expiryDate i)) = c.
Proof.
  unfold SpecFilter.bucket_test.
  destruct (SpecFilter.bucket (Filters.expiry f)) as [c |].
  - rewrite String.eqb_eq. split; [intros <- c' [= <-] | intros Hc]; auto.
  - split; [intros _ c [=] | reflexivity].
Qed.

Lemma other_criteria (f : Filters.t) (i : Item) :
  InventoryService.filter_callback h (SpecFilter.without_expiry f) i = true
  <-> (Filters.category f <> "" -> category i = Str (Filters.category f))
      /\ (Filters.status f <> "" -> status i = Str (Filters.status f))
      /\ (Filters.search f <> "" ->
            SpecFilter.is_substring (toLowerCase (Filters.search f))
              (toLowerCase (SpecFilter.searched_text h i)))
      /\ (Filters.lowStock f = "low" ->
            js_le (quantity i) (Num (num_of_Z 2)) = true).
Proof.
  rewrite <- !strict_eq_Str, <- includes_substring.
  rewrite <- !guard_nonempty, <- guard_eqb.
  change (toLowerCase (SpecFilter.searched_text h i))
    with (InventoryService.haystack h i).
  unfold InventoryService.filter_callback.
  cbn [SpecFilter.without_expiry Filters.search Filters.category
         Filters.status Filters.expiry Filters.lowStock].
  change (String.eqb "" "expired") with false.
  change (String.eqb "" "3months") with false.
  change (String.eqb "" "good") with false.
  cbn [andb].
  destruct (nonempty (Filters.category f) && _); [intuition discriminate |].
  destruct (nonempty (Filters.status f) && _); [intuition discriminate |].
  destruct (nonempty (Filters.search f) && _); [intuition discriminate |].
  destruct (String.eqb (Filters.lowStock f) "low" && _); intuition discriminate.
Qed.

Lemma filter_callback_satisfies (f : Filters.t) (i : Item) :
  InventoryService.filter_callback h f i = true <-> SpecFilter.satisfies h f i.
Proof.
  rewrite filter_callback_split, andb_true_iff, bucket_test_true, other_criteria.
  unfold SpecFilter.satisfies. tauto.
Qed.

Lemma filter_callback_unset (i : Item) :
  InventoryService.filter_callback h Filters.unset i = true.
Proof. reflexivity. Qed.

Lemma filter_all (p : Item -> bool) (l : list Item) :
  (forall i, p i = true) -> List.filter p l = l.
Proof.
  intros Hp. induction l as [| i l IH]; cbn; [reflexivity |].
  now rewrite Hp, IH.
Qed.

(** C3, as the code has it.  The expiry criterion selects a bucket by the
    values ['expired'], ['3months'] and ['good'], which stand for the
    codes [expired], [warning] and [good]: [filter] then keeps exactly
    the items with that code among those that pass the other criteria.
    Any other value, ['warning'] among them, leaves the criterion
    inactive. *)
Theorem filter_expiry_bucket (items : list Item) (f : Filters.t) :
  (forall c, SpecFilter.bucket (Filters.expiry f) = Some c ->
     forall i, In i (InventoryService.filter h items f)
               <-> In i (InventoryService.filter h items (SpecFilter.without_expiry f))
                   /\ DateUtils.code (DateUtils.classifyExpiry h (expiryDate i)) = c)
  /\ (SpecFilter.bucket (Filters.expiry f) = None ->
        InventoryService.filter h items f
        = InventoryService.filter h items (SpecFilter.without_expiry f))
  /\ SpecFilter.bucket "expired" = Some "expired"
  /\ SpecFilter.bucket "3months" = Some "warning"
  /\ SpecFilter.bucket "good" = Some "good"
  /\ SpecFilter.bucket "warning" = None.
Proof.
  split; [| split; [| repeat split]].
  - intros c Hc i. unfold InventoryService.filter.
    rewrite !filter_In, filter_callback_split, andb_true_iff.
    unfold SpecFilter.bucket_test. rewrite Hc, String.eqb_eq. tauto.
  - intros Hc. unfold InventoryService.filter.
    apply filter_ext. intros i. rewrite filter_callback_split.
    unfold SpecFilter.bucket_test. now rewrite Hc.
Qed.

Lemma filter_sublist (p : Item -> bool) (l : list Item) :
  sublist (List.filter p l) l.
Proof.
  induction l as [| i l IH]; cbn; [constructor |].
  destruct (p i); now constructor.
Qed.

(** C4.  An item is in the output of [filter] exactly when it is in the
    input and satisfies every active criterion: the category and the
    status match exactly, the search term occurs (case-insensitively) in
    the space-joined non-empty text fields, the item is in the selected
    expiry bucket, and, for the low-stock criterion, [quantity <= 2].
    The output keeps the order of the input, and with every criterion
    unset it is the input. *)
Theorem filter_keeps_satisfying (items : list Item) (f : Filters.t) :
  (forall i, In i (InventoryService.filter h items f)
             <-> In i items /\ SpecFilter.satisfies h f i)
  /\ sublist (InventoryService.filter h items f) items
  /\ InventoryService.filter h items Filters.unset = items.
Proof.
  split; [| split].
  - intros i. unfold InventoryService.filter.
    now rewrite filter_In, filter_callback_satisfies.
  - apply filter_sublist.
  - apply filter_all, filter_callback_unset.
Qed.

End Filter.

(** With the criterion value ['warning'] an item without expiry date, whose
    code is [none], is kept: C3 as stated fails. *)
Lemma filter_warning_keeps_none :
  let h := IsoHost.utc_2025_06_15 in
  let f := {| Filters.search := ""; Filters.category := ""; Filters.status := "";
              Filters.expiry := "warning"; Filters.lowStock := "" |} in
  ~ (forall i, In i (InventoryService.filter h [Sample.calcium] f)
               <-> In i [Sample.calcium]
                   /\ DateUtils.code (DateUtils.classifyExpiry h (expiryDate i))
                      = Filters.expiry f).
Proof.
  intros h f Hall.
  destruct (proj1 (Hall Sample.calcium)) as [_ Hcode].
  - vm_compute. left. reflexivity.
  - vm_compute in Hcode. discriminate Hcode.
Qed.

(** The criterion ['3months'] on a list with one item in each bucket. *)
Lemma filter_expiry_bucket_witness :
  let h := IsoHost.utc_2025_06_15 in
  let items := [Sample.glucose; Sample.albumin; Sample.calcium; Sample.sgpt] in
  let f := {| Filters.search := ""; Filters.category := ""; Filters.status := "";
              Filters.expiry := "3months"; Filters.lowStock := "" |} in
  let g := {| Filters.search := ""; Filters.category := ""; Filters.status := "";
              Filters.expiry := "warning"; Filters.lowStock := "" |} in
  (In Sample.sgpt (InventoryService.filter h items f)
   /\ ~ In Sample.glucose (InventoryService.filter h items f))
  /\ InventoryService.filter h items g = items.
Proof.
  intros h items f g. split; [split |].
  - apply (proj1 (filter_expiry_bucket h items f) "warning" eq_refl Sample.sgpt).
    split; [vm_compute; auto 10 | reflexivity].
  - intros Hin.
    apply (proj1 (filter_expiry_bucket h items f) "warning" eq_refl Sample.glucose)
      in Hin.
    destruct Hin as [_ Hcode]. vm_compute in Hcode. discriminate Hcode.
  - rewrite (proj1 (proj2 (filter_expiry_bucket h items g)) eq_refl).
    reflexivity.
Defined.

(* ===================================================================== *)
(** ** Properties of the query engine: sort *)
(* ===================================================================== *)

Section InsertionSort.
Context {A : Type}.
Variable comparefn : A -> A -> Z.

Lemma insert_perm (x : A) (l : list A) :
  Permutation (JsArray.insert comparefn x l) (x :: l).
Proof.
  induction l as [| y l IH]; cbn; [reflexivity |].
  destruct (comparefn x y <=? 0); [reflexivity |].
  rewrite IH. apply perm_swap.
Qed.

Lemma sort_perm (l : list A) : Permutation (JsArray.sort comparefn l) l.
Proof.
  induction l as [| x l IH]; cbn; [reflexivity |].
  now rewrite insert_perm, IH.
Qed.

(** A comparison function that orders by an integer key. *)
Variable key : A -> Z.
Hypothesis comparefn_key : forall x y, comparefn x y <= 0 <-> key x <= key y.

Let by_key (x y : A) : Prop := key x <= key y.

Lemma insert_sorted (x : A) (l : list A) :
  StronglySorted by_key l ->
  StronglySorted by_key (JsArray.insert comparefn x l).
Proof.
  induction 1 as [| y l Hl IH Hy]; cbn.
  - repeat constructor.
  - destruct (Z.leb_spec (comparefn x y) 0) as [Hle | Hgt].
    + apply comparefn_key in Hle.
      constructor; [now constructor |].
      constructor; [exact Hle |].
      eapply Forall_impl; [exact Hy |]. unfold by_key. intros z Hz. lia.
    + constructor; [exact IH |].
      assert (Hyx : by_key y x).
      { unfold by_key. destruct (Z.le_gt_cases (key x) (key y)) as [Hc | Hc]; [| lia].
        apply comparefn_key in Hc. lia. }
      eapply Permutation_Forall; [symmetry; apply insert_perm |].
      now constructor.
Qed.

Lemma sort_sorted (l : list A) : StronglySorted by_key (JsArray.sort comparefn l).
Proof.
  induction l as [| x l IH]; cbn; [constructor | now apply insert_sorted].
Qed.

Lemma sort_around (l l1 l2 : list A) (x : A) :
  JsArray.sort comparefn l = l1 ++ x :: l2 ->
  Forall (fun y => key y <= key x) l1 /\ Forall (fun y => key x <= key y) l2.
Proof.
  intros Heq. pose proof (sort_sorted l) as Hs. rewrite Heq in Hs.
  apply StronglySorted_app in Hs as (Hcross & _ & Hx).
  apply StronglySorted_cons in Hx as [Hx _].
  split; [| exact Hx].
  apply Forall_forall. intros y Hy. apply Hcross; [exact Hy | left].
Qed.
End InsertionSort.

Section Sort.
Variable h : Host.

Lemma is_date_field_test (f : string) :
  includes (toLowerCase f) "date" = true <-> SpecSort.is_date_field f.
Proof. apply includes_substring. Qed.

Lemma is_date_field_nonempty (f : string) :
  SpecSort.is_date_field f -> nonempty f = true /\ String.eqb f "quantity" = false.
Proof.
  intros Hf. apply is_date_field_test in Hf. split.
  - destruct f; [discriminate Hf | reflexivity].
  - destruct (String.eqb_spec f "quantity") as [-> |]; [discriminate Hf | reflexivity].
Qed.

Lemma sort_compare_date (f : string) (dir : Z) (a b : Item) :
  SpecSort.is_date_field f ->
  InventoryService.sort_compare h f dir a b
  = SpecSort.three_way
      (InventoryService.date_key h (get_field f a)
       ?= InventoryService.date_key h (get_field f b)) dir.
Proof.
  intros Hf. unfold InventoryService.sort_compare.
  destruct (is_date_field_nonempty f Hf) as [_ ->].
  apply is_date_field_test in Hf. rewrite Hf.
  set (x := InventoryService.date_key h (get_field f a)).
  set (y := InventoryService.date_key h (get_field f b)).
  destruct (Z.eqb_spec x y) as [-> | Hne].
  - now rewrite Z.compare_refl.
  - unfold Z.gtb. destruct (x ?= y) eqn:Hc; try reflexivity.
    apply Z.compare_eq in Hc. contradiction.
Qed.

Lemma sort_compare_quantity (dir : Z) (a b : Item) :
  InventoryService.sort_compare h "quantity" dir a b
  = SpecSort.compare_numbers (SpecSort.numeric_key (quantity a))
      (SpecSort.numeric_key (quantity b)) dir.
Proof.
  unfold InventoryService.sort_compare, SpecSort.compare_numbers.
  change (get_field "quantity" a) with (quantity a).
  change (get_field "quantity" b) with (quantity b).
  change (String.eqb "quantity" "quantity") with true.
  change (includes (toLowerCase "quantity") "date") with false.
  cbv iota beta. fold (SpecSort.numeric_key (quantity a)).
  fold (SpecSort.numeric_key (quantity b)).
  cbn [InventoryService.lower_if_string strict_eq].
  unfold js_gt, js_lt, js_compare_lt, ToNumber.
  destruct (num_eq _ _); [reflexivity |].
  destruct (num_lt _ _) as [[|] |]; reflexivity.
Qed.

Lemma ascending_by_date (f direction : string) (a b : Item) :
  SpecSort.is_date_field f -> direction <> "desc" ->
  InventoryService.sort_compare h f
    (if String.eqb direction "desc" then -1 else 1) a b <= 0
  <-> InventoryService.date_key h (get_field f a)
      <= InventoryService.date_key h (get_field f b).
Proof.
  intros Hf Hd. apply String.eqb_neq in Hd. rewrite Hd.
  rewrite sort_compare_date by exact Hf.
  unfold Z.le.
  destruct (InventoryService.date_key h (get_field f a)
            ?= InventoryService.date_key h (get_field f b));
    cbn; intuition congruence.
Qed.

Lemma date_key_unparseable (v : value) :
  DateUtils.parse h v = None -> InventoryService.date_key h v = 0.
Proof. unfold InventoryService.date_key. now intros ->. Qed.

(** C6, as the code has it.  A field whose name contains "date" is compared
    by the time value of its parsed date, a missing or unparseable date
    counting as time 0, the epoch.  In ascending order every item placed
    before an item with an unparseable date therefore has a date at or
    before the epoch, and every item after it a date at or after the
    epoch; the sorted list has the items of the input.  The field
    [quantity] is compared as a number: three items with the quantities 3,
    1 and 2 come out in the order 3, 2, 1 when sorted descending. *)
Theorem sort_dates_and_quantities :
  (forall f dir a b, SpecSort.is_date_field f ->
     InventoryService.sort_compare h f dir a b
     = SpecSort.three_way
         (InventoryService.date_key h (get_field f a)
          ?= InventoryService.date_key h (get_field f b)) dir)
  /\ (forall v, DateUtils.parse h v = None -> InventoryService.date_key h v = 0)
  /\ (forall f direction items before x after,
        SpecSort.is_date_field f -> direction <> "desc" ->
        InventoryService.sort h items f direction = before ++ x :: after ->
        DateUtils.parse h (get_field f x) = None ->
        Forall (fun y => InventoryService.date_key h (get_field f y) <= 0) before
        /\ Forall (fun y => 0 <= InventoryService.date_key h (get_field f y)) after)
  /\ (forall f direction items,
        Permutation (InventoryService.sort h items f direction) items)
  /\ (forall dir a b,
        InventoryService.sort_compare h "quantity" dir a b
        = SpecSort.compare_numbers (SpecSort.numeric_key (quantity a))
            (SpecSort.numeric_key (quantity b)) dir)
  /\ (forall a b c,
        quantity a = Num (num_of_Z 3) -> quantity b = Num (num_of_Z 1) ->
        quantity c = Num (num_of_Z 2) ->
        InventoryService.sort h [a; b; c] "quantity" "desc" = [a; c; b]).
Proof.
  split; [exact sort_compare_date |].
  split; [exact date_key_unparseable |].
  split; [| split; [| split; [exact sort_compare_quantity |]]].
  - intros f direction items before x after Hf Hd Heq Hx.
    unfold InventoryService.sort in Heq.
    destruct (is_date_field_nonempty f Hf) as [Hne _]. rewrite Hne in Heq.
    cbn [negb] in Heq.
    apply (sort_around _ (fun y => InventoryService.date_key h (get_field f y))
             (fun a b => ascending_by_date f direction a b Hf Hd)) in Heq.
    cbn beta in Heq. now rewrite (date_key_unparseable _ Hx) in Heq.
  - intros f direction items. unfold InventoryService.sort.
    destruct (negb (nonempty f)); [reflexivity | apply sort_perm].
  - intros a b c Ha Hb Hc. unfold InventoryService.sort.
    change (String.eqb "desc" "desc") with true.
    cbn [nonempty negb JsArray.sort].
    assert (Hbc : InventoryService.sort_compare h "quantity" (-1) b c = 1)
      by (rewrite sort_compare_quantity, Hb, Hc; reflexivity).
    assert (Hac : InventoryService.sort_compare h "quantity" (-1) a c = -1)
      by (rewrite sort_compare_quantity, Ha, Hc; reflexivity).
    cbn [JsArray.insert]. rewrite Hbc. cbn [Z.leb Z.compare JsArray.insert].
    rewrite Hac. reflexivity.
Qed.

End Sort.

(** An item without expiry date is sorted after an item that expired in
    1960: C6 as stated fails. *)
Lemma sort_unparseable_not_first :
  ~ (exists rest,
        InventoryService.sort IsoHost.utc_2025_06_15
          [Sample.calcium; Sample.urea] "expiryDate" "asc"
        = Sample.calcium :: rest).
Proof. intros [rest Heq]. vm_compute in Heq. discriminate Heq. Qed.

(** Sorting by expiry date and by quantity on sample items. *)
Lemma sort_dates_and_quantities_witness :
  let h := IsoHost.utc_2025_06_15 in
  (Forall (fun y => InventoryService.date_key h (get_field "expiryDate" y) <= 0)
     [Sample.urea]
   /\ Forall (fun y => 0 <= InventoryService.date_key h (get_field "expiryDate" y))
        [Sample.glucose])
  /\ InventoryService.sort h [Sample.calcium; Sample.urea; Sample.sgpt]
       "quantity" "desc"
     = [Sample.calcium; Sample.sgpt; Sample.urea].
Proof.
  intros h. split.
  - apply (proj1 (proj2 (proj2 (sort_dates_and_quantities h)))
             "expiryDate" "asc" [Sample.glucose; Sample.calcium; Sample.urea]
             [Sample.urea] Sample.calcium [Sample.glucose]).
    + exists "expiry", "". reflexivity.
    + discriminate.
    + reflexivity.
    + reflexivity.
  - apply (proj2 (proj2 (proj2 (proj2 (proj2 (sort_dates_and_quantities h)))))
             Sample.calcium Sample.urea Sample.sgpt); reflexivity.
Defined.

(* ===================================================================== *)
(** ** Filter and sort leave their input alone *)
(* ===================================================================== *)

Section Arrays.
Variable h : Host.
Implicit Types (σ : gmap positive (list Item)) (l : list Item).

Lemma fresh_not_allocated σ : σ !! fresh (dom σ) = None.
Proof. apply not_elem_of_dom, is_fresh. Qed.

Lemma alloc_untouched σ l :
  SpecSort.untouched σ (<[fresh (dom σ) := l]> σ).
Proof.
  intros a Ha. apply lookup_insert_ne. intros <-.
  now apply (is_fresh (dom σ)).
Qed.

Lemma filter_run σ (items : positive) l (f : Filters.t) :
  σ !! items = Some l ->
  Heap.filter h items f σ
  = Some (fresh (dom σ), <[fresh (dom σ) := InventoryService.filter h l f]> σ).
Proof.
  intros Hl. unfold Heap.filter, Heap.Array_filter, Heap.bind, Heap.read.
  now rewrite Hl.
Qed.

Lemma sort_run σ (items : positive) l (sortField direction : string) :
  σ !! items = Some l ->
  Heap.sort h items sortField direction σ
  = Some (fresh (dom σ),
          <[fresh (dom σ) := InventoryService.sort h l sortField direction]> σ).
Proof.
  intros Hl. unfold Heap.sort, InventoryService.sort.
  destruct (negb (nonempty sortField)).
  - unfold Heap.Array_slice, Heap.bind, Heap.read. now rewrite Hl.
  - unfold Heap.Array_slice, Heap.Array_sort, Heap.bind, Heap.read,
      Heap.alloc, Heap.write, Heap.ret.
    rewrite Hl, lookup_insert_eq, insert_insert_eq. reflexivity.
Qed.

(** C5.  For an array [items] holding [l]: [filter] with no criterion
    followed by [sort] with no field returns an array that holds [l],
    element for element in the same order; the array returned by [filter]
    and the one returned by [sort] are new, and every array that existed,
    [items] among them, holds afterwards what it held before; with the
    field unset the contents of the result of [sort] are those of its
    input. *)
Theorem filter_sort_fresh_copy σ (items : positive) l :
  σ !! items = Some l ->
  (forall direction, exists r σ',
      Heap.bind (Heap.filter h items Filters.unset)
        (fun view => Heap.sort h view "" direction) σ = Some (r, σ')
      /\ σ' !! r = Some l /\ r <> items /\ σ' !! items = Some l
      /\ SpecSort.untouched σ σ')
  /\ (forall f, exists r σ',
        Heap.filter h items f σ = Some (r, σ')
        /\ (r ∉ dom σ) /\ σ' !! r = Some (InventoryService.filter h l f)
        /\ SpecSort.untouched σ σ')
  /\ (forall sortField direction, exists r σ',
        Heap.sort h items sortField direction σ = Some (r, σ')
        /\ (r ∉ dom σ)
        /\ σ' !! r = Some (InventoryService.sort h l sortField direction)
        /\ SpecSort.untouched σ σ')
  /\ (forall direction, InventoryService.sort h l "" direction = l).
Proof.
  intros Hl.
  assert (Hdom : items ∈ dom σ) by (apply elem_of_dom; eauto).
  split; [| split; [| split]].
  - intros direction.
    set (r1 := fresh (dom σ)).
    set (σ1 := <[r1 := InventoryService.filter h l Filters.unset]> σ).
    exists (fresh (dom σ1)), (<[fresh (dom σ1) := l]> σ1).
    assert (H1 : σ1 !! r1 = Some l).
    { unfold σ1. rewrite lookup_insert_eq.
      f_equal. apply filter_all, filter_callback_unset. }
    assert (Hu1 : SpecSort.untouched σ σ1) by apply alloc_untouched.
    assert (Hu2 : SpecSort.untouched σ1 (<[fresh (dom σ1) := l]> σ1))
      by apply alloc_untouched.
    assert (Hi1 : σ1 !! items = Some l) by (rewrite Hu1; auto).
    assert (Hd1 : items ∈ dom σ1) by (apply elem_of_dom; eauto).
    split; [| split; [| split; [| split]]].
    + unfold Heap.bind. rewrite (filter_run _ _ _ _ Hl). fold r1 σ1.
      now rewrite (sort_run _ _ _ _ _ H1).
    + apply lookup_insert_eq.
    + intros Heq. pose proof (fresh_not_allocated σ1) as Hf.
      rewrite Heq in Hf. congruence.
    + rewrite Hu2; auto.
    + intros a Ha. rewrite Hu2, Hu1; auto.
      apply elem_of_dom. rewrite Hu1 by exact Ha. now apply elem_of_dom.
  - intros f. eexists _, _. split; [apply (filter_run _ _ _ _ Hl) |].
    split; [apply is_fresh |]. split; [apply lookup_insert_eq | apply alloc_untouched].
  - intros sortField direction. eexists _, _.
    split; [apply (sort_run _ _ _ _ _ Hl) |].
    split; [apply is_fresh |]. split; [apply lookup_insert_eq | apply alloc_untouched].
  - reflexivity.
Qed.

End Arrays.

(** A store with one array of two items. *)
Lemma filter_sort_fresh_copy_witness :
  let h := IsoHost.utc_2025_06_15 in
  let l := [Sample.glucose; Sample.albumin] in
  let σ : gmap positive (list Item) := {[ 1%positive := l ]} in
  exists r σ',
    Heap.sort h 1%positive "quantity" "desc" σ = Some (r, σ')
    /\ (r ∉ dom σ)
    /\ σ' !! r = Some (InventoryService.sort h l "quantity" "desc")
    /\ SpecSort.untouched σ σ'.
Proof.
  intros h l σ.
  exact (proj1 (proj2 (proj2 (filter_sort_fresh_copy h σ 1%positive l
                                (lookup_singleton_eq 1%positive l))))
           "quantity" "desc").
Defined.

(* ===================================================================== *)
(** ** Properties of the alert counters *)
(* ===================================================================== *)

Section Alerts.
Variable h : Host.

Lemma count_cons (p : Item -> bool) (i : Item) (l : list Item) :
  SpecAlerts.count p (i :: l)
  = (InventoryService.bump (p i) 0 + SpecAlerts.count p l)%nat.
Proof. unfold SpecAlerts.count. cbn. now destruct (p i). Qed.

Lemma bump_plus (c : bool) (n : nat) :
  InventoryService.bump c n = (n + InventoryService.bump c 0)%nat.
Proof. destruct c; cbn; lia. Qed.

Lemma fold_tally (l : list Item) (acc : InventoryService.Alerts) :
  fold_left (InventoryService.tally h) l acc
  = {| InventoryService.expSoon :=
         InventoryService.expSoon acc
         + SpecAlerts.count (SpecAlerts.has_code h "warning") l;
       InventoryService.expired :=
         InventoryService.expired acc
         + SpecAlerts.count (SpecAlerts.has_code h "expired") l;
       InventoryService.outOfStock :=
         InventoryService.outOfStock acc
         + SpecAlerts.count SpecAlerts.is_out_of_stock l;
       InventoryService.zeroQty :=
         InventoryService.zeroQty acc
         + SpecAlerts.count SpecAlerts.has_zero_quantity l |}%nat.
Proof.
  revert acc. induction l as [| i l IH]; intros acc.
  - destruct acc. cbn. f_equal; lia.
  - cbn [fold_left]. rewrite IH, !count_cons.
    unfold InventoryService.tally.
    cbn [InventoryService.expSoon InventoryService.expired
           InventoryService.outOfStock InventoryService.zeroQty].
    fold (SpecAlerts.has_code h "expired" i).
    fold (SpecAlerts.has_code h "warning" i).
    fold (SpecAlerts.is_out_of_stock i). fold (SpecAlerts.has_zero_quantity i).
    f_equal; rewrite bump_plus; lia.
Qed.

(** C7.  [computeAlerts] counts, each on its own, the items classified
    [expired], the items classified [warning], the items whose status is
    exactly "Out of Stock" and the items whose quantity is the number 0.
    For an item that expired ten days ago with quantity 0 and status
    "Opened", followed by an item that expires in 200 days with quantity 5
    and status "Unopened", the counters are expired 1, expSoon 0,
    outOfStock 0, zeroQty 1. *)
Theorem computeAlerts_counts :
  (forall items,
      InventoryService.computeAlerts h items
      = {| InventoryService.expSoon :=
             SpecAlerts.count (SpecAlerts.has_code h "warning") items;
           InventoryService.expired :=
             SpecAlerts.count (SpecAlerts.has_code h "expired") items;
           InventoryService.outOfStock :=
             SpecAlerts.count SpecAlerts.is_out_of_stock items;
           InventoryService.zeroQty :=
             SpecAlerts.count SpecAlerts.has_zero_quantity items |})
  /\ (forall a b ea eb,
        Spec.parses_to h (expiryDate a) ea -> Spec.whole_days h ea (-10) ->
        quantity a = Num (num_of_Z 0) -> status a = Str "Opened" ->
        Spec.parses_to h (expiryDate b) eb -> Spec.whole_days h eb 200 ->
        quantity b = Num (num_of_Z 5) -> status b = Str "Unopened" ->
        InventoryService.computeAlerts h [a; b]
        = {| InventoryService.expSoon := 0; InventoryService.expired := 1;
             InventoryService.outOfStock := 0; InventoryService.zeroQty := 1 |}).
Proof.
  split.
  - intros items. unfold InventoryService.computeAlerts. now rewrite fold_tally.
  - intros a b ea eb Ha Hda Hqa Hsa Hb Hdb Hqb Hsb.
    unfold InventoryService.computeAlerts. cbn [fold_left].
    unfold InventoryService.tally.
    rewrite (classifyExpiry_code h _ _ _ Ha Hda), (classifyExpiry_code h _ _ _ Hb Hdb).
    rewrite Hqa, Hsa, Hqb, Hsb. reflexivity.
Qed.

End Alerts.

(** The scenario on the calendar: today is 2025-06-15, the first item
    expired on 2025-06-05, the second expires on 2026-01-01. *)
Lemma computeAlerts_counts_witness :
  InventoryService.computeAlerts IsoHost.utc_2025_06_15
    [Sample.glucose; Sample.albumin]
  = {| InventoryService.expSoon := 0; InventoryService.expired := 1;
       InventoryService.outOfStock := 0; InventoryService.zeroQty := 1 |}.
Proof.
  refine (proj2 (computeAlerts_counts IsoHost.utc_2025_06_15)
            Sample.glucose Sample.albumin
            (IsoHost.days_from_civil 2025 6 5 * 86400000)
            (IsoHost.days_from_civil 2026 1 1 * 86400000)
            _ _ eq_refl eq_refl _ _ eq_refl eq_refl).
  - exists "2025-06-05". split; [reflexivity | split; [discriminate | reflexivity]].
  - unfold Spec.whole_days, Spec.nearest. split; vm_compute; easy.
  - exists "2026-01-01". split; [reflexivity | split; [discriminate | reflexivity]].
  - unfold Spec.whole_days, Spec.nearest. split; vm_compute; easy.
Defined.

(* ===================================================================== *)
(** ** Properties of the persistence gateway *)
(* ===================================================================== *)

Lemma or_else_nonempty (s : string) (d : value) :
  s <> "" -> or_else (Str s) d = Str s.
Proof. intros Hs. destruct s; [contradiction | reflexivity]. Qed.

Lemma or_else_empty (d : value) : or_else (Str "") d = d.
Proof. reflexivity. Qed.


(** Without any assumption on the item: the optional fields. *)
Lemma optional_field_roundtrip (item : Item) (f : SpecRow.field) :
  SpecRow.optional f = true ->
  SpecRow.item_field f item = Str "" ->
  SpecRow.row_field f (InventoryRepository.mapItemToRow item) = Null
  /\ (forall back,
        InventoryRepository.mapRowToItem
          (Some (InventoryRepository.mapItemToRow item)) = Some back ->
        SpecRow.item_field f back = Str "").
Proof.
  intros Hopt Hf.
  destruct f; try discriminate Hopt;
    cbn [SpecRow.item_field SpecRow.row_field] in Hf |- *;
    (split; [project_fields; now rewrite Hf |]);
    intros back [= <-]; project_fields; now rewrite Hf.
Qed.



Section Repository.
Import InventoryRepository.
Context {S : Type} `{Supabase S}.
Implicit Types (w : World S).

Lemma getClient_absent w :
  client w = false -> fst (load w) = [].
Proof. intros Hc. unfold load, getClient. now rewrite Hc. Qed.

Lemma load_present w :
  client w = true ->
  fst (load w)
  = match sb_select TABLE_NAME "expiry_date" true (backend w) with
    | (_, Resolved data None) => map mapRowToItem (default [] data)
    | _ => []
    end.
Proof.
  intros Hc. unfold load, getClient. rewrite Hc. cbn [negb].
  destruct (sb_select _ _ _ _) as [s [data [e |] | e]]; reflexivity.
Qed.

Lemma try_upsert_console (item : Item) w :
  console (try_upsert item w)
  = console w
    ++ option_list
         (SpecRepository.failure
            "Failed to upsert inventory item in Supabase"
            "Unexpected error upserting inventory item in Supabase"
            (snd (sb_upsert TABLE_NAME (mapItemToRow item) (backend w)))).
Proof.
  unfold try_upsert.
  destruct (sb_upsert _ _ _) as [s [data [e |] | e]]; cbn;
    try reflexivity. now rewrite app_nil_r.
Qed.

Lemma try_remove_console (v : value) w :
  console (try_remove v w)
  = console w
    ++ option_list
         (SpecRepository.failure
            "Failed to delete inventory item in Supabase"
            "Unexpected error deleting inventory item in Supabase"
            (snd (sb_delete TABLE_NAME "id" v (backend w)))).
Proof.
  unfold try_remove.
  destruct (sb_delete _ _ _ _) as [s [data [e |] | e]]; cbn;
    try reflexivity. now rewrite app_nil_r.
Qed.

Lemma try_upsert_backend (item : Item) w :
  backend (try_upsert item w)
  = fst (sb_upsert TABLE_NAME (mapItemToRow item) (backend w))
  /\ client (try_upsert item w) = client w.
Proof.
  unfold try_upsert.
  destruct (sb_upsert _ _ _) as [s [data [e |] | e]]; cbn; auto.
Qed.

Lemma try_remove_backend (v : value) w :
  backend (try_remove v w) = fst (sb_delete TABLE_NAME "id" v (backend w))
  /\ client (try_remove v w) = client w.
Proof.
  unfold try_remove.
  destruct (sb_delete _ _ _ _) as [s [data [e |] | e]]; cbn; auto.
Qed.

Lemma load_value w w' :
  client w = client w' -> backend w = backend w' -> fst (load w) = fst (load w').
Proof.
  intros Hc Hb. destruct (client w) eqn:Hw.
  - rewrite !load_present by congruence. now rewrite Hb.
  - rewrite !getClient_absent by congruence. reflexivity.
Qed.

(** C9.  [upsert] and [remove] return what [load] returns once their write
    step is over, whatever became of the write: with a client they are
    [load] run after the attempt, without one they return the empty
    collection, as [load] does.  A write that is rejected or throws adds
    one line to the console and nothing else: the backend is left in the
    state in which the call left it, so that when a failed write did not
    change the backend the caller gets the collection [load] would have
    returned before it.  [load] itself always returns; it returns the
    empty collection without a client and when the query is rejected or
    throws, and the mapped rows otherwise. *)
Theorem upsert_remove_return_load (item : Item) (v : value) w :
  fst (upsert item w) = fst (load (SpecRepository.write_phase (try_upsert item) w))
  /\ fst (remove v w) = fst (load (SpecRepository.write_phase (try_remove v) w))
  /\ (if client w
      then upsert item w = load (try_upsert item w)
           /\ remove v w = load (try_remove v w)
      else fst (upsert item w) = [] /\ fst (remove v w) = [] /\ fst (load w) = [])
  /\ (console (try_upsert item w)
      = console w
        ++ option_list
             (SpecRepository.failure
                "Failed to upsert inventory item in Supabase"
                "Unexpected error upserting inventory item in Supabase"
                (snd (sb_upsert TABLE_NAME (mapItemToRow item) (backend w))))
      /\ backend (try_upsert item w)
         = fst (sb_upsert TABLE_NAME (mapItemToRow item) (backend w)))
  /\ (console (try_remove v w)
      = console w
        ++ option_list
             (SpecRepository.failure
                "Failed to delete inventory item in Supabase"
                "Unexpected error deleting inventory item in Supabase"
                (snd (sb_delete TABLE_NAME "id" v (backend w))))
      /\ backend (try_remove v w) = fst (sb_delete TABLE_NAME "id" v (backend w)))
  /\ (fst (sb_upsert TABLE_NAME (mapItemToRow item) (backend w)) = backend w ->
      fst (upsert item w) = fst (load w))
  /\ (fst (sb_delete TABLE_NAME "id" v (backend w)) = backend w ->
      fst (remove v w) = fst (load w))
  /\ fst (load w)
     = if client w
       then match sb_select TABLE_NAME "expiry_date" true (backend w) with
            | (_, Resolved data None) => map mapRowToItem (default [] data)
            | _ => []
            end
       else [].
Proof.
  pose proof (try_upsert_backend item w) as [Hub Huc].
  pose proof (try_remove_backend v w) as [Hrb Hrc].
  unfold SpecRepository.write_phase, upsert, remove.
  destruct (client w) eqn:Hc.
  - unfold getClient. rewrite Hc. cbn [negb fst snd].
    repeat split; auto using try_upsert_console, try_remove_console,
      load_present.
    + intros Hsame. apply load_value; congruence.
    + intros Hsame. apply load_value; congruence.
  - pose proof (getClient_absent w Hc) as Hload.
    assert (Hc' : client (snd (getClient w)) = false).
    { unfold getClient. rewrite Hc. exact Hc. }
    rewrite (getClient_absent _ Hc').
    unfold getClient. rewrite Hc. cbn [negb fst snd].
    repeat split; auto using try_upsert_console, try_remove_console.
Qed.

End Repository.

(** A backend that rejects the write and then answers the query: the caller
    gets the table as it was, and the rejection is on the console. *)
Lemma upsert_remove_return_load_witness :
  let row := InventoryRepository.mapItemToRow Sample.albumin in
  let w := FakeBackend.world [row] [FakeBackend.Rejects "denied"] in
  fst (InventoryRepository.upsert Sample.glucose w)
  = [InventoryRepository.mapRowToItem (Some row)]
  /\ InventoryRepository.console (InventoryRepository.try_upsert Sample.glucose w)
     = [("Failed to upsert inventory item in Supabase", Some "denied")]
  /\ fst (InventoryRepository.remove (Str "itm-Albumin") FakeBackend.offline) = [].
Proof.
  intros row w. split; [| split].
  - rewrite (proj1 (upsert_remove_return_load Sample.glucose Null w)).
    reflexivity.
  - rewrite (proj1 (proj1 (proj2 (proj2 (proj2
               (upsert_remove_return_load Sample.glucose Null w)))))).
    reflexivity.
  - rewrite (proj1 (proj2 (upsert_remove_return_load Sample.glucose
                             (Str "itm-Albumin") FakeBackend.offline))).
    reflexivity.
Defined.

(* ===================================================================== *)
(** ** Further properties of DateUtils *)
(* ===================================================================== *)

Lemma length_append (a b : string) :
  String.length (a ++ b) = (String.length a + String.length b)%nat.
Proof.
  induction a as [| c a IH]; [reflexivity |].
  rewrite append_cons. cbn [String.length]. now rewrite IH.
Qed.

Lemma append_assoc (a b c : string) : ((a ++ b) ++ c = a ++ (b ++ c))%string.
Proof.
  induction a as [| x a IH]; [reflexivity |].
  rewrite !append_cons. now rewrite IH.
Qed.

Lemma append_empty_r (a : string) : (a ++ "")%string = a.
Proof.
  induction a as [| x a IH]; [reflexivity |].
  rewrite append_cons. now rewrite IH.
Qed.

Section DayCount.
Variable h : Host.

(** X1.  When the local midnights of two dates are [k] days apart give or
    take less than half a day, as after a change of the clocks,
    [daysBetween] is exactly [k]. *)
Theorem daysBetween_tolerates_clock_change (from to k r : Z) :
  setHours0 h to - setHours0 h from = k * 86400000 + r ->
  - 43200000 <= r < 43200000 ->
  DateUtils.daysBetween h (Some from) (Some to) = Some k.
Proof.
  intros Hdiff Hr. unfold DateUtils.daysBetween. f_equal.
  apply (nearest_unique (setHours0 h to - setHours0 h from) 86400000);
    [lia | apply Math_round_div_nearest; unfold DateUtils.msPerDay; lia |].
  unfold Spec.nearest. lia.
Qed.

(** X2.  The label of a parsed date that is [d] whole days away is
    "Expired" for [d < 0], "Expiring in d day(s)" for [0 <= d <= 90], with
    the singular for [d = 1] only, and "Valid (d days left)" for [d > 90]:
    in that last case the noun is always plural. *)
Theorem classifyExpiry_label (D : value) (e d : Z) :
  Spec.parses_to h D e -> Spec.whole_days h e d ->
  DateUtils.label (DateUtils.classifyExpiry h D) = SpecDates.label_for d.
Proof.
  intros He Hd. unfold DateUtils.classifyExpiry, SpecDates.label_for.
  rewrite (parse_date_string _ _ _ He), (daysBetween_whole_days _ _ _ Hd).
  change (DateUtils.days_number (Some d)) with d.
  destruct (Z.ltb_spec d 0); [reflexivity |].
  destruct (Z.leb_spec d 90); cbn [DateUtils.label DateUtils.days_text].
  - destruct (Z.eqb_spec d 1) as [-> | Hne]; [reflexivity |].
    assert (Hs : DateUtils.plural_s (Some d) = "s").
    { destruct d as [| [p | p |] |]; try reflexivity. contradiction. }
    rewrite Hs. reflexivity.
  - assert (Hs : DateUtils.plural_s (Some d) = "s").
    { destruct d as [| [p | p |] |]; try reflexivity. lia. }
    rewrite Hs. reflexivity.
Qed.

End DayCount.

(** One day across a change of the clocks. *)
Lemma daysBetween_tolerates_clock_change_witness :
  DateUtils.daysBetween SpecDates.clock_change
    (Some (99 * 86400000 + 3600000)) (Some (100 * 86400000 + 7200000))
  = Some 1.
Proof.
  apply (daysBetween_tolerates_clock_change SpecDates.clock_change
           (99 * 86400000 + 3600000) (100 * 86400000 + 7200000) 1 (-3600000)).
  - reflexivity.
  - lia.
Defined.

(** Tomorrow, and a date 200 days ahead. *)
Lemma classifyExpiry_label_witness :
  DateUtils.label (DateUtils.classifyExpiry IsoHost.utc_2025_06_15 (Str "2025-06-16"))
  = "Expiring in 1 day"
  /\ DateUtils.label (DateUtils.classifyExpiry IsoHost.utc_2025_06_15 (Str "2026-01-01"))
     = "Valid (200 days left)".
Proof.
  split.
  - apply (classifyExpiry_label IsoHost.utc_2025_06_15 (Str "2025-06-16")
             (IsoHost.days_from_civil 2025 6 16 * 86400000) 1).
    + exists "2025-06-16". split; [reflexivity | split; [discriminate | reflexivity]].
    + unfold Spec.whole_days, Spec.nearest. split; vm_compute; easy.
  - apply (classifyExpiry_label IsoHost.utc_2025_06_15 (Str "2026-01-01")
             (IsoHost.days_from_civil 2026 1 1 * 86400000) 200).
    + exists "2026-01-01". split; [reflexivity | split; [discriminate | reflexivity]].
    + unfold Spec.whole_days, Spec.nearest. split; vm_compute; easy.
Defined.

Lemma string_of_small (z : Z) :
  0 <= z <= 99 ->
  String.length (string_of_Z z) = if z <? 10 then 1%nat else 2%nat.
Proof.
  intros Hz. rewrite <- (Z2Nat.id z) by lia.
  assert (Hn : (Z.to_nat z < 100)%nat) by lia.
  generalize dependent (Z.to_nat z). clear z Hz. intros n Hn.
  do 100 (destruct n as [| n]; [reflexivity |]). lia.
Qed.

Lemma padStart_two (z : Z) :
  0 <= z <= 99 ->
  padStart 2 "0" (string_of_Z z) = SpecDates.two_digits z
  /\ String.length (SpecDates.two_digits z) = 2%nat.
Proof.
  intros Hz. pose proof (string_of_small z Hz) as Hlen.
  unfold padStart, SpecDates.two_digits.
  destruct (z <? 10); rewrite Hlen; cbn [Nat.leb Nat.sub fill].
  - split; [reflexivity |]. rewrite append_cons, append_nil. cbn [String.length]. now rewrite Hlen.
  - split; reflexivity.
Qed.

(** X3.  [format] gives the empty string exactly when the date is missing
    or unparseable.  For a date whose day of the month is between 1 and 31
    and whose month index is between 0 and 11 it gives the day and the
    month (counted from 1) with two digits each, then the year, separated
    by slashes. *)
Theorem format_day_month_year (h : Host) (cal : Calendar) (D : value) :
  (DateUtils.format h cal D = "" <-> DateUtils.parse h D = None)
  /\ (forall d, DateUtils.parse h D = Some d ->
        1 <= getDate cal d <= 31 -> 0 <= getMonth cal d <= 11 ->
        DateUtils.format h cal D
        = (SpecDates.two_digits (getDate cal d) ++ "/"
           ++ SpecDates.two_digits (getMonth cal d + 1) ++ "/"
           ++ string_of_Z (getFullYear cal d))%string
        /\ String.length (SpecDates.two_digits (getDate cal d)) = 2%nat
        /\ String.length (SpecDates.two_digits (getMonth cal d + 1)) = 2%nat).
Proof.
  unfold DateUtils.format. split.
  - destruct (DateUtils.parse h D) as [d |]; [| tauto].
    split; [| discriminate]. intros Heq.
    apply (f_equal String.length) in Heq.
    rewrite !length_append in Heq. cbn in Heq. lia.
  - intros d -> Hday Hmonth.
    destruct (padStart_two (getDate cal d)) as [-> Hd]; [lia |].
    destruct (padStart_two (getMonth cal d + 1)) as [-> Hm]; [lia |].
    auto.
Qed.

(* ===================================================================== *)
(** ** Further properties of the model, the validator and the row mapping *)
(* ===================================================================== *)

Lemma not_a_number_not_negative (v : value) :
  SpecValidate.not_a_number v = true -> js_lt v (Num (num_of_Z 0)) = false.
Proof. destruct v as [| | b | [| neg | q] | s]; try discriminate; reflexivity. Qed.

Lemma validate_empty_iff (item : Item) :
  InventoryService.validate item = []
  <-> truthy (category item) = true /\ truthy (itemName item) = true
      /\ truthy (expiryDate item) = true
      /\ SpecValidate.not_a_number (quantity item) = false
      /\ js_lt (quantity item) (Num (num_of_Z 0)) = false.
Proof.
  rewrite validate_violations.
  unfold SpecValidate.violations, SpecValidate.rules.
  cbn [List.filter map fst snd].
  destruct (truthy (category item)), (truthy (itemName item)),
    (truthy (expiryDate item)), (SpecValidate.not_a_number (quantity item)),
    (js_lt (quantity item) (Num (num_of_Z 0)));
    cbn [negb List.filter map fst snd];
    (split; [intros Hv; try discriminate Hv; auto 10
            | intros (H1 & H2 & H3 & H4 & H5); try discriminate; reflexivity]).
Qed.

(** X4.  [validate] accepts an item, returning no message, exactly when its
    category, name and expiry date are set, its quantity is neither
    missing nor [NaN], and the quantity is not below zero.  The two rules
    on the quantity never fire together, so there are at most four
    messages. *)
Theorem validate_accepts (item : Item) :
  (InventoryService.validate item = []
   <-> truthy (category item) = true /\ truthy (itemName item) = true
       /\ truthy (expiryDate item) = true
       /\ SpecValidate.not_a_number (quantity item) = false
       /\ js_lt (quantity item) (Num (num_of_Z 0)) = false)
  /\ (length (InventoryService.validate item) <= 4)%nat
  /\ ~ (In "Quantity must be a number" (InventoryService.validate item)
        /\ In "Quantity cannot be negative" (InventoryService.validate item)).
Proof.
  split; [apply validate_empty_iff |].
  rewrite validate_violations.
  unfold SpecValidate.violations, SpecValidate.rules.
  cbn [List.filter map fst snd].
  pose proof (not_a_number_not_negative (quantity item)) as Hex.
  destruct (truthy (category item)), (truthy (itemName item)),
    (truthy (expiryDate item)), (SpecValidate.not_a_number (quantity item)),
    (js_lt (quantity item) (Num (num_of_Z 0)));
    try (specialize (Hex eq_refl); discriminate Hex);
    cbn [negb List.filter map fst snd length In];
    (split; [lia | intros [Ha Hb];
                   repeat (destruct Ha as [Ha | Ha]; try discriminate Ha);
                   repeat (destruct Hb as [Hb | Hb]; try discriminate Hb);
                   try contradiction]).
Qed.

Lemma or_else_idem (v d d' : value) :
  truthy d = true \/ d = d' -> or_else (or_else v d) d' = or_else v d.
Proof.
  unfold or_else. destruct (truthy v) eqn:Hv.
  - now rewrite Hv.
  - intros [Hd | ->]; [now rewrite Hd |].
    destruct (truthy d'); reflexivity.
Qed.

Lemma or_else_null_back (v d : value) :
  truthy d = true \/ d = Str "" ->
  or_else (or_else (or_else v d) Null) d = or_else v d.
Proof.
  unfold or_else. destruct (truthy v) eqn:Hv.
  - now rewrite Hv, Hv.
  - intros [Hd | ->]; [now rewrite Hd, Hd | reflexivity].
Qed.

Lemma or_else_null_set (v : value) :
  v = Str "" \/ truthy v = true -> or_else (or_else v Null) (Str "") = v.
Proof.
  unfold or_else. intros [-> | Hv]; [reflexivity | now rewrite Hv, Hv].
Qed.

Section Model.
Variable h : Host.

(** X5.  [createItem] changes nothing in an item it built itself, whatever
    the clock and the random digits at the second call: the identifier
    generated the first time is kept. *)
Theorem createItem_idempotent (h' : Host) (payload : Item) :
  InventoryService.createItem h' (InventoryService.createItem h payload)
  = InventoryService.createItem h payload.
Proof.
  unfold InventoryService.createItem.
  cbn [id category itemName brand contentVolume lotNumber dateReceived
         expiryDate dateOpened status quantity remarks coalesce is_nullish ToNumber].
  rewrite (or_else_idem (status payload)) by (left; reflexivity).
  rewrite (or_else_idem (id payload)) by (left; reflexivity).
  rewrite !or_else_idem by (right; reflexivity).
  reflexivity.
Qed.

Lemma created_roundtrip (payload : Item) :
  category payload = Str "" \/ truthy (category payload) = true ->
  InventoryRepository.mapRowToItem
    (Some (InventoryRepository.mapItemToRow (InventoryService.createItem h payload)))
  = Some (InventoryService.createItem h payload).
Proof.
  intros Hcat.
  unfold InventoryRepository.mapRowToItem, InventoryRepository.mapItemToRow,
    InventoryService.createItem.
  cbn [id category itemName brand contentVolume lotNumber dateReceived
         expiryDate dateOpened status quantity remarks coalesce is_nullish ToNumber
         TableRow.id TableRow.category TableRow.item_name TableRow.brand TableRow.content_volume
         TableRow.lot_number TableRow.date_received TableRow.expiry_date TableRow.date_opened
         TableRow.status TableRow.quantity TableRow.remarks].
  rewrite !or_else_null_back by (right; reflexivity).
  rewrite (or_else_null_set (category payload)) by exact Hcat.
  rewrite !or_else_idem by (right; reflexivity).
  reflexivity.
Qed.

(** X6.  An item built by [createItem] that passes [validate] comes back
    from the backend mapping exactly as it was: mapping it to a row and the
    row to an item gives the same item, field for field.  For an item
    built by [createItem] it is enough that the category is set or is the
    empty string. *)
Theorem valid_item_saved_as_is (payload : Item) :
  InventoryService.validate (InventoryService.createItem h payload) = [] ->
  InventoryRepository.mapRowToItem
    (Some (InventoryRepository.mapItemToRow (InventoryService.createItem h payload)))
  = Some (InventoryService.createItem h payload).
Proof.
  intros Hv. apply created_roundtrip. right.
  apply (proj1 (validate_empty_iff _) Hv).
Qed.

End Model.

(** X7.  The two mappings undo each other on what they produce: the item
    made from a row is given back unchanged when it is mapped to a row and
    back, and the row made from an item is given back unchanged when it is
    mapped to an item and back. *)
Theorem mappings_inverse_on_images :
  (forall row : TableRow.t,
      exists item,
        InventoryRepository.mapRowToItem (Some row) = Some item
        /\ InventoryRepository.mapRowToItem
             (Some (InventoryRepository.mapItemToRow item)) = Some item)
  /\ (forall item : Item,
        exists back,
          InventoryRepository.mapRowToItem
            (Some (InventoryRepository.mapItemToRow item)) = Some back
          /\ InventoryRepository.mapItemToRow back
             = InventoryRepository.mapItemToRow item).
Proof.
  split.
  - intros row. eexists. split; [reflexivity |].
    unfold InventoryRepository.mapRowToItem, InventoryRepository.mapItemToRow.
    project_fields. cbn [coalesce is_nullish ToNumber].
    rewrite !or_else_null_back by (right; reflexivity).
    rewrite !or_else_idem by (right; reflexivity).
    reflexivity.
  - intros item. eexists. split; [reflexivity |].
    unfold InventoryRepository.mapRowToItem, InventoryRepository.mapItemToRow.
    project_fields. cbn [coalesce is_nullish ToNumber].
    assert (Hn : forall v, or_else (or_else (or_else v Null) (Str "")) Null
                           = or_else v Null).
    { intros v. unfold or_else. destruct (truthy v) eqn:Hv; [now rewrite Hv, Hv |].
      reflexivity. }
    rewrite !Hn, !or_else_idem by (right; reflexivity).
    reflexivity.
Qed.

(** A form filled in by hand. *)
Lemma valid_item_saved_as_is_witness :
  let h := IsoHost.utc_2025_06_15 in
  InventoryRepository.mapRowToItem
    (Some (InventoryRepository.mapItemToRow
             (InventoryService.createItem h Sample.sgpt)))
  = Some (InventoryService.createItem h Sample.sgpt).
Proof.
  intros h. apply (valid_item_saved_as_is h Sample.sgpt). reflexivity.
Defined.

(* ===================================================================== *)
(** ** Further properties of the query engine *)
(* ===================================================================== *)

Lemma nonempty_toLowerCase (s : string) : nonempty (toLowerCase s) = nonempty s.
Proof. destruct s; reflexivity. Qed.

Lemma toLowerCase_idempotent (s : string) : toLowerCase (toLowerCase s) = toLowerCase s.
Proof.
  induction s as [| c s IH]; cbn [toLowerCase]; [reflexivity |].
  rewrite IH. f_equal.
  unfold lower_char at 1. destruct (_ && _) eqn:Hup; [| reflexivity].
  exfalso. revert Hup. clear.
  destruct c as [[] [] [] [] [] [] [] []]; vm_compute; discriminate.
Qed.

Section Search.
Variable h : Host.

(** X8.  The search criterion does not see letter case: two search terms
    that are equal once lowered select the same items. *)
Theorem search_ignores_case (items : list Item) (f : Filters.t) (s : string) :
  toLowerCase s = toLowerCase (Filters.search f) ->
  InventoryService.filter h items (SpecQuery.with_search s f)
  = InventoryService.filter h items f.
Proof.
  intros Hs. unfold InventoryService.filter. apply filter_ext. intros i.
  unfold InventoryService.filter_callback.
  cbn [SpecQuery.with_search Filters.search Filters.category Filters.status
         Filters.expiry Filters.lowStock].
  rewrite Hs, <- (nonempty_toLowerCase s), Hs, nonempty_toLowerCase.
  reflexivity.
Qed.

End Search.

(** The term "ALB" and the term "alb". *)
Lemma search_ignores_case_witness :
  let h := IsoHost.utc_2025_06_15 in
  let f := SpecQuery.with_search "alb" Filters.unset in
  InventoryService.filter h [Sample.glucose; Sample.albumin]
    (SpecQuery.with_search "ALB" f)
  = InventoryService.filter h [Sample.glucose; Sample.albumin] f.
Proof.
  intros h f.
  apply (search_ignores_case h [Sample.glucose; Sample.albumin] f "ALB").
  reflexivity.
Defined.

Section StableSort.
Context {A : Type}.
Variable comparefn : A -> A -> Z.
Variable key : A -> Z.
Hypothesis comparefn_key : forall x y, comparefn x y <= 0 <-> key x <= key y.

Lemma insert_first (x : A) (l : list A) :
  Forall (fun y => key x <= key y) l -> JsArray.insert comparefn x l = x :: l.
Proof.
  destruct l as [| y l]; [reflexivity |]. intros Hl.
  apply Forall_cons in Hl as [Hy _]. cbn.
  apply comparefn_key, Z.leb_le in Hy. now rewrite Hy.
Qed.

Lemma sort_fixes_sorted (l : list A) :
  StronglySorted (fun x y => key x <= key y) l -> JsArray.sort comparefn l = l.
Proof.
  induction 1 as [| x l Hl IH Hx]; cbn; [reflexivity |].
  rewrite IH. now apply insert_first.
Qed.

Lemma insert_same_key (k : Z) (x : A) (l : list A) :
  List.filter (fun y => key y =? k) (JsArray.insert comparefn x l)
  = List.filter (fun y => key y =? k) (x :: l).
Proof.
  induction l as [| y l IH]; [reflexivity |].
  cbn [JsArray.insert].
  destruct (Z.leb_spec (comparefn x y) 0) as [Hle | Hgt]; [reflexivity |].
  assert (Hxy : key y < key x).
  { destruct (Z.lt_ge_cases (key y) (key x)) as [Hc | Hc]; [exact Hc |].
    apply comparefn_key in Hc. lia. }
  cbn [List.filter] in *. rewrite IH.
  destruct (Z.eqb_spec (key x) k), (Z.eqb_spec (key y) k); try reflexivity. lia.
Qed.

Lemma sort_same_key (k : Z) (l : list A) :
  List.filter (fun y => key y =? k) (JsArray.sort comparefn l)
  = List.filter (fun y => key y =? k) l.
Proof.
  induction l as [| x l IH]; [reflexivity |].
  cbn [JsArray.sort]. rewrite insert_same_key. cbn [List.filter].
  now rewrite IH.
Qed.

Lemma insert_filter (p : A -> bool) (x : A) (l : list A) :
  StronglySorted (fun x y => key x <= key y) l ->
  List.filter p (JsArray.insert comparefn x l)
  = if p x then JsArray.insert comparefn x (List.filter p l) else List.filter p l.
Proof.
  induction 1 as [| y l Hl IH Hy].
  - cbn. destruct (p x); reflexivity.
  - cbn [JsArray.insert].
    destruct (Z.leb_spec (comparefn x y) 0) as [Hle | Hgt].
    + change (List.filter p (x :: y :: l))
        with (if p x then x :: List.filter p (y :: l) else List.filter p (y :: l)).
      destruct (p x) eqn:Hpx; [| reflexivity].
      symmetry. apply insert_first.
      apply comparefn_key in Hle.
      apply List.Forall_forall. intros z Hz.
      apply List.filter_In in Hz. destruct Hz as [[<- | Hz] _]; [exact Hle |].
      pose proof (proj1 (List.Forall_forall _ _) Hy z Hz) as Hyz.
      cbn in Hyz. lia.
    + cbn [List.filter]. rewrite IH.
      destruct (p x) eqn:Hpx, (p y) eqn:Hpy; try reflexivity.
      cbn [JsArray.insert].
      destruct (Z.leb_spec (comparefn x y) 0); [lia | reflexivity].
Qed.

Lemma sort_filter (p : A -> bool) (l : list A) :
  JsArray.sort comparefn (List.filter p l)
  = List.filter p (JsArray.sort comparefn l).
Proof.
  induction l as [| x l IH]; [reflexivity |].
  cbn [JsArray.sort List.filter].
  rewrite insert_filter by (apply (sort_sorted comparefn key comparefn_key)).
  destruct (p x); [cbn [JsArray.sort]; now rewrite IH | exact IH].
Qed.

End StableSort.

Lemma StronglySorted_weaken {A} (R R' : A -> A -> Prop) (l : list A) :
  (forall x y, R x y -> R' x y) -> StronglySorted R l -> StronglySorted R' l.
Proof.
  intros Himp. induction 1 as [| x l Hl IH Hx]; constructor; [exact IH |].
  eapply Forall_impl; [exact Hx | auto].
Qed.

Lemma expiryDate_is_date_field : SpecSort.is_date_field "expiryDate".
Proof. exists "expiry", "". reflexivity. Qed.

Section SortByDate.
Variable h : Host.
Variables f direction : string.
Hypothesis date_field : SpecSort.is_date_field f.

Let key (i : Item) : Z := InventoryService.date_key h (get_field f i).
Let rank (i : Item) : Z := SpecQuery.date_rank h f direction i.

Lemma dir_of_cases :
  (direction = "desc" /\ SpecQuery.dir_of direction = -1)
  \/ (direction <> "desc" /\ SpecQuery.dir_of direction = 1).
Proof.
  unfold SpecQuery.dir_of.
  destruct (String.eqb_spec direction "desc"); [left | right]; auto.
Qed.

Lemma sort_compare_rank (a b : Item) :
  InventoryService.sort_compare h f (SpecQuery.dir_of direction) a b <= 0
  <-> rank a <= rank b.
Proof.
  rewrite sort_compare_date by exact date_field.
  unfold rank, SpecQuery.date_rank. fold (key a) (key b).
  destruct dir_of_cases as [[_ ->] | [_ ->]];
    destruct (Z.compare_spec (key a) (key b)); cbn [SpecSort.three_way]; lia.
Qed.

Lemma sort_by_date_unfold (items : list Item) :
  InventoryService.sort h items f direction
  = JsArray.sort (InventoryService.sort_compare h f (SpecQuery.dir_of direction)) items.
Proof.
  unfold InventoryService.sort.
  destruct (is_date_field_nonempty f date_field) as [-> _]. reflexivity.
Qed.

Lemma sort_by_rank (items : list Item) :
  StronglySorted (fun a b => rank a <= rank b)
    (InventoryService.sort h items f direction).
Proof.
  rewrite sort_by_date_unfold.
  apply (sort_sorted _ rank sort_compare_rank).
Qed.

(** X9.  Sorting by a field whose name contains "date" orders the whole
    list by date key: every item has a key at most that of every item
    after it in the ascending direction, and at least that of every item
    after it in the direction ['desc']. *)
Theorem sort_by_date_ordered (items : list Item) :
  (direction <> "desc" ->
   StronglySorted (fun a b => key a <= key b)
     (InventoryService.sort h items f direction))
  /\ (direction = "desc" ->
      StronglySorted (fun a b => key b <= key a)
        (InventoryService.sort h items f direction)).
Proof.
  pose proof (sort_by_rank items) as Hs.
  split; intros Hd; eapply StronglySorted_weaken; try exact Hs;
    intros a b; unfold rank, SpecQuery.date_rank; fold (key a) (key b);
    destruct dir_of_cases as [[Hx ->] | [Hx ->]]; try contradiction; lia.
Qed.

(** X10.  Sorting by a date field is stable: the items that share a date
    key are, among themselves, in the order they had in the input. *)
Theorem sort_by_date_stable (items : list Item) (k : Z) :
  List.filter (fun i => key i =? k) (InventoryService.sort h items f direction)
  = List.filter (fun i => key i =? k) items.
Proof.
  rewrite sort_by_date_unfold.
  assert (Hext : forall l : list Item,
             List.filter (fun i => key i =? k) l
             = List.filter (fun i => rank i =? SpecQuery.dir_of direction * k) l).
  { intros l. apply filter_ext. intros i.
    unfold rank, SpecQuery.date_rank. fold (key i).
    destruct dir_of_cases as [[_ ->] | [_ ->]];
      destruct (Z.eqb_spec (key i) k); symmetry;
      [apply Z.eqb_eq | apply Z.eqb_neq | apply Z.eqb_eq | apply Z.eqb_neq]; lia. }
  rewrite !Hext. apply (sort_same_key _ rank sort_compare_rank).
Qed.

(** X11.  Sorting by a date field a list that is already sorted that way
    changes nothing: sorting twice is sorting once. *)
Theorem sort_by_date_idempotent (items : list Item) :
  InventoryService.sort h (InventoryService.sort h items f direction) f direction
  = InventoryService.sort h items f direction.
Proof.
  rewrite (sort_by_date_unfold (InventoryService.sort h items f direction)).
  apply (sort_fixes_sorted _ rank sort_compare_rank), sort_by_rank.
Qed.

(** X12.  For a date field the two steps of the view commute: filtering
    and then sorting gives the same list as sorting and then filtering. *)
Theorem filter_sort_commute (items : list Item) (flt : Filters.t) :
  InventoryService.sort h (InventoryService.filter h items flt) f direction
  = InventoryService.filter h (InventoryService.sort h items f direction) flt.
Proof.
  rewrite !sort_by_date_unfold. unfold InventoryService.filter.
  apply (sort_filter _ rank sort_compare_rank).
Qed.

End SortByDate.

(** Four items sorted by expiry date, latest first. *)
Lemma sort_by_date_ordered_witness :
  let h := IsoHost.utc_2025_06_15 in
  StronglySorted
    (fun a b => InventoryService.date_key h (get_field "expiryDate" b)
                <= InventoryService.date_key h (get_field "expiryDate" a))
    (InventoryService.sort h
       [Sample.glucose; Sample.albumin; Sample.calcium; Sample.urea]
       "expiryDate" "desc").
Proof.
  intros h.
  apply (proj2 (sort_by_date_ordered h "expiryDate" "desc" expiryDate_is_date_field
                  [Sample.glucose; Sample.albumin; Sample.calcium; Sample.urea])).
  reflexivity.
Defined.

(** Two items without expiry date keep their order. *)
Lemma sort_by_date_stable_witness :
  let h := IsoHost.utc_2025_06_15 in
  let other := Sample.reagent "Amylase" "" "Opened" 7 in
  List.filter (fun i => InventoryService.date_key h (get_field "expiryDate" i) =? 0)
    (InventoryService.sort h [Sample.calcium; Sample.glucose; other] "expiryDate" "asc")
  = [Sample.calcium; other].
Proof.
  intros h other.
  rewrite (sort_by_date_stable h "expiryDate" "asc" expiryDate_is_date_field
             [Sample.calcium; Sample.glucose; other] 0).
  reflexivity.
Defined.

Lemma sort_by_date_idempotent_witness :
  let h := IsoHost.utc_2025_06_15 in
  let l := [Sample.glucose; Sample.albumin; Sample.urea] in
  InventoryService.sort h (InventoryService.sort h l "expiryDate" "asc")
    "expiryDate" "asc"
  = [Sample.urea; Sample.glucose; Sample.albumin].
Proof.
  intros h l.
  rewrite (sort_by_date_idempotent h "expiryDate" "asc" expiryDate_is_date_field l).
  reflexivity.
Defined.

Lemma filter_sort_commute_witness :
  let h := IsoHost.utc_2025_06_15 in
  let l := [Sample.albumin; Sample.calcium; Sample.glucose] in
  let flt := SpecQuery.with_search "u" Filters.unset in
  InventoryService.sort h (InventoryService.filter h l flt) "expiryDate" "asc"
  = [Sample.calcium; Sample.glucose; Sample.albumin].
Proof.
  intros h l flt.
  rewrite (filter_sort_commute h "expiryDate" "asc" expiryDate_is_date_field l flt).
  reflexivity.
Defined.

Section SortWithin.
Context {A : Type}.
Variable comparefn : A -> A -> Z.
Variable dom : A -> Prop.
Variable le : A -> A -> Prop.
Hypothesis le_trans :
  forall x y z, dom x -> dom y -> dom z -> le x y -> le y z -> le x z.
Hypothesis comparefn_le : forall x y, dom x -> dom y -> comparefn x y <= 0 -> le x y.
Hypothesis comparefn_gt : forall x y, dom x -> dom y -> 0 < comparefn x y -> le y x.

Lemma insert_sorted_within (x : A) (l : list A) :
  dom x -> Forall dom l -> StronglySorted le l ->
  StronglySorted le (JsArray.insert comparefn x l).
Proof.
  intros Hx Hdom Hs. induction Hs as [| y l Hl IH Hy]; cbn.
  - repeat constructor.
  - apply Forall_cons in Hdom as [Hdy Hdl].
    destruct (Z.leb_spec (comparefn x y) 0) as [Hle | Hgt].
    + apply comparefn_le in Hle; [| assumption ..].
      constructor; [now constructor |].
      constructor; [exact Hle |].
      apply List.Forall_forall. intros z Hz.
      apply (le_trans x y z); auto.
      * apply (proj1 (List.Forall_forall _ _) Hdl z Hz).
      * apply (proj1 (List.Forall_forall _ _) Hy z Hz).
    + constructor; [now apply IH |].
      eapply Permutation_Forall; [symmetry; apply insert_perm |].
      constructor; [now apply comparefn_gt | exact Hy].
Qed.

Lemma sort_sorted_within (l : list A) :
  Forall dom l -> StronglySorted le (JsArray.sort comparefn l).
Proof.
  induction l as [| x l IH]; cbn; [constructor |].
  intros Hdom. apply Forall_cons in Hdom as [Hx Hl].
  apply insert_sorted_within; auto.
  eapply Permutation_Forall; [symmetry; apply sort_perm | exact Hl].
Qed.

End SortWithin.

Section SortByQuantity.
Variable h : Host.

Lemma compare_finite (p q : Q) (dir : Z) :
  SpecSort.compare_numbers (Finite p) (Finite q) dir
  = if Qeq_bool p q then 0 else if Qle_bool p q then - dir else dir.
Proof.
  unfold SpecSort.compare_numbers, num_eq, num_lt.
  destruct (Qeq_bool p q); [reflexivity |].
  destruct (Qle_bool p q); reflexivity.
Qed.

Lemma Qle_bool_false (p q : Q) : Qle_bool p q = false -> Qle q p.
Proof.
  intros Hf. destruct (Qlt_le_dec q p) as [Hlt | Hle]; [now apply Qlt_le_weak |].
  apply Qle_bool_iff in Hle. congruence.
Qed.

(** X13.  When the quantity of every item counts as a finite number,
    sorting by [quantity] orders the whole list by that number, upwards in
    the ascending direction and downwards in the direction ['desc']. *)
Theorem sort_by_quantity_ordered (items : list Item) (direction : string) :
  Forall (fun i => exists q, SpecQuery.finite_quantity i q) items ->
  (direction <> "desc" ->
   StronglySorted SpecQuery.quantity_le
     (InventoryService.sort h items "quantity" direction))
  /\ (direction = "desc" ->
      StronglySorted (fun a b => SpecQuery.quantity_le b a)
        (InventoryService.sort h items "quantity" direction)).
Proof.
  intros Hfin.
  assert (Htrans : forall x y z : Item,
             SpecQuery.quantity_le x y -> SpecQuery.quantity_le y z ->
             SpecQuery.quantity_le x z).
  { intros x y z (p & q & Hp & Hq & Hpq) (q' & r & Hq' & Hr & Hqr).
    exists p, r. repeat split; auto.
    unfold SpecQuery.finite_quantity in *. rewrite Hq in Hq'. injection Hq' as <-.
    eapply Qle_trans; eauto. }
  unfold InventoryService.sort. cbn [nonempty negb].
  split; intros Hd.
  - apply String.eqb_neq in Hd. rewrite Hd.
    apply (sort_sorted_within _ (fun i => exists q, SpecQuery.finite_quantity i q)
             SpecQuery.quantity_le); auto.
    + intros x y z _ _ _. apply Htrans.
    + intros x y [p Hp] [q Hq]. rewrite sort_compare_quantity.
      unfold SpecQuery.finite_quantity in *. rewrite Hp, Hq, compare_finite.
      intros Hc. exists p, q. repeat split; auto.
      destruct (Qeq_bool p q) eqn:He.
      * apply Qeq_bool_iff in He. rewrite He. apply Qle_refl.
      * destruct (Qle_bool p q) eqn:Hl; [now apply Qle_bool_iff | lia].
    + intros x y [p Hp] [q Hq]. rewrite sort_compare_quantity.
      unfold SpecQuery.finite_quantity in *. rewrite Hp, Hq, compare_finite.
      intros Hc. exists q, p. repeat split; auto.
      destruct (Qeq_bool p q) eqn:He; [lia |].
      destruct (Qle_bool p q) eqn:Hl; [lia | now apply Qle_bool_false].
  - subst direction. change (String.eqb "desc" "desc") with true. cbv iota.
    apply (sort_sorted_within _ (fun i => exists q, SpecQuery.finite_quantity i q)
             (fun a b => SpecQuery.quantity_le b a)); auto.
    + intros x y z _ _ _ Hxy Hyz. eapply Htrans; eauto.
    + intros x y [p Hp] [q Hq]. rewrite sort_compare_quantity.
      unfold SpecQuery.finite_quantity in *. rewrite Hp, Hq, compare_finite.
      intros Hc. exists q, p. repeat split; auto.
      destruct (Qeq_bool p q) eqn:He.
      * apply Qeq_bool_iff in He. rewrite He. apply Qle_refl.
      * destruct (Qle_bool p q) eqn:Hl; [lia | now apply Qle_bool_false].
    + intros x y [p Hp] [q Hq]. rewrite sort_compare_quantity.
      unfold SpecQuery.finite_quantity in *. rewrite Hp, Hq, compare_finite.
      intros Hc. exists p, q. repeat split; auto.
      destruct (Qeq_bool p q) eqn:He; [lia |].
      destruct (Qle_bool p q) eqn:Hl; [now apply Qle_bool_iff | lia].
Qed.

End SortByQuantity.

(** Quantities 0, 5, 3 and 2. *)
Lemma sort_by_quantity_ordered_witness :
  let h := IsoHost.utc_2025_06_15 in
  let l := [Sample.glucose; Sample.albumin; Sample.calcium; Sample.sgpt] in
  StronglySorted SpecQuery.quantity_le (InventoryService.sort h l "quantity" "asc").
Proof.
  intros h l.
  apply (proj1 (sort_by_quantity_ordered h l "asc"
                  ltac:(repeat constructor; eexists; reflexivity))).
  discriminate.
Defined.

Section AlertBounds.
Variable h : Host.

Lemma count_le_length (p : Item -> bool) (l : list Item) :
  (SpecAlerts.count p l <= length l)%nat.
Proof.
  unfold SpecAlerts.count.
  induction l as [| i l IH]; cbn; [lia |]. destruct (p i); cbn; lia.
Qed.

Lemma count_disjoint (p q : Item -> bool) (l : list Item) :
  (forall i, p i = true -> q i = false) ->
  (SpecAlerts.count p l + SpecAlerts.count q l <= length l)%nat.
Proof.
  intros Hpq. unfold SpecAlerts.count.
  induction l as [| i l IH]; cbn; [lia |].
  specialize (Hpq i). destruct (p i), (q i); cbn; lia.
Qed.

Lemma count_permutation (p : Item -> bool) (l l' : list Item) :
  Permutation l l' -> SpecAlerts.count p l = SpecAlerts.count p l'.
Proof.
  unfold SpecAlerts.count.
  induction 1 as [| x l l' Hp IH | x y l | l l' l'' H1 IH1 H2 IH2]; cbn.
  - reflexivity.
  - destruct (p x); cbn; lia.
  - destruct (p x), (p y); reflexivity.
  - lia.
Qed.

(** X14.  No item is counted both as expired and as expiring soon: the two
    counters together never exceed the number of items, and neither do the
    out-of-stock counter or the zero-quantity counter.  The counters do not
    depend on the order of the items, so they are the same for a list and
    for any sorting of it. *)
Theorem computeAlerts_bounds (items : list Item) :
  let alerts := InventoryService.computeAlerts h items in
  (InventoryService.expired alerts + InventoryService.expSoon alerts
   <= length items)%nat
  /\ (InventoryService.outOfStock alerts <= length items)%nat
  /\ (InventoryService.zeroQty alerts <= length items)%nat
  /\ (forall items', Permutation items items' ->
        InventoryService.computeAlerts h items'
        = InventoryService.computeAlerts h items)
  /\ (forall sortField direction,
        InventoryService.computeAlerts h
          (InventoryService.sort h items sortField direction)
        = InventoryService.computeAlerts h items).
Proof.
  assert (Hperm : forall l l', Permutation l l' ->
             InventoryService.computeAlerts h l' = InventoryService.computeAlerts h l).
  { intros l l' Hp. unfold InventoryService.computeAlerts. rewrite !fold_tally.
    cbn. now rewrite !(count_permutation _ l l' Hp). }
  cbv zeta. unfold InventoryService.computeAlerts at 1 2 3 4.
  rewrite fold_tally.
  cbn [InventoryService.expSoon InventoryService.expired
         InventoryService.outOfStock InventoryService.zeroQty Nat.add].
  split; [| split; [| split; [| split]]].
  - apply count_disjoint. intros i. unfold SpecAlerts.has_code.
    destruct (String.eqb_spec
                (DateUtils.code (DateUtils.classifyExpiry h (expiryDate i))) "expired")
      as [-> |]; [reflexivity | discriminate].
  - apply count_le_length.
  - apply count_le_length.
  - intros items' Hp. now apply Hperm.
  - intros sortField direction. apply Hperm.
    unfold InventoryService.sort.
    destruct (negb (nonempty sortField)); [reflexivity |].
    symmetry. apply sort_perm.
Qed.

End AlertBounds.

(* ===================================================================== *)
(** ** Further properties of the persistence gateway *)
(* ===================================================================== *)

Section Gateway.
Import InventoryRepository.
Context {S : Type} `{Supabase S}.
Implicit Types (w : World S).

Lemma load_outcome w (s : S) (o : outcome (option (list (option TableRow.t)))) :
  client w = true ->
  sb_select TABLE_NAME "expiry_date" true (backend w) = (s, o) ->
  load w
  = (SpecGateway.rows_of o,
     {| client := client w; backend := s;
        console := console w ++ option_list (SpecGateway.load_failure o) |}).
Proof.
  intros Hc Hsel. unfold load, getClient. rewrite Hc. cbn [negb]. rewrite Hsel.
  unfold SpecGateway.load_failure, SpecRepository.failure, with_backend, error.
  destruct o as [data [e |] | e]; cbn; rewrite ?app_nil_r, ?Hc; reflexivity.
Qed.

(** X15.  Without a configured client [load], [upsert] and [remove] return
    the empty collection, leave the backend as it is and write one line to
    the console; [upsert] and [remove] write it once, not a second time for
    a reload. *)
Theorem offline_gateway (item : Item) (v : value) w :
  client w = false ->
  let w' := {| client := false; backend := backend w;
               console := console w ++ [SpecGateway.no_client] |} in
  load w = ([], w') /\ upsert item w = ([], w') /\ remove v w = ([], w').
Proof.
  intros Hc. unfold load, upsert, remove, getClient, error. rewrite Hc.
  cbn. auto.
Qed.

(** X16.  With a client, [upsert] hands back what the reload gives,
    whatever became of the write: the mapped rows when the query succeeds,
    also after a failed write, and the empty collection when the query
    fails, also after a write that succeeded.  The console receives the
    line of the failed write, if any, then that of the failed query, if
    any; the backend is in the state the query left.  The same holds for
    [remove]. *)
Theorem write_then_reload (item : Item) (v : value) w :
  client w = true ->
  (forall s1 o1 s2 o2,
      sb_upsert TABLE_NAME (mapItemToRow item) (backend w) = (s1, o1) ->
      sb_select TABLE_NAME "expiry_date" true s1 = (s2, o2) ->
      upsert item w
      = (SpecGateway.rows_of o2,
         {| client := client w; backend := s2;
            console :=
              (console w
               ++ option_list
                    (SpecRepository.failure
                       "Failed to upsert inventory item in Supabase"
                       "Unexpected error upserting inventory item in Supabase" o1))
              ++ option_list (SpecGateway.load_failure o2) |}))
  /\ (forall s1 o1 s2 o2,
        sb_delete TABLE_NAME "id" v (backend w) = (s1, o1) ->
        sb_select TABLE_NAME "expiry_date" true s1 = (s2, o2) ->
        remove v w
        = (SpecGateway.rows_of o2,
           {| client := client w; backend := s2;
              console :=
                (console w
                 ++ option_list
                      (SpecRepository.failure
                         "Failed to delete inventory item in Supabase"
                         "Unexpected error deleting inventory item in Supabase" o1))
                ++ option_list (SpecGateway.load_failure o2) |})).
Proof.
  intros Hc. split; intros s1 o1 s2 o2 Hw Hsel.
  - unfold upsert, getClient. rewrite Hc. cbn [negb].
    pose proof (try_upsert_console item w) as Hcon.
    pose proof (try_upsert_backend item w) as [Hb Hcl].
    rewrite Hw in Hcon, Hb. cbn [fst snd] in Hcon, Hb.
    rewrite (load_outcome (try_upsert item w) s2 o2) by congruence.
    now rewrite Hcon, Hcl, Hc.
  - unfold remove, getClient. rewrite Hc. cbn [negb].
    pose proof (try_remove_console v w) as Hcon.
    pose proof (try_remove_backend v w) as [Hb Hcl].
    rewrite Hw in Hcon, Hb. cbn [fst snd] in Hcon, Hb.
    rewrite (load_outcome (try_remove v w) s2 o2) by congruence.
    now rewrite Hcon, Hcl, Hc.
Qed.

End Gateway.

Lemma offline_gateway_witness :
  fst (InventoryRepository.upsert Sample.glucose FakeBackend.offline) = []
  /\ InventoryRepository.console
       (snd (InventoryRepository.upsert Sample.glucose FakeBackend.offline))
     = [SpecGateway.no_client].
Proof.
  destruct (offline_gateway Sample.glucose Null FakeBackend.offline eq_refl)
    as (_ & Hu & _).
  cbv zeta in Hu. rewrite Hu. split; reflexivity.
Defined.

(** The write goes through and the reload is rejected: the caller gets the
    empty collection although the table now holds the row. *)
Lemma write_then_reload_witness :
  let w := FakeBackend.world [] [FakeBackend.Works; FakeBackend.Rejects "busy"] in
  let after := InventoryRepository.upsert Sample.glucose w in
  fst after = []
  /\ FakeBackend.table (InventoryRepository.backend (snd after))
     = [InventoryRepository.mapItemToRow Sample.glucose]
  /\ InventoryRepository.console (snd after)
     = [("Failed to load inventory from Supabase", Some "busy")].
Proof.
  intros w after. unfold after.
  erewrite (proj1 (write_then_reload Sample.glucose Null w eq_refl));
    [| vm_compute; reflexivity | vm_compute; reflexivity].
  repeat split.
Defined.

(* ===================================================================== *)
(** ** Properties of the controller *)
(* ===================================================================== *)

Lemma rev_string_app (acc s : string) :
  rev_string acc s = (rev_string "" s ++ acc)%string.
Proof.
  revert acc. induction s as [| c s IH]; intros acc; [reflexivity |].
  cbn [rev_string]. rewrite IH, (IH (String c "")), append_assoc. reflexivity.
Qed.

Lemma rev_string_append (a b : string) :
  rev_string "" (a ++ b) = (rev_string "" b ++ rev_string "" a)%string.
Proof.
  induction a as [| c a IH].
  - now rewrite append_nil, append_empty_r.
  - rewrite append_cons. cbn [rev_string].
    rewrite rev_string_app, IH, (rev_string_app (String c "") a), append_assoc.
    reflexivity.
Qed.

Lemma rev_string_involutive (s : string) : rev_string "" (rev_string "" s) = s.
Proof.
  induction s as [| c s IH]; [reflexivity |].
  cbn [rev_string].
  rewrite (rev_string_app (String c "") s), rev_string_append, IH. reflexivity.
Qed.

Lemma drop_ws_idempotent (s : string) : drop_ws (drop_ws s) = drop_ws s.
Proof.
  induction s as [| c s IH]; [reflexivity |].
  cbn [drop_ws]. destruct (is_ws c) eqn:Hc; [exact IH |].
  cbn [drop_ws]. now rewrite Hc.
Qed.

Lemma drop_ws_snoc (a : string) (c : ascii) :
  is_ws c = false ->
  drop_ws (a ++ String c "") = (drop_ws a ++ String c "")%string.
Proof.
  intros Hc. induction a as [| d a IH].
  - rewrite append_nil. cbn [drop_ws]. now rewrite Hc.
  - rewrite append_cons. cbn [drop_ws]. destruct (is_ws d); [exact IH |].
    now rewrite append_cons.
Qed.

(** A string is trimmed when white space neither starts nor ends it. *)
Lemma trim_fixes (t : string) :
  drop_ws t = t -> drop_ws (rev_string "" t) = rev_string "" t -> trim t = t.
Proof.
  intros Hl Hr. unfold trim. now rewrite Hl, Hr, rev_string_involutive.
Qed.

Lemma trim_trimmed (s : string) :
  drop_ws (trim s) = trim s
  /\ drop_ws (rev_string "" (trim s)) = rev_string "" (trim s).
Proof.
  unfold trim. split.
  - pose proof (drop_ws_idempotent s) as Hu.
    destruct (drop_ws s) as [| c u]; [reflexivity |].
    cbn [drop_ws] in Hu. destruct (is_ws c) eqn:Hc.
    + (* impossible: a dropped string does not start with white space *)
      exfalso. clear -Hu Hc.
      assert (Hlen : forall x, (String.length (drop_ws x) <= String.length x)%nat).
      { induction x as [| d x IHx]; cbn; [lia |]. destruct (is_ws d); cbn; lia. }
      specialize (Hlen u). rewrite Hu in Hlen. cbn in Hlen. lia.
    + cbn [rev_string].
      rewrite (rev_string_app (String c "") u), drop_ws_snoc by exact Hc.
      rewrite rev_string_append.
      change (rev_string "" (String c "")) with (String c "").
      rewrite append_cons, append_nil. cbn [drop_ws]. now rewrite Hc.
  - rewrite rev_string_involutive. apply drop_ws_idempotent.
Qed.

Lemma trim_idempotent (s : string) : trim (trim s) = trim s.
Proof. destruct (trim_trimmed s). now apply trim_fixes. Qed.

Lemma trim_space_after (t : string) : trim t = t -> trim (t ++ " ") = t.
Proof.
  intros Ht. destruct (trim_trimmed t) as [Hl Hr]. rewrite Ht in Hl, Hr.
  unfold trim.
  assert (Hd : drop_ws (t ++ " ") = (drop_ws t ++ " ")%string \/ t = "").
  { destruct t as [| c t]; [now right | left].
    rewrite append_cons. cbn [drop_ws] in Hl |- *.
    destruct (is_ws c) eqn:Hc; [| now rewrite append_cons].
    exfalso.
    assert (Hlen : forall x, (String.length (drop_ws x) <= String.length x)%nat).
    { induction x as [| d x IHx]; cbn; [lia |]. destruct (is_ws d); cbn; lia. }
    specialize (Hlen t). rewrite Hl in Hlen. cbn in Hlen. lia. }
  destruct Hd as [Hd | ->]; [| reflexivity].
  rewrite Hd, Hl, rev_string_append.
  change (rev_string "" " ") with " ".
  rewrite append_cons, append_nil. cbn [drop_ws].
  change (is_ws " ") with true. cbv iota.
  now rewrite Hr, rev_string_involutive.
Qed.

Lemma trim_space_before (t : string) : trim t = t -> trim (" " ++ t) = t.
Proof.
  intros Ht. unfold trim. rewrite append_cons, append_nil. cbn [drop_ws].
  change (is_ws " ") with true. cbv iota. exact Ht.
Qed.

Lemma handleFilters_trimmed (els : UI.Controls) (st : UI.state) :
  SpecUI.search_trimmed (UI.handleFilters els st).
Proof. apply trim_idempotent. Qed.

Lemma handleSortClick_direction (th : option string) (st : UI.state) :
  SpecUI.direction_ok st -> SpecUI.direction_ok (UI.handleSortClick th st).
Proof.
  unfold SpecUI.direction_ok, UI.handleSortClick. intros Hd.
  destruct th as [field |]; [| exact Hd].
  destruct (String.eqb (UI.sortField st) field); cbn; [| auto].
  destruct (String.eqb (UI.sortDirection st) "asc"); auto.
Qed.

Section Controls.

(** X17.  After [handleFilters] the search term is trimmed.  It is the
    trimmed text of the one search box that is filled in when the other is
    blank or missing, and it is unset when both are; items and sort
    settings are not touched. *)
Theorem handleFilters_search (els : UI.Controls) (st : UI.state) :
  let st' := UI.handleFilters els st in
  let search := Filters.search (UI.filters st') in
  trim search = search
  /\ (SpecUI.box_text (UI.topSearchInput els) = "" ->
      search = SpecUI.box_text (UI.searchInput els))
  /\ (SpecUI.box_text (UI.searchInput els) = "" ->
      search = SpecUI.box_text (UI.topSearchInput els))
  /\ UI.items st' = UI.items st
  /\ UI.sortField st' = UI.sortField st
  /\ UI.sortDirection st' = UI.sortDirection st.
Proof.
  cbv zeta. unfold UI.handleFilters.
  cbn [UI.filters UI.items UI.sortField UI.sortDirection Filters.search].
  fold (SpecUI.box_text (UI.searchInput els)).
  fold (SpecUI.box_text (UI.topSearchInput els)).
  assert (Hbox : forall b, trim (SpecUI.box_text b) = SpecUI.box_text b).
  { intros [v |]; [apply trim_idempotent | reflexivity]. }
  split; [apply trim_idempotent |].
  split; [| split; [| auto]].
  - intros ->. rewrite <- append_assoc, append_empty_r.
    apply trim_space_after, Hbox.
  - intros ->. rewrite append_nil. apply trim_space_before, Hbox.
Qed.

(** X18.  A click outside the sortable headers changes nothing.  A click
    on a header makes its field the sort field and leaves the direction
    ['asc'] or ['desc']: ['asc'] for a new field, the other direction for
    the current one, so that two clicks on the same header bring the state
    back.  Items and criteria are not touched. *)
Theorem handleSortClick_toggles (st : UI.state) (field : string) :
  UI.handleSortClick None st = st
  /\ (let st' := UI.handleSortClick (Some field) st in
      UI.sortField st' = field /\ SpecUI.direction_ok st'
      /\ UI.items st' = UI.items st /\ UI.filters st' = UI.filters st)
  /\ (UI.sortField st <> field ->
      UI.sortDirection (UI.handleSortClick (Some field) st) = "asc")
  /\ (UI.sortField st = field -> SpecUI.direction_ok st ->
      UI.sortDirection (UI.handleSortClick (Some field) st) <> UI.sortDirection st
      /\ UI.handleSortClick (Some field) (UI.handleSortClick (Some field) st) = st).
Proof.
  unfold SpecUI.direction_ok, UI.handleSortClick.
  split; [reflexivity |]. split; [| split].
  - cbv zeta. destruct (String.eqb_spec (UI.sortField st) field) as [He | Hne];
      cbn [UI.sortField UI.sortDirection UI.items UI.filters].
    + destruct (String.eqb (UI.sortDirection st) "asc"); auto.
    + auto.
  - intros Hne. apply String.eqb_neq in Hne. now rewrite Hne.
  - intros He Hd. apply String.eqb_eq in He. rewrite He.
    cbn [UI.sortField UI.sortDirection UI.items UI.filters]. rewrite He.
    destruct st as [its flt sf sd]. cbn in *.
    destruct Hd as [-> | ->]; cbn; split; try discriminate; reflexivity.
Qed.

End Controls.

Section Handlers.
Import InventoryRepository.
Context {S : Type} `{Supabase S}.
Variable h : Host.
Implicit Types (st : UI.state) (w : World S).

Lemma created_accepts (payload : Item) (q : number) :
  quantity payload = Num q ->
  InventoryService.validate (InventoryService.createItem h payload) = []
  <-> SpecUI.acceptable (category payload) (itemName payload)
        (expiryDate payload) q.
Proof.
  intros Hq. rewrite validate_empty_iff. unfold SpecUI.acceptable.
  cbn [InventoryService.createItem category itemName expiryDate quantity].
  rewrite Hq. cbn [coalesce is_nullish ToNumber SpecValidate.not_a_number].
  assert (He : truthy (or_else (expiryDate payload) (Str "")) = truthy (expiryDate payload)).
  { unfold or_else. destruct (truthy (expiryDate payload)) eqn:Hx; [exact Hx | reflexivity]. }
  rewrite He.
  assert (Hn : match q with NaN => true | _ => false end = is_NaN q)
    by (destruct q; reflexivity).
  rewrite Hn. tauto.
Qed.

Lemma length_zero_nil {A} (l : list A) : (length l =? 0)%nat = true <-> l = [].
Proof. destruct l; cbn; split; congruence. Qed.

(** X19.  [handleFormSubmit] accepts the form exactly when category, name
    and expiry date are filled in and the quantity field reads as a number
    that is not below zero; a blank quantity field reads as 0.  A form that
    is not accepted changes neither the state nor the world, the backend
    included, and all the messages of [validate] are shown.  A form that is
    accepted goes to [upsert] as an item with a generated identifier and
    empty remarks and opening date, and the items of the state become what
    [upsert] returns. *)
Theorem handleFormSubmit_outcome (formData : UI.FormData) st w :
  let item := InventoryService.createItem h (UI.form_payload formData) in
  (InventoryService.validate item = []
   <-> SpecUI.acceptable (UI.fd_category formData) (UI.fd_itemName formData)
         (UI.fd_expiryDate formData) (ToNumber (UI.fd_quantity formData)))
  /\ (InventoryService.validate item <> [] ->
      UI.handleFormSubmit h formData st w
      = {| UI.shown := Some (UI.issues (InventoryService.validate item));
           UI.after := st; UI.world := w |})
  /\ (InventoryService.validate item = [] ->
      UI.handleFormSubmit h formData st w
      = {| UI.shown := None;
           UI.after := UI.with_items (fst (upsert item w)) st;
           UI.world := snd (upsert item w) |})
  /\ (UI.fd_quantity formData = Str "" \/ UI.fd_quantity formData = Null ->
      quantity item = Num (num_of_Z 0))
  /\ id item = SpecUI.fresh_id h
  /\ remarks item = Str "" /\ dateOpened item = Str "".
Proof.
  cbv zeta. split; [apply created_accepts; reflexivity |].
  unfold UI.handleFormSubmit.
  split; [| split; [| split; [| repeat split]]].
  - intros Hne. destruct (length _ =? 0)%nat eqn:Hl; [| reflexivity].
    apply length_zero_nil in Hl. contradiction.
  - intros He. rewrite He. cbn [length Nat.eqb negb].
    now destruct (upsert _ w).
  - intros [Hq | Hq]; cbn [InventoryService.createItem UI.form_payload quantity];
      rewrite Hq; reflexivity.
Qed.

(** X20.  [handleEditSubmit] keeps the identifier of the edit form when it
    is not empty, so that the upsert replaces that row, and generates a
    new one when it is empty.  The item it sends always has empty remarks
    and opening date: the row written for it holds [null] in both columns,
    whatever the row held before.  The form is accepted exactly when
    category, name and expiry date are not empty and the quantity reads as
    a number that is not below zero; otherwise state and world stay as they
    are. *)
Theorem handleEditSubmit_outcome (form : UI.EditForm) st w :
  let item := InventoryService.createItem h (UI.edit_payload form) in
  (UI.editId form <> "" -> id item = Str (UI.editId form))
  /\ (UI.editId form = "" -> id item = SpecUI.fresh_id h)
  /\ TableRow.remarks (mapItemToRow item) = Null
  /\ TableRow.date_opened (mapItemToRow item) = Null
  /\ (InventoryService.validate item = []
      <-> SpecUI.acceptable (Str (UI.editCategory form)) (Str (UI.editItemName form))
            (Str (UI.editExpiryDate form)) (StringToNumber (UI.editQuantity form)))
  /\ (InventoryService.validate item <> [] ->
      UI.handleEditSubmit h form st w
      = {| UI.shown := Some (UI.issues (InventoryService.validate item));
           UI.after := st; UI.world := w |})
  /\ (InventoryService.validate item = [] ->
      UI.handleEditSubmit h form st w
      = {| UI.shown := None;
           UI.after := UI.with_items (fst (upsert item w)) st;
           UI.world := snd (upsert item w) |}).
Proof.
  cbv zeta. unfold UI.handleEditSubmit.
  split; [| split; [| split; [| split; [| split; [| split]]]]].
  - intros Hid. cbn [InventoryService.createItem UI.edit_payload id].
    now apply or_else_nonempty.
  - intros He. cbn [InventoryService.createItem UI.edit_payload id].
    rewrite He. reflexivity.
  - reflexivity.
  - reflexivity.
  - rewrite (created_accepts _ (StringToNumber (UI.editQuantity form)))
      by reflexivity.
    cbn [UI.edit_payload category itemName expiryDate]. unfold SpecUI.acceptable.
    assert (Hc : truthy (or_else (Str (UI.editCategory form)) (Str ""))
                 = truthy (Str (UI.editCategory form))).
    { unfold or_else. destruct (truthy (Str (UI.editCategory form))) eqn:Hx;
        [exact Hx | reflexivity]. }
    rewrite Hc. tauto.
  - intros Hne. destruct (length _ =? 0)%nat eqn:Hl; [| reflexivity].
    apply length_zero_nil in Hl. contradiction.
  - intros He. rewrite He. cbn [length Nat.eqb negb].
    now destruct (upsert _ w).
Qed.

Lemma find_by_id_first (id_ : string) (l : list (option Item)) (i : Item) :
  UI.find_by_id id_ l = UI.Normal (Some i) ->
  exists before after,
    l = map Some before ++ Some i :: after
    /\ id i = Str id_
    /\ Forall (fun j => id j <> Str id_) before.
Proof.
  induction l as [| [j |] l IH]; cbn [UI.find_by_id]; try discriminate.
  destruct (strict_eq (id j) (Str id_)) eqn:Hj.
  - intros [= ->]. exists [], l. apply strict_eq_Str in Hj. auto.
  - intros Hf. destruct (IH Hf) as (before & after & -> & Hid & Hall).
    exists (j :: before), after. repeat split; auto.
    constructor; [| exact Hall]. intros Heq.
    apply strict_eq_Str in Heq. congruence.
Qed.

(** X21.  [handleDelete] asks before it deletes.  When the answer is no,
    state and world stay as they are and the backend is not called; when
    it is yes, the items of the state become what [remove] returns, and
    criteria and sort settings stay.  When the identifier is found, it is
    found on the first item that has it, and every item before that one
    is an object with another identifier. *)
Theorem handleDelete_outcome (id_ : string) st w (found : option Item) :
  UI.find_by_id id_ (UI.items st) = UI.Normal found ->
  (exists prompt,
      UI.handleDelete h id_ false st w
      = UI.Normal {| UI.shown := Some prompt; UI.after := st; UI.world := w |}
      /\ UI.handleDelete h id_ true st w
         = UI.Normal {| UI.shown := Some prompt;
                        UI.after := UI.with_items (fst (remove (Str id_) w)) st;
                        UI.world := snd (remove (Str id_) w) |})
  /\ (forall i, found = Some i ->
        exists before after,
          UI.items st = map Some before ++ Some i :: after
          /\ id i = Str id_
          /\ Forall (fun j => id j <> Str id_) before).
Proof.
  intros Hf. split.
  - unfold UI.handleDelete. rewrite Hf. cbn [negb].
    eexists. split; [reflexivity |]. now destruct (remove _ w).
  - intros i ->. now apply find_by_id_first.
Qed.

Lemma handlers_keep_settings (e : SpecUI.event) st w st' w' :
  SpecUI.handle h e st w = UI.Normal (st', w') ->
  (SpecUI.direction_ok st -> SpecUI.direction_ok st')
  /\ (SpecUI.search_trimmed st -> SpecUI.search_trimmed st').
Proof.
  unfold SpecUI.direction_ok, SpecUI.search_trimmed.
  destruct e as [els | th | formData | form | id_ confirmed]; cbn [SpecUI.handle].
  - intros [= <- <-]. split; [auto |]. intros _.
    apply handleFilters_trimmed.
  - intros [= <- <-]. split; [apply handleSortClick_direction |].
    unfold UI.handleSortClick. destruct th as [field |]; [| auto].
    destruct (String.eqb (UI.sortField st) field); auto.
  - intros [= <- <-]. unfold UI.handleFormSubmit.
    destruct (negb _); [auto |]. destruct (upsert _ w). auto.
  - intros [= <- <-]. unfold UI.handleEditSubmit.
    destruct (negb _); [auto |]. destruct (upsert _ w). auto.
  - unfold UI.handleDelete. destruct (UI.find_by_id id_ (UI.items st)); [| discriminate].
    destruct (negb confirmed); [intros [= <- <-]; auto |].
    destruct (remove _ w). intros [= <- <-]. auto.
Qed.

End Handlers.

Section Sessions.
Import InventoryRepository.
Context {S : Type} `{Supabase S}.
Variable h : Host.

Lemma run_keeps_settings (events : list SpecUI.event) (st : UI.state) (w : World S) :
  SpecUI.direction_ok st /\ SpecUI.search_trimmed st ->
  SpecUI.direction_ok (fst (SpecUI.run h events st w))
  /\ SpecUI.search_trimmed (fst (SpecUI.run h events st w)).
Proof.
  revert st w. induction events as [| e events IH]; intros st w Hinv; [exact Hinv |].
  cbn [SpecUI.run].
  destruct (SpecUI.handle h e st w) as [[st' w'] |] eqn:He; [| now apply IH].
  apply IH. destruct Hinv as [Hd Ht].
  destruct (handlers_keep_settings h e st w st' w' He) as [Hd' Ht']. auto.
Qed.

(** X22.  Whatever the user does after the page has loaded (changing the
    filter controls, clicking headers, submitting the add or the edit
    form, deleting), the sort direction of the state is ['asc'] or
    ['desc'] and its search term is trimmed. *)
Theorem settings_invariant (events : list SpecUI.event) (w : World S) :
  let start := UI.init UI.initial w in
  let final := SpecUI.run h events (fst start) (snd start) in
  SpecUI.direction_ok (fst final) /\ SpecUI.search_trimmed (fst final).
Proof.
  cbv zeta. apply run_keeps_settings.
  unfold UI.init, initializeWithSampleDataIfEmpty.
  destruct (load w) as [loaded w']. cbn. split; [now left | reflexivity].
Qed.

End Sessions.

(** Deleting the second of two items, first declined, then confirmed. *)
Lemma handleDelete_outcome_witness :
  let h := IsoHost.utc_2025_06_15 in
  let st := UI.with_items [Some Sample.glucose; Some Sample.albumin] UI.initial in
  let w := FakeBackend.world
             [InventoryRepository.mapItemToRow Sample.glucose;
              InventoryRepository.mapItemToRow Sample.albumin] [] in
  exists prompt,
    UI.handleDelete h "itm-Albumin" false st w
    = UI.Normal {| UI.shown := Some prompt; UI.after := st; UI.world := w |}
    /\ UI.handleDelete h "itm-Albumin" true st w
       = UI.Normal
           {| UI.shown := Some prompt;
              UI.after :=
                UI.with_items
                  (fst (InventoryRepository.remove (Str "itm-Albumin") w)) st;
              UI.world := snd (InventoryRepository.remove (Str "itm-Albumin") w) |}.
Proof.
  intros h st w.
  exact (proj1 (handleDelete_outcome h "itm-Albumin" st w (Some Sample.albumin)
                  eq_refl)).
Defined.

(* ===================================================================== *)
(** ** Properties of the export *)
(* ===================================================================== *)

Section CsvReader.
Import SpecCsv.

Lemma is_quote_true (c : ascii) : UI.is_quote c = true -> c = "034"%char.
Proof. unfold UI.is_quote. apply Ascii.eqb_eq. Qed.

Lemma read_escaped (s rest cell : string) (row : list string) (rows : list (list string)) :
  read (UI.replace_all UI.is_quote (UI.quote ++ UI.quote) s ++ rest) Inside cell row rows
  = read rest Inside (cell ++ s) row rows.
Proof.
  revert cell. induction s as [| c s IH]; intros cell.
  - now rewrite append_nil, append_empty_r.
  - cbn [UI.replace_all]. destruct (UI.is_quote c) eqn:Hc.
    + apply is_quote_true in Hc as Hq. subst c.
      rewrite (append_assoc (UI.quote ++ UI.quote)).
      change (UI.quote ++ UI.quote)%string with (String "034" (String "034" "")).
      repeat (rewrite append_cons || rewrite append_nil).
      cbn [read]. rewrite Hc.
      etransitivity; [apply IH |]. unfold snoc. now rewrite append_assoc.
    + rewrite append_cons. cbn [read]. rewrite Hc.
      rewrite IH. unfold snoc. now rewrite append_assoc.
Qed.

Lemma read_quoted (s rest cell : string) (row : list string) (rows : list (list string)) :
  read (quoted_text s ++ rest) Start cell row rows = read rest AfterQuote s row rows.
Proof.
  unfold quoted_text. rewrite !append_assoc.
  change UI.quote with (String "034" "").
  repeat (rewrite append_cons || rewrite append_nil).
  cbn [read]. change (UI.is_quote "034") with true. cbv iota.
  change (String "034" (String "034" "")) with (UI.quote ++ UI.quote)%string.
  rewrite read_escaped, append_nil.
  cbn [read]. change (UI.is_quote "034") with true. reflexivity.
Qed.

Lemma read_line (cells : list string) (rest cell : string) (row : list string)
    (rows : list (list string)) :
  cells <> [] ->
  read (line cells ++ rest) Start cell row rows
  = read rest AfterQuote (List.last cells "") (row ++ removelast cells) rows.
Proof.
  revert cell row. induction cells as [| p more IH]; intros cell row Hne;
    [contradiction |].
  destruct more as [| q more].
  - unfold line. cbn [map join List.last removelast].
    now rewrite read_quoted, app_nil_r.
  - unfold line in *. cbn [map join] in *.
    rewrite !append_assoc, read_quoted.
    repeat (rewrite append_cons || rewrite append_nil).
    cbn [read]. change (UI.is_quote ",") with false.
    change (Ascii.eqb "," ",") with true. cbv iota.
    rewrite IH by discriminate.
    change (List.last (p :: q :: more) "") with (List.last (q :: more) "").
    change (removelast (p :: q :: more)) with (p :: removelast (q :: more)).
    now rewrite <- app_assoc.
Qed.

Lemma read_lines (table : list (list string)) (rows : list (list string)) :
  table <> [] -> Forall (fun r => r <> []) table ->
  read (join UI.crlf (map line table)) Start "" [] rows = Some (rows ++ table).
Proof.
  revert rows. induction table as [| r more IH]; intros rows Hne Hall;
    [contradiction |].
  apply Forall_cons in Hall as [Hr Hmore].
  destruct more as [| r' more].
  - cbn [map join]. rewrite <- (append_empty_r (line r)), read_line by exact Hr.
    cbn [read app]. now rewrite <- app_removelast_last.
  - cbn [map join] in *. rewrite read_line by exact Hr.
    change UI.crlf with (String "013" (String "010" "")).
    repeat (rewrite append_cons || rewrite append_nil). cbn [read].
    change (UI.is_quote "013") with false.
    change (Ascii.eqb "013" ",") with false.
    change (Ascii.eqb "013" "013") with true. cbv iota. cbn [read].
    change (Ascii.eqb "010" "010") with true. cbv iota.
    cbn [app]. rewrite <- app_removelast_last by exact Hr.
    rewrite IH by (auto; discriminate).
    now rewrite <- app_assoc.
Qed.

Lemma csv_line_strings (row : list string) :
  UI.csv_line (map Str row) = UI.Normal (line row).
Proof.
  unfold UI.csv_line, line.
  assert (Hm : UI.map_completion UI.quoted (map Str row)
               = UI.Normal (map quoted_text row)).
  { induction row as [| s row IH]; [reflexivity |].
    cbn [map UI.map_completion UI.quoted]. now rewrite IH. }
  now rewrite Hm.
Qed.

Lemma csv_lines_strings (table : list (list string)) :
  UI.map_completion UI.csv_line (map (map Str) table)
  = UI.Normal (map line table).
Proof.
  induction table as [| r table IH]; [reflexivity |].
  cbn [map UI.map_completion]. now rewrite csv_line_strings, IH.
Qed.

(** X23.  The export format loses nothing: for a table of strings that has
    at least one line and no empty line, the text made of the quoted
    cells, joined by commas within a line and by carriage return and line
    feed between lines, is read back by a reader of quoted
    comma-separated text as exactly that table, whatever commas, quotes
    and line breaks the cells contain. *)
Theorem csv_reads_back (table : list (list string)) :
  table <> [] -> Forall (fun r => r <> []) table ->
  exists lines,
    UI.map_completion UI.csv_line (map (map Str) table) = UI.Normal lines
    /\ decode (join UI.crlf lines) = Some table.
Proof.
  intros Hne Hall. exists (map line table).
  split; [apply csv_lines_strings |].
  unfold decode. now rewrite read_lines.
Qed.

End CsvReader.

(** Cells with a comma, a quote and a line break. *)
Lemma csv_reads_back_witness :
  let table := [["a,b"; (UI.quote ++ "c" ++ UI.quote)%string];
                [("d" ++ UI.crlf ++ "e")%string; ""]] in
  exists lines,
    UI.map_completion UI.csv_line (map (map Str) table) = UI.Normal lines
    /\ SpecCsv.decode (join UI.crlf lines) = Some table.
Proof.
  intros table. apply (csv_reads_back table).
  - discriminate.
  - repeat constructor; discriminate.
Defined.

Section ExportFile.
Import SpecCsv.
Variable h : Host.
Variable cal : Calendar.

Lemma or_else_blank_or_text (v : value) :
  blank_or_text v -> or_else v (Str "") = Str (text v).
Proof.
  unfold or_else. intros [[s ->] | Hv].
  - destruct s; reflexivity.
  - rewrite Hv. destruct v as [| | b | n | s]; try reflexivity.
    destruct s; [reflexivity | discriminate].
Qed.

Lemma export_row_exportable (i : Item) :
  exportable i -> UI.export_row h cal i = UI.Normal (map Str (cells h cal i)).
Proof.
  intros ([c Hc] & [n Hn] & [s Hs] & Hb & Hv & Hl & Hr).
  unfold UI.export_row, cells.
  rewrite !or_else_blank_or_text by assumption.
  rewrite Hc, Hn, Hs. reflexivity.
Qed.

Lemma map_completion_normal {A B} (f : A -> UI.completion B) (g : A -> B) (l : list A) :
  Forall (fun x => f x = UI.Normal (g x)) l ->
  UI.map_completion f l = UI.Normal (map g l).
Proof.
  induction 1 as [| x l Hx Hl IH]; [reflexivity |].
  cbn [UI.map_completion map]. now rewrite Hx, IH.
Qed.

Lemma map_completion_raises {A B} (f : A -> UI.completion B) (l : list A) (x : A) :
  In x l -> f x = UI.TypeError -> UI.map_completion f l = UI.TypeError.
Proof.
  induction l as [| y l IH]; [contradiction |].
  intros [-> | Hin] Hx; cbn [UI.map_completion].
  - now rewrite Hx.
  - destruct (f y); [| reflexivity]. now rewrite IH.
Qed.

Lemma map_completion_in {A B} (f : A -> UI.completion B) (l : list A) (ys : list B)
    (x : A) :
  UI.map_completion f l = UI.Normal ys -> In x l ->
  exists y, f x = UI.Normal y /\ In y ys.
Proof.
  revert ys. induction l as [| z l IH]; intros ys Hm Hin; [contradiction |].
  cbn [UI.map_completion] in Hm.
  destruct (f z) as [y |] eqn:Hz; [| discriminate].
  destruct (UI.map_completion f l) as [ys' |]; [| discriminate].
  injection Hm as <-. destruct Hin as [-> | Hin].
  - exists y. split; [exact Hz | now left].
  - destruct (IH ys' eq_refl Hin) as (y' & Hy & Hin'). exists y'. split; [exact Hy | now right].
Qed.

Lemma export_text (st : UI.state) (sorted : list Item) :
  UI.view h st = UI.Normal sorted -> sorted <> [] -> Forall exportable sorted ->
  UI.exportCsv h cal st
  = UI.Download ("north-med-reagent-inventory-" ++ UI.timestamp h cal ++ ".csv")
      (join UI.crlf (map line (UI.header :: map (cells h cal) sorted))).
Proof.
  intros Hv Hne Hall. unfold UI.exportCsv. rewrite Hv.
  destruct sorted as [| i sorted]; [contradiction |].
  cbn [length Nat.eqb].
  rewrite (map_completion_normal _ (fun i => map Str (cells h cal i)))
    by (eapply Forall_impl; [exact Hall | apply export_row_exportable]).
  pose proof (csv_lines_strings (UI.header :: map (cells h cal) (i :: sorted))) as Hl.
  cbn [map] in Hl |- *. rewrite map_map in Hl. rewrite Hl. reflexivity.
Qed.

(** X24.  When the view is not empty and every item of it can be exported
    (category, name and status are strings; brand, content volume, lot
    number and remarks are strings or blank), [exportCsv] offers a file
    named after the time of the export whose text reads back as the header
    line followed by one line of twelve cells for each item of the view, in
    the order of the view. *)
Theorem exportCsv_reads_back (st : UI.state) (sorted : list Item) :
  UI.view h st = UI.Normal sorted -> sorted <> [] -> Forall exportable sorted ->
  exists content,
    UI.exportCsv h cal st
    = UI.Download ("north-med-reagent-inventory-" ++ UI.timestamp h cal ++ ".csv")
        content
    /\ decode content = Some (UI.header :: map (cells h cal) sorted)
    /\ Forall (fun row => length row = 12%nat)
         (UI.header :: map (cells h cal) sorted).
Proof.
  intros Hv Hne Hall. eexists. split; [now apply (export_text st sorted) |]. split.
  - unfold decode. rewrite read_lines; [reflexivity | discriminate |].
    constructor; [discriminate |].
    apply Forall_map, Forall_forall. intros i _. discriminate.
  - constructor; [reflexivity |].
    apply Forall_map, Forall_forall. intros i _. reflexivity.
Qed.

Lemma quoted_not_text (v : value) : ~ is_text v -> UI.quoted v = UI.TypeError.
Proof.
  intros Hv. destruct v as [| | b | n | s]; try reflexivity.
  exfalso. apply Hv. now exists s.
Qed.

Lemma or_else_set_not_text (v : value) :
  set_not_text v -> or_else v (Str "") = v /\ ~ is_text v.
Proof. intros [Ht Hn]. unfold or_else. now rewrite Ht. Qed.

Lemma csv_line_raises (row : list value) (v : value) :
  In v row -> ~ is_text v -> UI.csv_line row = UI.TypeError.
Proof.
  intros Hin Hv. unfold UI.csv_line.
  now rewrite (map_completion_raises UI.quoted row v Hin (quoted_not_text v Hv)).
Qed.

Lemma export_row_unexportable (i : Item) (row : list value) :
  unexportable i -> UI.export_row h cal i = UI.Normal row ->
  UI.csv_line row = UI.TypeError.
Proof.
  unfold UI.export_row. intros Hun.
  destruct (or_else (remarks i) (Str "")) as [| | b | n | r] eqn:Hr; try discriminate.
  intros [= <-].
  destruct Hun as [Hx | [Hx | [Hx | [Hx | [Hx | [Hx | Hx]]]]]].
  - apply (csv_line_raises _ (category i)); [cbn; auto | exact Hx].
  - apply (csv_line_raises _ (itemName i)); [cbn; auto | exact Hx].
  - apply (csv_line_raises _ (status i)); [cbn; auto 12 | exact Hx].
  - apply or_else_set_not_text in Hx as [He Hx].
    apply (csv_line_raises _ (brand i)); [rewrite He; cbn; auto | exact Hx].
  - apply or_else_set_not_text in Hx as [He Hx].
    apply (csv_line_raises _ (contentVolume i)); [rewrite He; cbn; auto | exact Hx].
  - apply or_else_set_not_text in Hx as [He Hx].
    apply (csv_line_raises _ (lotNumber i)); [rewrite He; cbn; auto 8 | exact Hx].
  - apply or_else_set_not_text in Hx as [He Hx].
    rewrite He in Hr. exfalso. apply Hx. now exists r.
Qed.

(** X25.  [exportCsv] produces no file when there is nothing to export or
    something it cannot write: for an empty view it shows a notice; when
    the view cannot be computed, or some item of the view has a category,
    name or status that is not a string, or a brand, content volume, lot
    number or remarks that is set and is not a string, it raises. *)
Theorem exportCsv_refuses (st : UI.state) :
  (UI.view h st = UI.Normal [] ->
   UI.exportCsv h cal st
   = UI.Notice "No inventory data to export for the current view.")
  /\ (UI.view h st = UI.TypeError -> UI.exportCsv h cal st = UI.Raised)
  /\ (forall sorted i,
        UI.view h st = UI.Normal sorted -> In i sorted -> unexportable i ->
        UI.exportCsv h cal st = UI.Raised).
Proof.
  unfold UI.exportCsv. split; [| split].
  - now intros ->.
  - now intros ->.
  - intros sorted i -> Hin Hun.
    destruct sorted as [| j sorted]; [contradiction |].
    cbn [length Nat.eqb].
    destruct (UI.map_completion (UI.export_row h cal) (j :: sorted)) as [rows |] eqn:Hrows;
      [| reflexivity].
    destruct (map_completion_in _ _ _ i Hrows Hin) as (row & Hrow & Hinrow).
    rewrite (map_completion_raises UI.csv_line _ row);
      [reflexivity | now right | now apply (export_row_unexportable i)].
Qed.

End ExportFile.

(** Two items viewed by expiry date. *)
Lemma exportCsv_reads_back_witness :
  let h := IsoHost.utc_2025_06_15 in
  let st := UI.with_items [Some Sample.albumin; Some Sample.glucose] UI.initial in
  exists content,
    UI.exportCsv h IsoCalendar.utc st
    = UI.Download "north-med-reagent-inventory-2025-06-15-12-00-00.csv" content
    /\ SpecCsv.decode content
       = Some (UI.header
               :: map (SpecCsv.cells h IsoCalendar.utc) [Sample.glucose; Sample.albumin]).
Proof.
  intros h st.
  destruct (exportCsv_reads_back h IsoCalendar.utc st [Sample.glucose; Sample.albumin])
    as (content & Hc & Hd & _).
  - reflexivity.
  - discriminate.
  - repeat constructor; try (eexists; reflexivity); left; eexists; reflexivity.
  - exists content. split; [exact Hc | exact Hd].
Defined.

(* ===================================================================== *)
(** ** Properties of the alert summary *)
(* ===================================================================== *)

Lemma all_clear_not_danger (text : string) :
  UI.span_pill "danger" text <> SpecPills.all_clear.
Proof.
  unfold SpecPills.all_clear, UI.span_pill, UI.quote.
  repeat (rewrite append_cons || rewrite append_nil). discriminate.
Qed.

Lemma all_clear_not_warning (text : string) :
  UI.span_pill "warning" text <> SpecPills.all_clear.
Proof.
  unfold SpecPills.all_clear, UI.span_pill, UI.quote.
  repeat (rewrite append_cons || rewrite append_nil). discriminate.
Qed.

(** X26.  The alert summary always shows something: between one and three
    pills.  It shows the pill "No critical alerts", and nothing else,
    exactly when no counter is above zero. *)
Theorem pills_summary (alerts : InventoryService.Alerts) :
  (1 <= length (UI.pills alerts) <= 3)%nat
  /\ (SpecPills.quiet alerts <-> UI.pills alerts = [SpecPills.all_clear])
  /\ (In SpecPills.all_clear (UI.pills alerts) -> SpecPills.quiet alerts).
Proof.
  unfold SpecPills.quiet, UI.pills.
  destruct alerts as [soon expired out zero].
  cbn [InventoryService.expired InventoryService.expSoon
         InventoryService.outOfStock InventoryService.zeroQty].
  destruct expired as [| expired], soon as [| soon], out as [| out], zero as [| zero];
    cbn [Nat.ltb Nat.leb orb app length Nat.eqb];
    (split; [lia |]);
    (split; [split; [intros (H1 & H2 & H3 & H4); try discriminate; reflexivity
                    | intros Heq; try (repeat split; reflexivity);
                      exfalso; injection Heq as Heq;
                      first [ now apply all_clear_not_danger in Heq
                            | now apply all_clear_not_warning in Heq
                            | discriminate ] ]
            | intros Hin; try (repeat split; reflexivity); exfalso;
              repeat (destruct Hin as [Hin | Hin];
                      [first [ now apply all_clear_not_danger in Hin
                             | now apply all_clear_not_warning in Hin ] |]);
              exact Hin ]).
Qed.

Section Totals.
Variable h : Host.

Lemma objects_length (l : list (option Item)) (is_ : list Item) :
  UI.objects l = UI.Normal is_ -> length l = length is_ /\ l = map Some is_.
Proof.
  revert is_. induction l as [| [i |] l IH]; intros is_; cbn [UI.objects].
  - intros [= <-]. auto.
  - destruct (UI.objects l) as [rest |]; [| discriminate].
    intros [= <-]. destruct (IH rest eq_refl) as [Hlen ->]. cbn.
    rewrite length_map. auto.
  - discriminate.
Qed.

Lemma count_or_and (p q : Item -> bool) (l : list Item) :
  (SpecAlerts.count p l + SpecAlerts.count q l
   = SpecAlerts.count (fun i => p i || q i) l
     + SpecAlerts.count (fun i => p i && q i) l)%nat.
Proof.
  unfold SpecAlerts.count. induction l as [| i l IH]; [reflexivity |].
  cbn [List.filter]. destruct (p i), (q i); cbn; lia.
Qed.

(** X27.  The figures shown next to the summary, for a state whose items
    are all objects: the total is the number of items, and the
    out-of-stock figure is the number of items that are out of stock or
    have the quantity 0, plus the number of items that are both; an item
    that is out of stock with the quantity 0 is counted twice. *)
Theorem renderAlerts_figures (st : UI.state) (is_ : list Item) :
  UI.objects (UI.items st) = UI.Normal is_ ->
  exists shown,
    UI.renderAlerts h st = UI.Normal shown
    /\ UI.kpiTotal shown = UI.string_of_nat (length is_)
    /\ UI.kpiExpSoon shown
       = UI.string_of_nat (SpecAlerts.count (SpecAlerts.has_code h "warning") is_)
    /\ UI.kpiOutOrZero shown
       = UI.string_of_nat
           (SpecAlerts.count SpecPills.out_or_zero is_
            + SpecAlerts.count SpecPills.out_and_zero is_).
Proof.
  intros Hobj. unfold UI.renderAlerts. rewrite Hobj.
  eexists. split; [reflexivity |].
  cbn [UI.kpiTotal UI.kpiExpSoon UI.kpiOutOrZero].
  unfold InventoryService.computeAlerts. rewrite fold_tally.
  cbn [InventoryService.expSoon InventoryService.outOfStock
         InventoryService.zeroQty Nat.add].
  rewrite (proj1 (objects_length _ _ Hobj)), count_or_and. auto.
Qed.

End Totals.

(** One item that is out of stock with the quantity 0. *)
Lemma renderAlerts_figures_witness :
  let h := IsoHost.utc_2025_06_15 in
  let gone := Sample.reagent "Urea" "2026-01-01" "Out of Stock" 0 in
  exists shown,
    UI.renderAlerts h (UI.with_items [Some gone] UI.initial) = UI.Normal shown
    /\ UI.kpiTotal shown = "1"
    /\ UI.kpiOutOrZero shown = "2".
Proof.
  intros h gone.
  destruct (renderAlerts_figures h (UI.with_items [Some gone] UI.initial) [gone] eq_refl)
    as (shown & Hs & Ht & _ & Ho).
  exists shown. split; [exact Hs |]. split; [exact Ht | exact Ho].
Defined.

Lemma replace_all_chars (p : ascii -> bool) (by_ s : string) (c : ascii) :
  In c (list_ascii_of_string (UI.replace_all p by_ s)) ->
  In c (list_ascii_of_string by_) \/ (In c (list_ascii_of_string s) /\ p c = false).
Proof.
  assert (Happ : forall a b, In c (list_ascii_of_string (a ++ b)) ->
                   In c (list_ascii_of_string a) \/ In c (list_ascii_of_string b)).
  { induction a as [| x a IHa]; intros b; [rewrite append_nil; auto |].
    rewrite append_cons. cbn. intros [-> | Hin]; [auto |].
    destruct (IHa b Hin); auto. }
  induction s as [| d s IH]; [contradiction |].
  cbn [UI.replace_all]. destruct (p d) eqn:Hd.
  - intros Hin. apply Happ in Hin as [Hin | Hin]; [now left |].
    destruct (IH Hin) as [Hl | [Hr Hp]]; [now left | right]. cbn. auto.
  - cbn. intros [-> | Hin]; [right; auto |].
    destruct (IH Hin) as [Hl | [Hr Hp]]; [now left | right]. auto.
Qed.

Lemma replace_all_length (p : ascii -> bool) (c : ascii) (s : string) :
  String.length (UI.replace_all p (String c "") s) = String.length s.
Proof.
  induction s as [| d s IH]; [reflexivity |].
  cbn [UI.replace_all]. destruct (p d);
    [rewrite append_cons, append_nil |]; cbn [String.length]; now rewrite IH.
Qed.

Lemma substring_length (n m : nat) (s : string) :
  (String.length (String.substring n m s) <= m)%nat.
Proof.
  revert n m. induction s as [| c s IH]; intros n m.
  - destruct n, m; cbn; lia.
  - destruct n as [| n]; cbn [String.substring].
    + destruct m as [| m]; cbn; [lia |]. specialize (IH 0%nat m). lia.
    + apply IH.
Qed.

(** X28.  The time stamp in the name of the exported file has at most 19
    characters, and neither a colon nor the letter T is among them. *)
Theorem timestamp_plain (h : Host) (cal : Calendar) :
  (String.length (UI.timestamp h cal) <= 19)%nat
  /\ forall c, In c (list_ascii_of_string (UI.timestamp h cal)) ->
               c <> ":"%char /\ c <> "T"%char.
Proof.
  unfold UI.timestamp. split.
  - rewrite replace_all_length. apply substring_length.
  - intros c Hin. apply replace_all_chars in Hin as [Hin | [_ Hp]].
    + cbn in Hin. destruct Hin as [<- | []]. split; discriminate.
    + unfold UI.is_colon_or_T in Hp. apply orb_false_elim in Hp as [H1 H2].
      apply Ascii.eqb_neq in H1, H2. auto.
Qed.

(* ===================================================================== *)
(** ** Properties of the view *)
(* ===================================================================== *)

Lemma objects_raises (l : list (option Item)) :
  UI.objects l = UI.TypeError <-> In None l.
Proof.
  induction l as [| [i |] l IH]; cbn [UI.objects In].
  - split; [discriminate | contradiction].
  - destruct (UI.objects l) as [rest |].
    + split; [discriminate |]. intros [Hx | Hin]; [discriminate |].
      apply IH in Hin. discriminate.
    + split; [intros _; right; now apply IH | reflexivity].
  - split; auto.
Qed.

Lemma objects_some (l : list Item) : UI.objects (map Some l) = UI.Normal l.
Proof.
  induction l as [| i l IH]; [reflexivity |].
  cbn [map UI.objects]. now rewrite IH.
Qed.

Section View.
Variable h : Host.
Variable cal : Calendar.

(** X29.  The table can be computed exactly when no item of the state is
    [null]: a single [null] makes the view raise, and without one the view
    is the sorted filtered list.  Rows that the backend returns as objects
    never give a [null] item. *)
Theorem view_needs_objects (st : UI.state) :
  (UI.view h st = UI.TypeError <-> In None (UI.items st))
  /\ (forall l, UI.items st = map Some l ->
        UI.view h st
        = UI.Normal
            (InventoryService.sort h (InventoryService.filter h l (UI.filters st))
               (UI.sortField st) (UI.sortDirection st)))
  /\ (forall rows : list TableRow.t,
        ~ In None (map InventoryRepository.mapRowToItem (map Some rows))).
Proof.
  split; [| split].
  - rewrite <- objects_raises. unfold UI.view.
    destruct (UI.objects (UI.items st)); split; congruence.
  - intros l Hl. unfold UI.view. now rewrite Hl, objects_some.
  - intros rows Hin. apply in_map_iff in Hin as (r & Hr & Hin).
    apply in_map_iff in Hin as (row & <- & _). discriminate Hr.
Qed.

(** X30.  The date column and the expiry status agree on what has no date:
    [format] shows an empty date exactly when [classifyExpiry] gives the
    code [none], and then the label is "No Expiry". *)
Theorem blank_date_iff_no_expiry (D : value) :
  (DateUtils.format h cal D = ""
   <-> DateUtils.code (DateUtils.classifyExpiry h D) = "none")
  /\ (DateUtils.code (DateUtils.classifyExpiry h D) = "none"
      <-> DateUtils.label (DateUtils.classifyExpiry h D) = "No Expiry").
Proof.
  assert (Hfmt : DateUtils.format h cal D = "" <-> DateUtils.parse h D = None).
  { unfold DateUtils.format.
    destruct (DateUtils.parse h D) as [d |]; [| tauto].
    split; [| discriminate]. intros Heq.
    apply (f_equal String.length) in Heq.
    rewrite !length_append in Heq. cbn in Heq. lia. }
  rewrite Hfmt. unfold DateUtils.classifyExpiry.
  destruct (DateUtils.parse h D) as [e |]; [| split; tauto].
  destruct (_ <? 0); [split; split; discriminate |].
  destruct (_ <=? 90); split; split; discriminate.
Qed.

End View.
